(** * re9ai-whatsapp-adapter: message lifecycle and status reconciliation

    A shallow embedding of the Go services and handlers of the adapter
    (internal/models, internal/services, internal/handlers,
    internal/middleware) together with the properties of the message
    lifecycle that the specification states about them.

    Go strings are byte strings: they are modelled by [string], whose
    characters are the bytes.  The PostgreSQL table [whatsapp_messages] is a
    list of rows, each as the columns of the table hold it; Redis is a finite
    map from keys to the bytes stored under them, with an expiry instant; the
    logger is an append-only list of entries. *)

From Stdlib Require Import ZArith Ascii String List Bool Lia.
From stdpp Require Import base option gmap strings.

Local Open Scope string_scope.
Local Open Scope Z_scope.

(** ** Go standard library: package strings and strconv *)

Module GoStrings.

(** [strings.HasPrefix(s, prefix)] *)
Fixpoint HasPrefix (s pre : string) {struct pre} : bool :=
  match pre with
  | EmptyString => true
  | String p pre' =>
      match s with
      | EmptyString => false
      | String c s' => Ascii.eqb c p && HasPrefix s' pre'
      end
  end.

(** [strings.ReplaceAll(s, old, new)] for a non-empty [old], which is how
    every call site of the adapter uses it: the occurrences of [old] are
    replaced from left to right, without overlap.  [skip] counts the bytes of
    a matched occurrence that are still to be dropped. *)
Fixpoint replace_from (old new : string) (skip : nat) (s : string) : string :=
  match s with
  | EmptyString => EmptyString
  | String c s' =>
      match skip with
      | S k => replace_from old new k s'
      | O =>
          if HasPrefix s old
          then new ++ replace_from old new (Nat.pred (String.length old)) s'
          else String c (replace_from old new O s')
      end
  end.

Definition ReplaceAll (s old new : string) : string := replace_from old new O s.

Definition byte_val (c : ascii) : Z := Z.of_nat (nat_of_ascii c).

(** A byte below [utf8.RuneSelf]. *)
Definition is_ascii_byte (c : ascii) : bool := byte_val c <? 128.

Definition is_upper_byte (c : ascii) : bool :=
  (65 <=? byte_val c) && (byte_val c <=? 90).

Definition lower_byte (c : ascii) : ascii :=
  if is_upper_byte c then ascii_of_nat (nat_of_ascii c + 32) else c.

Fixpoint all_bytes (p : ascii -> bool) (s : string) : bool :=
  match s with
  | EmptyString => true
  | String c s' => p c && all_bytes p s'
  end.

Fixpoint some_byte (p : ascii -> bool) (s : string) : bool :=
  match s with
  | EmptyString => false
  | String c s' => p c || some_byte p s'
  end.

Fixpoint map_bytes (f : ascii -> ascii) (s : string) : string :=
  match s with
  | EmptyString => EmptyString
  | String c s' => String (f c) (map_bytes f s')
  end.

Section ToLower.
(** [strings.Map(unicode.ToLower, s)], the path [strings.ToLower] takes on
    a string with a byte outside ASCII; the Unicode tables belong to the Go
    runtime, not to the adapter. *)
Variable map_unicode_lower : string -> string.

(** [strings.ToLower(s)]: an ASCII-only string without upper-case letters
    is returned as it is, an ASCII-only string has its letters A-Z shifted
    to a-z, any other string goes through the Unicode mapping. *)
Definition ToLower (s : string) : string :=
  if all_bytes is_ascii_byte s then
    if some_byte is_upper_byte s then map_bytes lower_byte s else s
  else map_unicode_lower s.
End ToLower.

Definition is_digit (c : ascii) : bool :=
  (48 <=? byte_val c) && (byte_val c <=? 57).

Fixpoint parse_digits (s : string) (acc : Z) : option Z :=
  match s with
  | EmptyString => Some acc
  | String c s' =>
      if is_digit c then parse_digits s' (10 * acc + (byte_val c - 48)) else None
  end.

(** [strconv.Atoi(s)] on a 64-bit platform: an optional sign, then one or
    more decimal digits, the value within the range of [int]; [None] stands
    for a non-nil error. *)
Definition Atoi (s : string) : option Z :=
  let '(neg, body) :=
    match s with
    | String "+"%char r => (false, r)
    | String "-"%char r => (true, r)
    | _ => (false, s)
    end in
  match body with
  | EmptyString => None
  | _ =>
      match parse_digits body 0 with
      | None => None
      | Some n =>
          let v := if neg then - n else n in
          if (- 2 ^ 63 <=? v) && (v <=? 2 ^ 63 - 1) then Some v else None
      end
  end.

End GoStrings.

Import GoStrings.

(** ** internal/models *)

Inductive MessageDirection := MessageDirectionInbound | MessageDirectionOutbound.

Inductive MessageStatus :=
| MessageStatusPending
| MessageStatusSent
| MessageStatusDelivered
| MessageStatusRead
| MessageStatusFailed.

Inductive MessageType :=
| MessageTypeText
| MessageTypeImage
| MessageTypeDocument
| MessageTypeAudio
| MessageTypeVideo
| MessageTypeLocation
| MessageTypeContact.

(** [time.Time] as nanoseconds since the epoch, [uuid.UUID] by its canonical
    text form. *)
Definition Time := Z.
Definition UUID := string.

Record WhatsAppMessage := {
  ID : UUID;
  TwilioSID : string;
  From : string;
  To : string;
  Direction : MessageDirection;
  Type_ : MessageType;
  Status : MessageStatus;
  Content : string;
  MediaURL : option string;
  MediaType : option string;
  Timestamp : Time;
  CreatedAt : Time;
  UpdatedAt : Time;
  UserID : option UUID;
  SessionID : option UUID;
  ErrorCode : option string;
  ErrorMsg : option string
}.

(** The fields of [TwilioWebhookRequest] that the services read. *)
Record TwilioWebhookRequest := {
  wh_MessageSid : string;
  wh_From : string;
  wh_To : string;
  wh_Body : string;
  wh_NumMedia : string;
  wh_MediaContentType0 : string;
  wh_MediaUrl0 : string;
  wh_Timestamp : string;
  wh_SmsStatus : string;
  wh_ErrorCode : string;
  wh_ErrorMessage : string
}.

Record MessageStatusUpdate := {
  su_MessageSid : string;
  su_Status : MessageStatus;
  su_ErrorCode : option string;
  su_ErrorMessage : option string;
  su_Timestamp : Time
}.

(** ** internal/services/whatsapp.go: the pure helpers *)

(** [formatWhatsAppNumber] *)
Definition formatWhatsAppNumber (phoneNumber : string) : string :=
  if HasPrefix phoneNumber "whatsapp:" then phoneNumber
  else
    let cleaned := ReplaceAll phoneNumber " " "" in
    let cleaned := ReplaceAll cleaned "-" "" in
    let cleaned := ReplaceAll cleaned "(" "" in
    let cleaned := ReplaceAll cleaned ")" "" in
    let cleaned := if negb (HasPrefix cleaned "+") then "+" ++ cleaned else cleaned in
    "whatsapp:" ++ cleaned.

(** [determineMessageType] *)
Definition determineMessageType (contentType : string) : MessageType :=
  if HasPrefix contentType "image/" then MessageTypeImage
  else if HasPrefix contentType "video/" then MessageTypeVideo
  else if HasPrefix contentType "audio/" then MessageTypeAudio
  else if HasPrefix contentType "application/pdf" then MessageTypeDocument
  else if HasPrefix contentType "application/" then MessageTypeDocument
  else MessageTypeText.

Section MapStatus.
Variable map_unicode_lower : string -> string.

(** [mapTwilioStatus] *)
Definition mapTwilioStatus (twilioStatus : string) : MessageStatus :=
  let s := ToLower map_unicode_lower twilioStatus in
  if String.eqb s "queued" || String.eqb s "accepted" then MessageStatusPending
  else if String.eqb s "sent" then MessageStatusSent
  else if String.eqb s "delivered" then MessageStatusDelivered
  else if String.eqb s "read" then MessageStatusRead
  else if String.eqb s "failed" || String.eqb s "undelivered" then MessageStatusFailed
  else MessageStatusPending.
End MapStatus.

(** ** PostgreSQL: the column types of [whatsapp_messages]

    [CreateTables] (pkg/database) declares [twilio_sid VARCHAR(255)],
    [from_number] and [to_number VARCHAR(50)], [media_type VARCHAR(100)],
    [error_code VARCHAR(50)], the other text columns [TEXT], and the three
    instants [TIMESTAMP WITH TIME ZONE]. *)

(** A byte [10xxxxxx] continues a character of UTF-8. *)
Definition is_continuation_byte (c : ascii) : bool :=
  (128 <=? byte_val c) && (byte_val c <? 192).

(** The number of characters of a UTF-8 string. *)
Fixpoint char_length (s : string) : nat :=
  match s with
  | EmptyString => O
  | String c s' => if is_continuation_byte c then char_length s' else S (char_length s')
  end.

(** A value assigned to a column [VARCHAR(n)]: PostgreSQL refuses a value
    of more than [n] characters ("value too long for type character
    varying").  The one exception PostgreSQL makes, a value whose characters
    beyond the [n]-th are all spaces, which it cuts to [n] characters, is
    refused here like any other: no statement below depends on such a
    value. *)
Definition varchar (n : nat) (s : string) : option string :=
  if (char_length s <=? n)%nat then Some s else None.

(** The same for a column that may be NULL. *)
Definition varchar_null (n : nat) (s : option string) : option (option string) :=
  match s with
  | None => Some None
  | Some v => option_map Some (varchar n v)
  end.

(** An instant in a column [TIMESTAMP WITH TIME ZONE]: the driver sends the
    microseconds since the epoch and drops the nanoseconds below. *)
Definition timestamptz (t : Time) : Time := 1000 * (t / 1000).

(** A message as the columns of the table take it; [None]: a column
    refuses its value. *)
Definition pg_row (m : WhatsAppMessage) : option WhatsAppMessage :=
  match varchar 255 (TwilioSID m), varchar 50 (From m), varchar 50 (To m),
        varchar_null 100 (MediaType m), varchar_null 50 (ErrorCode m) with
  | Some sid, Some from, Some to, Some mediaType, Some errorCode =>
      Some {| ID := ID m; TwilioSID := sid; From := from; To := to;
              Direction := Direction m; Type_ := Type_ m; Status := Status m;
              Content := Content m; MediaURL := MediaURL m; MediaType := mediaType;
              Timestamp := timestamptz (Timestamp m);
              CreatedAt := timestamptz (CreatedAt m);
              UpdatedAt := timestamptz (UpdatedAt m);
              UserID := UserID m; SessionID := SessionID m;
              ErrorCode := errorCode; ErrorMsg := ErrorMsg m |}
  | _, _, _, _, _ => None
  end.

(** The values of a status update as its four columns take them. *)
Definition pg_update (u : MessageStatusUpdate) : option MessageStatusUpdate :=
  match varchar_null 50 (su_ErrorCode u) with
  | Some errorCode =>
      Some {| su_MessageSid := su_MessageSid u; su_Status := su_Status u;
              su_ErrorCode := errorCode; su_ErrorMessage := su_ErrorMessage u;
              su_Timestamp := timestamptz (su_Timestamp u) |}
  | None => None
  end.

(** ** The world the services run in *)

Inductive LogLevel := DebugLevel | InfoLevel | WarnLevel | ErrorLevel.

Record LogEntry := { log_level : LogLevel; log_msg : string }.

(** A goroutine started by a handler; it runs after the response. *)
Inductive Task :=
| processMediaAsync (message : WhatsAppMessage)
| forwardToOrchestrator (message : WhatsAppMessage).

(** The bytes Redis holds under a key, with the instant at which they
    expire. *)
Record CacheEntry := { ce_value : string; ce_expires : Time }.

(** [db_up] and [redis_up] say whether the statements and commands of the
    request at hand reach their server: when [db_up] is false PostgreSQL
    runs no statement (the connection is lost, or the server turns the
    statement down before it looks at a row: a text parameter that is not
    valid in the encoding of the database, for one) and every statement
    returns an error; when [redis_up] is false every Redis command fails.
    What the schema of [CreateTables] has to say about a row (the two
    uniqueness constraints, the bounds of the VARCHAR columns, the resolution
    of the timestamps) is modelled in [db_insert] and [db_update_status]. *)
Record World := {
  db : list WhatsAppMessage;        (* rows of whatsapp_messages *)
  db_up : bool;
  cache : gmap string CacheEntry;   (* Redis *)
  redis_up : bool;
  logs : list LogEntry;             (* oldest first *)
  ticks : nat;                      (* calls of time.Now() so far *)
  uuids : nat;                      (* calls of uuid.New() so far *)
  spawned : list Task               (* goroutines started, oldest first *)
}.

Definition set_db (rows : list WhatsAppMessage) (w : World) : World :=
  {| db := rows; db_up := db_up w; cache := cache w; redis_up := redis_up w;
     logs := logs w; ticks := ticks w; uuids := uuids w; spawned := spawned w |}.

Definition add_log (e : LogEntry) (w : World) : World :=
  {| db := db w; db_up := db_up w; cache := cache w; redis_up := redis_up w;
     logs := logs w ++ [e]; ticks := ticks w; uuids := uuids w; spawned := spawned w |}.

Definition add_tick (w : World) : World :=
  {| db := db w; db_up := db_up w; cache := cache w; redis_up := redis_up w;
     logs := logs w; ticks := S (ticks w); uuids := uuids w; spawned := spawned w |}.

Definition add_uuid (w : World) : World :=
  {| db := db w; db_up := db_up w; cache := cache w; redis_up := redis_up w;
     logs := logs w; ticks := ticks w; uuids := S (uuids w); spawned := spawned w |}.

Definition add_task (t : Task) (w : World) : World :=
  {| db := db w; db_up := db_up w; cache := cache w; redis_up := redis_up w;
     logs := logs w; ticks := ticks w; uuids := uuids w; spawned := spawned w ++ [t] |}.

(** Stateful code is a function of the world. *)
Definition M (A : Type) : Type := World -> A * World.

Definition ret {A} (a : A) : M A := fun w => (a, w).

Definition bind {A B} (m : M A) (k : A -> M B) : M B :=
  fun w => let '(a, w') := m w in k a w'.

Declare Scope go_scope.
Delimit Scope go_scope with go.
Notation "'call' x <~ m ; k" := (bind m (fun x => k))
  (at level 10, x name, m at level 100, k at level 200) : go_scope.
Notation "'exec' m ; k" := (bind m (fun _ => k))
  (at level 10, m at level 100, k at level 200) : go_scope.
Local Open Scope go_scope.

(** A Go [(T, error)] result, and a Go [error] ([None] is nil). *)
Inductive result (A : Type) := Ok (a : A) | Err (e : string).
Arguments Ok {A} a.
Arguments Err {A} e.
Definition error := option string.

Definition log (l : LogLevel) (s : string) : M unit :=
  fun w => (tt, add_log {| log_level := l; log_msg := s |} w).

Definition spawn (t : Task) : M unit := fun w => (tt, add_task t w).

(** ** The Go runtime and the libraries around the adapter *)

Section Services.
(** The readings of the wall clock, in the order in which they are taken. *)
Variable clock : nat -> Time.
(** The identifiers [uuid.New()] hands out, in order. *)
Variable uuid_New : nat -> UUID.
(** [uuid.Parse]; [None] stands for a non-nil error. *)
Variable uuid_Parse : string -> option UUID.
(** [time.Parse(time.RFC3339, s)]; [None] stands for a non-nil error. *)
Variable time_Parse_RFC3339 : string -> option Time.
Variable map_unicode_lower : string -> string.

(** [time.Now()] *)
Definition time_Now : M Time := fun w => (clock (ticks w), add_tick w).

(** [uuid.New()] *)
Definition uuid_New_ : M UUID := fun w => (uuid_New (uuids w), add_uuid w).

(** [24*time.Hour], in nanoseconds. *)
Definition ttl_24h : Z := 24 * 3600 * 1000000000.

(** [redis.Set(ctx, key, value, ttl).Err()] with a [*models.WhatsAppMessage]
    as value.  The client (go-redis v8) writes a value that is a string, a
    number, a byte slice or an [encoding.BinaryMarshaler]; the struct is none
    of these and has no [MarshalBinary] method, so the command is dropped
    before it is sent and the call returns an error, with Redis reachable or
    not.  Nothing is stored. *)
Definition redis_Set (key : string) (value : WhatsAppMessage) (ttl : Z) : M error :=
  fun w =>
    if redis_up w then
      (Some "redis: can't marshal *models.WhatsAppMessage (implement encoding.BinaryMarshaler)",
       w)
    else (Some "redis: connection refused", w).

(** [redis.Get(ctx, key).Scan(&message)] with a [*models.WhatsAppMessage]
    as destination: an error when Redis is not reachable, when the key is
    absent and when its entry has expired; for bytes that are there [Scan]
    fails too, the struct having no [UnmarshalBinary] method.  The call
    never returns nil. *)
Definition redis_Get (key : string) : M (result WhatsAppMessage) :=
  fun w =>
    if redis_up w then
      match cache w !! key with
      | Some e =>
          if clock (ticks w) <? ce_expires e
          then (Err "redis: can't unmarshal *models.WhatsAppMessage (consider implementing BinaryUnmarshaler)",
                w)
          else (Err "redis: nil", w)
      | None => (Err "redis: nil", w)
      end
    else (Err "redis: connection refused", w).

(** [INSERT INTO whatsapp_messages ...]: the columns take their values
    ([pg_row]); [id] is the primary key and [twilio_sid] is declared UNIQUE
    (pkg/database, CreateTables). *)
Definition db_insert (message : WhatsAppMessage) : M error :=
  fun w =>
    if db_up w then
      match pg_row message with
      | None => (Some "value too long for type character varying", w)
      | Some row =>
          if List.existsb (fun r => String.eqb (ID r) (ID row)
                               || String.eqb (TwilioSID r) (TwilioSID row)) (db w)
          then (Some "duplicate key value violates unique constraint", w)
          else (None, set_db (db w ++ [row]) w)
      end
    else (Some "connection refused", w).

(** The row after
    [SET status = $2, error_code = $3, error_message = $4, updated_at = $5]. *)
Definition set_status (u : MessageStatusUpdate) (r : WhatsAppMessage) : WhatsAppMessage :=
  {| ID := ID r; TwilioSID := TwilioSID r; From := From r; To := To r;
     Direction := Direction r; Type_ := Type_ r;
     Status := su_Status u;
     Content := Content r; MediaURL := MediaURL r; MediaType := MediaType r;
     Timestamp := Timestamp r; CreatedAt := CreatedAt r;
     UpdatedAt := su_Timestamp u;
     UserID := UserID r; SessionID := SessionID r;
     ErrorCode := su_ErrorCode u; ErrorMsg := su_ErrorMessage u |}.

Definition update_rows (u : MessageStatusUpdate) (rows : list WhatsAppMessage)
  : list WhatsAppMessage :=
  map (fun r => if String.eqb (TwilioSID r) (su_MessageSid u) then set_status u r else r) rows.

Definition rows_matching (sid : string) (rows : list WhatsAppMessage) : nat :=
  List.length (List.filter (fun r => String.eqb (TwilioSID r) sid) rows).

(** [UPDATE whatsapp_messages SET ... WHERE twilio_sid = $1]: the number of
    rows affected, or an error.  The assignments are made row by row: when a
    row matches and [error_code] refuses its value the statement fails and
    leaves the table as it was; when no row matches nothing is assigned. *)
Definition db_update_status (u : MessageStatusUpdate) : M (result nat) :=
  fun w =>
    if db_up w then
      match pg_update u with
      | Some assigned =>
          (Ok (rows_matching (su_MessageSid u) (db w)),
           set_db (update_rows assigned (db w)) w)
      | None =>
          if Nat.eqb (rows_matching (su_MessageSid u) (db w)) 0 then (Ok O, w)
          else (Err "value too long for type character varying(50)", w)
      end
    else (Err "connection refused", w).

(** [sql.ErrNoRows] of database/sql and [pgx.ErrNoRows] of the driver: two
    error values; an error is told from another by its text here. *)
Definition sql_ErrNoRows : string := "sql: no rows in result set".
Definition pgx_ErrNoRows : string := "no rows in result set".

(** [db.QueryRow(ctx, "SELECT ... FROM whatsapp_messages WHERE id = $1", id)]
    followed by [Scan]: the row, [pgx.ErrNoRows] when there is none, or the
    error of the query. *)
Definition db_select_by_id (id : UUID) : M (result WhatsAppMessage) :=
  fun w =>
    if db_up w then
      match List.find (fun r => String.eqb (ID r) id) (db w) with
      | Some r => (Ok r, w)
      | None => (Err pgx_ErrNoRows, w)
      end
    else (Err "connection refused", w).

Definition warn_on (e : error) (msg : string) : M unit :=
  match e with
  | Some _ => log WarnLevel msg
  | None => ret tt
  end.

(** *** internal/services/message.go *)

(** [MessageService.StoreMessage] *)
Definition StoreMessage (message : WhatsAppMessage) : M error :=
  exec log InfoLevel "Storing WhatsApp message";
  call err <~ db_insert message;
  match err with
  | Some e =>
      exec log ErrorLevel "Failed to store message in database";
      ret (Some ("failed to store message: " ++ e))
  | None =>
      let cacheKey := "message:" ++ ID message in
      call cerr <~ redis_Set cacheKey message ttl_24h;
      exec warn_on cerr "Failed to cache message in Redis";
      exec log InfoLevel "Message stored successfully";
      ret None
  end.

(** [MessageService.GetMessage]; the error of [Scan] is compared with
    [sql.ErrNoRows] by [==]. *)
Definition GetMessage (messageID : string) : M (result WhatsAppMessage) :=
  exec log InfoLevel "Retrieving message";
  match uuid_Parse messageID with
  | None => ret (Err "invalid message ID format")
  | Some id =>
      let cacheKey := "message:" ++ messageID in
      call cached <~ redis_Get cacheKey;
      match cached with
      | Ok message =>
          exec log DebugLevel "Message retrieved from cache";
          ret (Ok message)
      | Err _ =>
          call row <~ db_select_by_id id;
          match row with
          | Err e =>
              if String.eqb e sql_ErrNoRows then ret (Err "message not found")
              else
                exec log ErrorLevel "Failed to retrieve message from database";
                ret (Err ("failed to retrieve message: " ++ e))
          | Ok message =>
              call cerr <~ redis_Set cacheKey message ttl_24h;
              exec warn_on cerr "Failed to cache retrieved message";
              exec log InfoLevel "Message retrieved successfully";
              ret (Ok message)
          end
      end
  end.

(** [MessageService.UpdateMessageStatus]; after the UPDATE the source has
    the comment "Invalidate cache" and no statement. *)
Definition UpdateMessageStatus (statusUpdate : MessageStatusUpdate) : M error :=
  exec log InfoLevel "Updating message status";
  call res <~ db_update_status statusUpdate;
  match res with
  | Err e =>
      exec log ErrorLevel "Failed to update message status in database";
      ret (Some ("failed to update message status: " ++ e))
  | Ok rowsAffected =>
      if Nat.eqb rowsAffected 0 then
        exec log WarnLevel "No message found to update";
        ret (Some "message not found for status update")
      else
        exec log InfoLevel "Message status updated successfully";
        ret None
  end.

(** *** internal/services/whatsapp.go *)

(** [WhatsAppService.ProcessIncomingMessage] *)
Definition ProcessIncomingMessage (webhookData : TwilioWebhookRequest)
  : M (result WhatsAppMessage) :=
  exec log InfoLevel "Processing incoming WhatsApp message";
  let '(messageType, mediaURL, mediaType) :=
    match Atoi (wh_NumMedia webhookData) with
    | Some numMedia =>
        if (0 <? numMedia) && negb (String.eqb (wh_MediaUrl0 webhookData) "")
        then (determineMessageType (wh_MediaContentType0 webhookData),
              Some (wh_MediaUrl0 webhookData),
              Some (wh_MediaContentType0 webhookData))
        else (MessageTypeText, None, None)
    | None => (MessageTypeText, None, None)
    end in
  call now <~ time_Now;
  let timestamp :=
    if String.eqb (wh_Timestamp webhookData) "" then now
    else match time_Parse_RFC3339 (wh_Timestamp webhookData) with
         | Some parsed => parsed
         | None => now
         end in
  call id <~ uuid_New_;
  call createdAt <~ time_Now;
  call updatedAt <~ time_Now;
  let message :=
    {| ID := id;
       TwilioSID := wh_MessageSid webhookData;
       From := wh_From webhookData;
       To := wh_To webhookData;
       Direction := MessageDirectionInbound;
       Type_ := messageType;
       Status := MessageStatusDelivered;
       Content := wh_Body webhookData;
       MediaURL := mediaURL;
       MediaType := mediaType;
       Timestamp := timestamp;
       CreatedAt := createdAt;
       UpdatedAt := updatedAt;
       UserID := None; SessionID := None; ErrorCode := None; ErrorMsg := None |} in
  exec log InfoLevel "Incoming WhatsApp message processed successfully";
  ret (Ok message).

(** [WhatsAppService.ProcessStatusUpdate] *)
Definition ProcessStatusUpdate (webhookData : TwilioWebhookRequest)
  : M (result MessageStatusUpdate) :=
  exec log InfoLevel "Processing WhatsApp message status update";
  let status := mapTwilioStatus map_unicode_lower (wh_SmsStatus webhookData) in
  call now <~ time_Now;
  let update :=
    {| su_MessageSid := wh_MessageSid webhookData;
       su_Status := status;
       su_ErrorCode := None;
       su_ErrorMessage := None;
       su_Timestamp := now |} in
  let update :=
    if negb (String.eqb (wh_ErrorCode webhookData) "") then
      {| su_MessageSid := su_MessageSid update;
         su_Status := MessageStatusFailed;
         su_ErrorCode := Some (wh_ErrorCode webhookData);
         su_ErrorMessage := Some (wh_ErrorMessage webhookData);
         su_Timestamp := su_Timestamp update |}
    else update in
  exec log InfoLevel "WhatsApp message status update processed";
  ret (Ok update).

(** *** HTTP *)

Inductive Body :=
| NoBody
| ErrorJSON (msg : string)            (* gin.H{"error": msg} *)
| MessageJSON (m : WhatsAppMessage).

Record Response := { resp_status : Z; resp_body : Body }.

Definition StatusOK : Z := 200.
Definition StatusBadRequest : Z := 400.
Definition StatusUnauthorized : Z := 401.
Definition StatusNotFound : Z := 404.
Definition StatusInternalServerError : Z := 500.

(** A webhook POST: the [X-Twilio-Signature] header (empty when absent),
    the raw body and URL, and what [c.ShouldBind] makes of the form
    ([None]: the form cannot be decoded). *)
Record Request := {
  req_signature : string;
  req_url : string;
  req_body : string;
  req_form : option TwilioWebhookRequest
}.

(** *** internal/middleware/auth.go *)

Inductive Outcome := Next | Abort (r : Response).

(** [WhatsAppSignatureVerification(secret)] *)
Definition WhatsAppSignatureVerification (secret : string) (req : Request) : Outcome :=
  if String.eqb secret "" then Next
  else if String.eqb (req_signature req) "" then
    Abort {| resp_status := StatusUnauthorized; resp_body := ErrorJSON "Missing signature" |}
  else Next.

Definition hex_digit (n : nat) : ascii :=
  match String.get n "0123456789abcdef" with
  | Some c => c
  | None => "0"%char
  end.

(** [hex.EncodeToString] *)
Fixpoint hex_EncodeToString (bytes : string) : string :=
  match bytes with
  | EmptyString => EmptyString
  | String c rest =>
      String (hex_digit (nat_of_ascii c / 16))
        (String (hex_digit (nat_of_ascii c mod 16)) (hex_EncodeToString rest))
  end.

(** HMAC-SHA256 of a message under a key, from crypto/hmac and
    crypto/sha256: the 32 bytes of the digest. *)
Variable hmac_sha256 : string -> string -> string.

(** [verifySignature]; no function of the adapter calls it. *)
Definition verifySignature (signature secret body url : string) : bool :=
  let expectedSignature := hex_EncodeToString (hmac_sha256 secret (url ++ body)) in
  String.eqb signature expectedSignature.

(** *** internal/handlers/whatsapp.go *)

(** [WhatsAppHandler.HandleMessage] *)
Definition HandleMessage (req : Request) : M Response :=
  match req_form req with
  | None =>
      exec log ErrorLevel "Failed to parse webhook data";
      ret {| resp_status := StatusBadRequest; resp_body := ErrorJSON "Invalid webhook data" |}
  | Some webhookData =>
      exec log InfoLevel "Received WhatsApp message webhook";
      call processed <~ ProcessIncomingMessage webhookData;
      match processed with
      | Err _ =>
          exec log ErrorLevel "Failed to process incoming message";
          ret {| resp_status := StatusInternalServerError;
                 resp_body := ErrorJSON "Failed to process message" |}
      | Ok message =>
          call err <~ StoreMessage message;
          (* Don't return error to Twilio, message was processed successfully *)
          exec (match err with
                | Some _ => log ErrorLevel "Failed to store message in database"
                | None => ret tt
                end);
          exec (match MediaURL message with
                | Some _ => spawn (processMediaAsync message)
                | None => ret tt
                end);
          exec spawn (forwardToOrchestrator message);
          ret {| resp_status := StatusOK; resp_body := NoBody |}
      end
  end.

(** [WhatsAppHandler.HandleStatus] *)
Definition HandleStatus (req : Request) : M Response :=
  match req_form req with
  | None =>
      exec log ErrorLevel "Failed to parse status webhook data";
      ret {| resp_status := StatusBadRequest; resp_body := ErrorJSON "Invalid webhook data" |}
  | Some webhookData =>
      exec log InfoLevel "Received WhatsApp status update webhook";
      call processed <~ ProcessStatusUpdate webhookData;
      match processed with
      | Err _ =>
          exec log ErrorLevel "Failed to process status update";
          ret {| resp_status := StatusInternalServerError;
                 resp_body := ErrorJSON "Failed to process status update" |}
      | Ok statusUpdate =>
          call err <~ UpdateMessageStatus statusUpdate;
          (* Don't return error to Twilio *)
          exec (match err with
                | Some _ => log ErrorLevel "Failed to update message status in database"
                | None => ret tt
                end);
          ret {| resp_status := StatusOK; resp_body := NoBody |}
      end
  end.

(** [WhatsAppHandler.GetMessage], on the path parameter [messageId]. *)
Definition HandleGetMessage (messageID : string) : M Response :=
  exec log InfoLevel "Retrieving message";
  call res <~ GetMessage messageID;
  match res with
  | Err _ =>
      exec log ErrorLevel "Failed to retrieve message";
      ret {| resp_status := StatusNotFound; resp_body := ErrorJSON "Message not found" |}
  | Ok message => ret {| resp_status := StatusOK; resp_body := MessageJSON message |}
  end.

(** *** internal/middleware/common.go *)

(** [Logger(log)], the first of the global middleware of [main]: the
    logger of gin reads the clock, runs the rest of the chain, reads the
    clock again and calls the formatter, which writes the line "HTTP
    Request" and returns the empty string; this happens for a request that
    a later middleware aborts as for any other.  [Recovery], [CORS],
    [Security] and [RateLimit], which follow it, let a GET or POST request
    through unchanged (no handler below panics; [CORS] answers OPTIONS
    requests itself; [RateLimit] calls [c.Next()] and nothing else). *)
Definition Logger {A} (next : M A) : M A :=
  exec time_Now;
  call r <~ next;
  exec time_Now;
  exec log InfoLevel "HTTP Request";
  ret r.

(** *** cmd: the routes of the webhook group

    [POST /webhooks/whatsapp/messages] and [POST /webhooks/whatsapp/status]
    run the global middleware, the signature middleware configured with
    [cfg.WhatsAppWebhookSecret], then the handler. *)
Definition guarded (secret : string) (handler : Request -> M Response) (req : Request)
  : M Response :=
  match WhatsAppSignatureVerification secret req with
  | Abort r => ret r
  | Next => handler req
  end.

Definition post_messages (secret : string) (req : Request) : M Response :=
  Logger (guarded secret HandleMessage req).

Definition post_status (secret : string) (req : Request) : M Response :=
  Logger (guarded secret HandleStatus req).

(** [GET /api/v1/messages/:messageId] *)
Definition get_message (messageID : string) : M Response :=
  Logger (HandleGetMessage messageID).
End Services.


(** ** The lifecycle of the specification

    The source has no notion of order between statuses; these two definitions
    follow the words of the specification (section 4.2): the chain
    pending, sent, delivered, read, with read and failed terminal. *)

Definition spec_terminal (s : MessageStatus) : bool :=
  match s with
  | MessageStatusRead | MessageStatusFailed => true
  | _ => false
  end.

Definition spec_ordinal (s : MessageStatus) : option nat :=
  match s with
  | MessageStatusPending => Some 0%nat
  | MessageStatusSent => Some 1%nat
  | MessageStatusDelivered => Some 2%nat
  | MessageStatusRead => Some 3%nat
  | MessageStatusFailed => None
  end.

(** The target status is ordinally behind the current one. *)
Definition spec_behind (target current : MessageStatus) : bool :=
  match spec_ordinal target, spec_ordinal current with
  | Some t, Some c => Nat.ltb t c
  | _, _ => false
  end.

(** The case labels of [mapTwilioStatus]. *)
Definition mapped_statuses : list string :=
  ["queued"; "accepted"; "sent"; "delivered"; "read"; "failed"; "undelivered"].

(** ** A concrete runtime, for running the model on examples *)

Module Sample.

Definition clock (n : nat) : Time := 1700000000000000000 + Z.of_nat n.

Definition uuid_New (n : nat) : UUID :=
  match n with
  | O => "0b0e7a52-8f0c-4c1e-9d3a-5a1f0c2e4b10"
  | S O => "6f9619ff-8b86-4d01-b42d-00cf4fc964ff"
  | _ => "c2d3e4f5-0a1b-4c2d-8e3f-4a5b6c7d8e9f"
  end.

(** Accepts the canonical 36-byte form only. *)
Definition uuid_Parse (s : string) : option UUID :=
  if Nat.eqb (String.length s) 36 then Some s else None.

(** Knows one instant; every other string is malformed. *)
Definition time_Parse_RFC3339 (s : string) : option Time :=
  if String.eqb s "2023-11-14T22:13:20Z" then Some 1700000000000000000 else None.

(** Only used on ASCII strings, where it is never reached. *)
Definition map_unicode_lower (s : string) : string := s.

Definition empty_world : World :=
  {| db := []; db_up := true; cache := ∅; redis_up := true;
     logs := []; ticks := O; uuids := O; spawned := [] |}.

Definition form (sid from body numMedia ts smsStatus errorCode : string)
  : TwilioWebhookRequest :=
  {| wh_MessageSid := sid; wh_From := from; wh_To := "whatsapp:+14155238886";
     wh_Body := body; wh_NumMedia := numMedia;
     wh_MediaContentType0 := ""; wh_MediaUrl0 := "";
     wh_Timestamp := ts; wh_SmsStatus := smsStatus;
     wh_ErrorCode := errorCode; wh_ErrorMessage := "" |}.

Definition post (signature : string) (f : TwilioWebhookRequest) : Request :=
  {| req_signature := signature;
     req_url := "https://adapter.example/webhooks/whatsapp/status";
     req_body := ""; req_form := Some f |}.

(** The inbound message of the specification's scenario. *)
Definition sm1_inbound : TwilioWebhookRequest :=
  form "SM1" "+551199990000" "oi" "0" "" "" "".

Definition sm1_status (smsStatus : string) : TwilioWebhookRequest :=
  form "SM1" "" "" "" "" smsStatus "".

(** A stored row for SM1 with a given status. *)
Definition sm1_row (s : MessageStatus) : WhatsAppMessage :=
  {| ID := uuid_New 0; TwilioSID := "SM1"; From := "+551199990000";
     To := "whatsapp:+14155238886"; Direction := MessageDirectionOutbound;
     Type_ := MessageTypeText; Status := s; Content := "oi";
     MediaURL := None; MediaType := None;
     Timestamp := clock 0; CreatedAt := clock 0; UpdatedAt := clock 0;
     UserID := None; SessionID := None; ErrorCode := None; ErrorMsg := None |}.

Definition world_with (rows : list WhatsAppMessage) (up : bool) : World :=
  {| db := rows; db_up := up; cache := ∅; redis_up := true;
     logs := []; ticks := 5%nat; uuids := 1%nat; spawned := [] |}.

Definition update (sid : string) (s : MessageStatus) : MessageStatusUpdate :=
  {| su_MessageSid := sid; su_Status := s; su_ErrorCode := None;
     su_ErrorMessage := None; su_Timestamp := clock 7 |}.

End Sample.

(** ** Responses and log lines the properties speak of *)

(** [c.Status(http.StatusOK)] *)
Definition ok_response : Response := {| resp_status := StatusOK; resp_body := NoBody |}.

(** The warning of [UpdateMessageStatus] when no row matches. *)
Definition unknown_message_log : LogEntry :=
  {| log_level := WarnLevel; log_msg := "No message found to update" |}.

(** The error lines of the handlers after a failed store call. *)
Definition store_failed_log : LogEntry :=
  {| log_level := ErrorLevel; log_msg := "Failed to store message in database" |}.

Definition update_failed_log : LogEntry :=
  {| log_level := ErrorLevel; log_msg := "Failed to update message status in database" |}.

(** Unfolds the monad and the effects of the runtime. *)
Ltac run_monad :=
  unfold bind, ret, log, spawn, warn_on, time_Now, uuid_New_; simpl.

From Stdlib Require Import Sorted Permutation.

(** ** Notions used to state further properties of the store *)

(** The two uniqueness constraints of [whatsapp_messages]: the primary key
    [id] and the UNIQUE column [twilio_sid]. *)
Definition table_unique (rows : list WhatsAppMessage) : Prop :=
  List.NoDup (map ID rows) /\ List.NoDup (map TwilioSID rows).

(** A value fits a column [VARCHAR(n)], that may be NULL in the second
    case. *)
Definition fits (n : nat) (s : string) : Prop := (char_length s <= n)%nat.

Definition fits_null (n : nat) (s : option string) : Prop :=
  match s with
  | Some v => fits n v
  | None => True
  end.

(** Every VARCHAR column of the table has room for its value. *)
Definition fits_columns (m : WhatsAppMessage) : Prop :=
  fits 255 (TwilioSID m) /\ fits 50 (From m) /\ fits 50 (To m) /\
  fits_null 100 (MediaType m) /\ fits_null 50 (ErrorCode m).

(** A message with its three instants as TIMESTAMP WITH TIME ZONE keeps
    them, cut to microseconds. *)
Definition stored (m : WhatsAppMessage) : WhatsAppMessage :=
  {| ID := ID m; TwilioSID := TwilioSID m; From := From m; To := To m;
     Direction := Direction m; Type_ := Type_ m; Status := Status m;
     Content := Content m; MediaURL := MediaURL m; MediaType := MediaType m;
     Timestamp := timestamptz (Timestamp m);
     CreatedAt := timestamptz (CreatedAt m);
     UpdatedAt := timestamptz (UpdatedAt m);
     UserID := UserID m; SessionID := SessionID m;
     ErrorCode := ErrorCode m; ErrorMsg := ErrorMsg m |}.

(** A string of [n] bytes [c]. *)
Fixpoint repeat_byte (c : ascii) (n : nat) : string :=
  match n with
  | O => EmptyString
  | S k => String c (repeat_byte c k)
  end.

(** A message collides with a row on one of the two constrained columns. *)
Definition collides (message : WhatsAppMessage) (rows : list WhatsAppMessage) : bool :=
  List.existsb (fun r => String.eqb (ID r) (ID message)
                         || String.eqb (TwilioSID r) (TwilioSID message)) rows.

(** The world with PostgreSQL reachable or not, the rest unchanged. *)
Definition with_db_up (up : bool) (w : World) : World :=
  {| db := db w; db_up := up; cache := cache w; redis_up := redis_up w;
     logs := logs w; ticks := ticks w; uuids := uuids w; spawned := spawned w |}.

(** A string without the occurrences of one byte. *)
Fixpoint drop_byte (c : ascii) (s : string) : string :=
  match s with
  | EmptyString => EmptyString
  | String b s' => if Ascii.eqb b c then drop_byte c s' else String b (drop_byte c s')
  end.

(** The bytes [formatWhatsAppNumber] strips. *)
Definition is_separator (b : ascii) : bool :=
  Ascii.eqb b " " || Ascii.eqb b "-" || Ascii.eqb b "(" || Ascii.eqb b ")".

(** What a lookup by internal id has to answer from: the table and the
    reachability of PostgreSQL. *)
Definition same_table (w w' : World) : Prop := db w' = db w /\ db_up w' = db_up w.

(** The row the SELECT by primary key finds. *)
Definition row_of (id : UUID) (rows : list WhatsAppMessage) : option WhatsAppMessage :=
  List.find (fun r => String.eqb (ID r) id) rows.

(** The test of [ProcessIncomingMessage] for a media attachment. *)
Definition carries_media (wh : TwilioWebhookRequest) : bool :=
  match Atoi (wh_NumMedia wh) with
  | Some n => (0 <? n) && negb (String.eqb (wh_MediaUrl0 wh) "")
  | None => false
  end.

Definition not_found_response : Response :=
  {| resp_status := StatusNotFound; resp_body := ErrorJSON "Message not found" |}.

(** A digit of lower-case hexadecimal. *)
Definition is_lower_hex (c : ascii) : bool :=
  is_digit c || ((97 <=? byte_val c) && (byte_val c <=? 102)).

Definition unauthorized_response : Response :=
  {| resp_status := StatusUnauthorized; resp_body := ErrorJSON "Missing signature" |}.

(** The line the global logger middleware writes for every request. *)
Definition access_log : LogEntry :=
  {| log_level := InfoLevel; log_msg := "HTTP Request" |}.

(** ** The services beyond PostgreSQL and Redis

    The outbound path calls the Twilio REST API and the media service calls
    S3.  [Cloud] adds to the world the calls submitted to Twilio, oldest
    first, and the objects of the configured S3 bucket by key. *)

Record CreateMessageParams := {
  p_To : string;
  p_From : string;
  p_Body : option string;
  p_MediaUrl : option (list string);
  p_ContentSid : option string;
  p_ContentVariables : option (gmap string string)
}.

(** The fields of Twilio's answer that the service reads. *)
Record TwilioMessage := { tm_Sid : string; tm_Status : string }.

Record S3Object := { obj_body : string; obj_content_type : string; obj_acl : string }.

Record Cloud := {
  world : World;
  twilio_calls : list CreateMessageParams;
  s3 : gmap string S3Object;
  s3_up : bool        (* false: every S3 request fails *)
}.

Definition C (A : Type) : Type := Cloud -> A * Cloud.

Definition retC {A} (a : A) : C A := fun c => (a, c).

Definition bindC {A B} (m : C A) (k : A -> C B) : C B :=
  fun c => let '(a, c') := m c in k a c'.

(** A computation on the world, run inside the cloud. *)
Definition lift {A} (m : M A) : C A :=
  fun c =>
    let '(a, w') := m (world c) in
    (a, {| world := w'; twilio_calls := twilio_calls c; s3 := s3 c; s3_up := s3_up c |}).

Declare Scope cloud_scope.
Delimit Scope cloud_scope with cloud.
Notation "'call' x <~ m ; k" := (bindC m (fun x => k))
  (at level 10, x name, m at level 100, k at level 200) : cloud_scope.
Notation "'exec' m ; k" := (bindC m (fun _ => k))
  (at level 10, m at level 100, k at level 200) : cloud_scope.

(** [SendMessageRequest]; [Type] is whatever string the JSON body holds. *)
Record SendMessageRequest := {
  sr_To : string;
  sr_Content : string;
  sr_Type : string;
  sr_MediaURL : option string;
  sr_MediaType : option string;
  sr_Variables : gmap string string;
  sr_Template : option string
}.

Record SendMessageResponse := {
  rs_ID : UUID;
  rs_TwilioSID : string;
  rs_Status : MessageStatus;
  rs_CreatedAt : Time
}.

Inductive ApiBody :=
| ApiError (msg : string)                 (* gin.H{"error": msg} *)
| ApiSent (response : SendMessageResponse)
| ApiText (text : string)                 (* c.String *)
| ApiEmpty.

Record ApiResponse := { api_status : Z; api_body : ApiBody }.

(** The values of [MessageType] that the CHECK constraint of the column
    [message_type] admits. *)
Definition MessageType_of_string (s : string) : option MessageType :=
  if String.eqb s "text" then Some MessageTypeText
  else if String.eqb s "image" then Some MessageTypeImage
  else if String.eqb s "document" then Some MessageTypeDocument
  else if String.eqb s "audio" then Some MessageTypeAudio
  else if String.eqb s "video" then Some MessageTypeVideo
  else if String.eqb s "location" then Some MessageTypeLocation
  else if String.eqb s "contact" then Some MessageTypeContact
  else None.

Section Outbound.
Local Open Scope cloud_scope.
Variable clock : nat -> Time.
Variable uuid_New : nat -> UUID.
(** [cfg.TwilioWhatsAppFrom] *)
Variable fromNumber : string.
(** The Twilio REST API: the answer to [client.Api.CreateMessage(params)]. *)
Variable twilio_CreateMessage : CreateMessageParams -> result TwilioMessage.

Definition CreateMessage (params : CreateMessageParams) : C (result TwilioMessage) :=
  fun c =>
    (twilio_CreateMessage params,
     {| world := world c; twilio_calls := twilio_calls c ++ [params];
        s3 := s3 c; s3_up := s3_up c |}).

(** The tail the three send methods share: the response built from Twilio's
    answer. *)
Definition sent_response (resp : TwilioMessage) (done : string) : C (result SendMessageResponse) :=
  call id <~ lift (uuid_New_ uuid_New);
  call now <~ lift (time_Now clock);
  exec lift (log InfoLevel done);
  retC (Ok {| rs_ID := id; rs_TwilioSID := tm_Sid resp;
              rs_Status := MessageStatusSent; rs_CreatedAt := now |}).

(** [WhatsAppService.SendTextMessage] *)
Definition SendTextMessage (to content : string) : C (result SendMessageResponse) :=
  exec lift (log InfoLevel "Sending WhatsApp text message");
  let toNumber := formatWhatsAppNumber to in
  let params := {| p_To := toNumber; p_From := fromNumber; p_Body := Some content;
                   p_MediaUrl := None; p_ContentSid := None;
                   p_ContentVariables := None |} in
  call res <~ CreateMessage params;
  match res with
  | Err e =>
      exec lift (log ErrorLevel "Failed to send WhatsApp message");
      retC (Err ("failed to send message: " ++ e))
  | Ok resp => sent_response resp "WhatsApp message sent successfully"
  end.

(** [WhatsAppService.SendMediaMessage] *)
Definition SendMediaMessage (to content mediaURL mediaType : string)
  : C (result SendMessageResponse) :=
  exec lift (log InfoLevel "Sending WhatsApp media message");
  let toNumber := formatWhatsAppNumber to in
  let params := {| p_To := toNumber; p_From := fromNumber;
                   p_Body := if negb (String.eqb content "") then Some content else None;
                   p_MediaUrl := Some [mediaURL]; p_ContentSid := None;
                   p_ContentVariables := None |} in
  call res <~ CreateMessage params;
  match res with
  | Err e =>
      exec lift (log ErrorLevel "Failed to send WhatsApp media message");
      retC (Err ("failed to send media message: " ++ e))
  | Ok resp => sent_response resp "WhatsApp media message sent successfully"
  end.

(** [WhatsAppService.SendTemplateMessage] *)
Definition SendTemplateMessage (to templateSID : string) (variables : gmap string string)
  : C (result SendMessageResponse) :=
  exec lift (log InfoLevel "Sending WhatsApp template message");
  let toNumber := formatWhatsAppNumber to in
  let params := {| p_To := toNumber; p_From := fromNumber; p_Body := None;
                   p_MediaUrl := None; p_ContentSid := Some templateSID;
                   p_ContentVariables :=
                     if (0 <? size variables)%nat then Some variables else None |} in
  call res <~ CreateMessage params;
  match res with
  | Err e =>
      exec lift (log ErrorLevel "Failed to send WhatsApp template message");
      retC (Err ("failed to send template message: " ++ e))
  | Ok resp => sent_response resp "WhatsApp template message sent successfully"
  end.

(** The INSERT of the outbound record.  Its [message_type] is the [Type] of
    the request as it came; a value outside the seven of the CHECK
    constraint makes PostgreSQL refuse the row, which [StoreMessage] reports
    like any failed INSERT. *)
Definition store_outbound (request : SendMessageRequest) (response : SendMessageResponse)
  : M error :=
  match MessageType_of_string (sr_Type request) with
  | Some type =>
      StoreMessage
        {| ID := rs_ID response; TwilioSID := rs_TwilioSID response;
           From := fromNumber; To := sr_To request;
           Direction := MessageDirectionOutbound; Type_ := type;
           Status := rs_Status response; Content := sr_Content request;
           MediaURL := sr_MediaURL request; MediaType := sr_MediaType request;
           Timestamp := rs_CreatedAt response; CreatedAt := rs_CreatedAt response;
           UpdatedAt := rs_CreatedAt response;
           UserID := None; SessionID := None; ErrorCode := None; ErrorMsg := None |}
  | None =>
      (exec log InfoLevel "Storing WhatsApp message";
       exec log ErrorLevel "Failed to store message in database";
       ret (Some "failed to store message: violates check constraint"))%go
  end.

Definition bad_request (msg : string) : ApiResponse :=
  {| api_status := StatusBadRequest; api_body := ApiError msg |}.

Definition is_media_type (t : string) : bool :=
  String.eqb t "image" || String.eqb t "video" || String.eqb t "audio"
  || String.eqb t "document".

(** The part of [SendMessage] after the switch. *)
Definition finish_send (request : SendMessageRequest) (sent : result SendMessageResponse)
  : C ApiResponse :=
  match sent with
  | Err _ =>
      exec lift (log ErrorLevel "Failed to send WhatsApp message");
      retC {| api_status := StatusInternalServerError;
              api_body := ApiError "Failed to send message" |}
  | Ok response =>
      call err <~ lift (store_outbound request response);
      exec lift (match err with
                 | Some _ => log ErrorLevel "Failed to store outbound message"
                 | None => ret tt
                 end);
      retC {| api_status := StatusOK; api_body := ApiSent response |}
  end.

(** [WhatsAppHandler.SendMessage]; [None] is a body that [ShouldBindJSON]
    cannot decode. *)
Definition SendMessage (body : option SendMessageRequest) : C ApiResponse :=
  match body with
  | None =>
      exec lift (log ErrorLevel "Failed to parse send message request");
      retC (bad_request "Invalid request data")
  | Some request =>
      exec lift (log InfoLevel "Sending WhatsApp message via API");
      if String.eqb (sr_Type request) "text" || String.eqb (sr_Type request) "" then
        call sent <~ SendTextMessage (sr_To request) (sr_Content request);
        finish_send request sent
      else if is_media_type (sr_Type request) then
        match sr_MediaURL request with
        | None => retC (bad_request "Media URL required for media messages")
        | Some mediaURL =>
            let mediaType := match sr_MediaType request with
                             | Some t => t
                             | None => ""
                             end in
            call sent <~ SendMediaMessage (sr_To request) (sr_Content request)
                           mediaURL mediaType;
            finish_send request sent
        end
      else
        match sr_Template request with
        | Some template =>
            call sent <~ SendTemplateMessage (sr_To request) template (sr_Variables request);
            finish_send request sent
        | None => retC (bad_request "Unsupported message type")
        end
  end.

(** [middleware.Logger] around a handler that reaches beyond the world. *)
Definition LoggerC {A} (next : C A) : C A :=
  exec lift (time_Now clock);
  call r <~ next;
  exec lift (time_Now clock);
  exec lift (log InfoLevel "HTTP Request");
  retC r.

(** [POST /api/v1/messages/send] *)
Definition post_send (body : option SendMessageRequest) : C ApiResponse :=
  LoggerC (SendMessage body).
End Outbound.

(** The switch of [SendMessage] reaches one of the three send methods. *)
Definition reaches_provider (request : SendMessageRequest) : bool :=
  if String.eqb (sr_Type request) "text" || String.eqb (sr_Type request) "" then true
  else if is_media_type (sr_Type request) then
    match sr_MediaURL request with Some _ => true | None => false end
  else match sr_Template request with Some _ => true | None => false end.

(** The cloud with another world and further Twilio calls. *)
Definition cloud_after (c : Cloud) (w : World) (calls : list CreateMessageParams) : Cloud :=
  {| world := w; twilio_calls := twilio_calls c ++ calls; s3 := s3 c; s3_up := s3_up c |}.

(** Two worlds that differ in the log at most, or in the log and the
    counters of the clock and of the identifiers. *)
Definition same_store (w w' : World) : Prop :=
  db w' = db w /\ cache w' = cache w /\ db_up w' = db_up w /\ redis_up w' = redis_up w /\
  spawned w' = spawned w.

(** The response [sent_response] builds in a world from Twilio's answer. *)
Definition response_in (clock : nat -> Time) (uuid_New : nat -> UUID) (w : World)
    (tm : TwilioMessage) : SendMessageResponse :=
  {| rs_ID := uuid_New (uuids w); rs_TwilioSID := tm_Sid tm;
     rs_Status := MessageStatusSent; rs_CreatedAt := clock (ticks w) |}.

(** ** A concrete cloud, for running the outbound path on examples *)

Module SampleOut.

Definition fromNumber : string := "whatsapp:+14155238886".

(** Twilio accepts every call and reports the message as queued. *)
Definition twilio_accepts (p : CreateMessageParams) : result TwilioMessage :=
  Ok {| tm_Sid := "SM900"; tm_Status := "queued" |}.

(** Twilio refuses every call. *)
Definition twilio_refuses (p : CreateMessageParams) : result TwilioMessage :=
  Err "Unable to create record: Authenticate".

Definition cloud (w : World) : Cloud :=
  {| world := w; twilio_calls := []; s3 := ∅; s3_up := true |}.

Definition request (to content type : string) (mediaURL template : option string)
  : SendMessageRequest :=
  {| sr_To := to; sr_Content := content; sr_Type := type; sr_MediaURL := mediaURL;
     sr_MediaType := None; sr_Variables := ∅; sr_Template := template |}.

Definition text_request : SendMessageRequest :=
  request "+55 (11) 9999-0000" "bom dia" "text" None None.

End SampleOut.

(** ** The service as a whole: requests served one after the other *)

Inductive Event :=
| InboundWebhook (req : Request)                   (* POST /webhooks/whatsapp/messages *)
| StatusWebhook (req : Request)                    (* POST /webhooks/whatsapp/status *)
| Lookup (messageID : string)                      (* GET /api/v1/messages/:messageId *)
| Send (body : option SendMessageRequest)          (* POST /api/v1/messages/send *)
| Outage (db_reachable redis_reachable : bool).    (* the environment changes *)

Definition with_world (c : Cloud) (w : World) : Cloud :=
  {| world := w; twilio_calls := twilio_calls c; s3 := s3 c; s3_up := s3_up c |}.

Definition with_reachability (d r : bool) (w : World) : World :=
  {| db := db w; db_up := d; cache := cache w; redis_up := r;
     logs := logs w; ticks := ticks w; uuids := uuids w; spawned := spawned w |}.

Section Server.
Variable clock : nat -> Time.
Variable uuid_New : nat -> UUID.
Variable uuid_Parse : string -> option UUID.
Variable time_Parse_RFC3339 : string -> option Time.
Variable map_unicode_lower : string -> string.
Variable fromNumber : string.
Variable twilio_CreateMessage : CreateMessageParams -> result TwilioMessage.
(** [cfg.WhatsAppWebhookSecret] *)
Variable secret : string.

(** The state after one request, as the router of [main] dispatches it. *)
Definition serve_one (c : Cloud) (e : Event) : Cloud :=
  match e with
  | InboundWebhook req =>
      with_world c (snd (post_messages clock uuid_New time_Parse_RFC3339 secret req (world c)))
  | StatusWebhook req =>
      with_world c (snd (post_status clock map_unicode_lower secret req (world c)))
  | Lookup messageID =>
      with_world c (snd (get_message clock uuid_Parse messageID (world c)))
  | Send body =>
      snd (post_send clock uuid_New fromNumber twilio_CreateMessage body c)
  | Outage d r => with_world c (with_reachability d r (world c))
  end.

Definition serve (events : list Event) (c : Cloud) : Cloud :=
  fold_left serve_one events c.
End Server.

(** What one request can do to the table: nothing, add one row that
    collides with no other, or run the UPDATE of a status callback with the
    values its columns took. *)
Inductive table_step (rows : list WhatsAppMessage) : list WhatsAppMessage -> Prop :=
| step_same : table_step rows rows
| step_insert (m : WhatsAppMessage) :
    collides m rows = false -> table_step rows (rows ++ [m])
| step_update (u : MessageStatusUpdate) : table_step rows (update_rows u rows).

(** The columns no statement of the adapter rewrites. *)
Definition same_identity (r r' : WhatsAppMessage) : Prop :=
  ID r' = ID r /\ TwilioSID r' = TwilioSID r /\ From r' = From r /\ To r' = To r /\
  Direction r' = Direction r /\ Type_ r' = Type_ r /\ Content r' = Content r /\
  MediaURL r' = MediaURL r /\ MediaType r' = MediaType r /\
  Timestamp r' = Timestamp r /\ CreatedAt r' = CreatedAt r.

(** A day of traffic for the examples: an inbound message, its redelivery,
    a status callback, an outage, a send and a lookup. *)
Definition sample_events : list Event :=
  [ InboundWebhook (Sample.post "" Sample.sm1_inbound);
    InboundWebhook (Sample.post "" Sample.sm1_inbound);
    StatusWebhook (Sample.post "" (Sample.sm1_status "read"));
    Outage false true;
    Send (Some SampleOut.text_request);
    Outage true true;
    Send (Some SampleOut.text_request);
    Lookup (Sample.uuid_New 0) ].

Definition sample_serve (events : list Event) (c : Cloud) : Cloud :=
  serve Sample.clock Sample.uuid_New Sample.uuid_Parse Sample.time_Parse_RFC3339
    Sample.map_unicode_lower SampleOut.fromNumber SampleOut.twilio_accepts "" events c.

(** ** internal/services/message.go: the list queries *)

(** Where [m] goes in a list ordered by [timestamp DESC]: before the first
    row that is not newer. *)
Fixpoint insert_desc (m : WhatsAppMessage) (l : list WhatsAppMessage) : list WhatsAppMessage :=
  match l with
  | [] => [m]
  | x :: l' => if Timestamp x <=? Timestamp m then m :: l else x :: insert_desc m l'
  end.

(** Where [m] goes in a list ordered by ascending rank: before the first
    row of the same or a higher rank. *)
Fixpoint insert_rank (rank : WhatsAppMessage -> nat) (m : WhatsAppMessage)
    (l : list WhatsAppMessage) : list WhatsAppMessage :=
  match l with
  | [] => [m]
  | x :: l' => if (rank m <=? rank x)%nat then m :: l else x :: insert_rank rank m l'
  end.

(** The order in which the plan of one query comes to the rows, given by
    the rank it has for each of them. *)
Definition scan_order (rank : WhatsAppMessage -> nat) (rows : list WhatsAppMessage)
  : list WhatsAppMessage :=
  fold_right (insert_rank rank) [] rows.

(** [ORDER BY timestamp DESC].  The statement names no second sort key:
    among rows of equal timestamp PostgreSQL returns them as its plan comes
    to them, which may differ from one query to the next.  [rank] is the
    order of the plan of the query at hand; every list that holds the rows
    newest first is the result for some [rank]. *)
Definition order_by_timestamp_desc (rank : WhatsAppMessage -> nat)
    (rows : list WhatsAppMessage) : list WhatsAppMessage :=
  fold_right insert_desc [] (scan_order rank rows).

(** What [db.Query] and the iteration over its rows come to: an error of
    [Query] itself, an error that [rows.Err()] reports, or the rows. *)
Inductive rows_result :=
| QueryFailed (e : string)
| RowsFailed (e : string)
| RowsRead (rows : list WhatsAppMessage).

(** [SELECT ... WHERE keep ORDER BY timestamp DESC LIMIT limit OFFSET offset].
    PostgreSQL refuses a negative LIMIT or OFFSET when it runs the
    statement. *)
Definition db_select_page (rank : WhatsAppMessage -> nat) (keep : WhatsAppMessage -> bool)
    (limit offset : Z) : M rows_result :=
  fun w =>
    if db_up w then
      if (limit <? 0) || (offset <? 0) then (RowsFailed "LIMIT must not be negative", w)
      else (RowsRead (firstn (Z.to_nat limit)
                        (skipn (Z.to_nat offset)
                           (order_by_timestamp_desc rank (List.filter keep (db w))))), w)
    else (QueryFailed "connection refused", w).

(** The WHERE clause of [GetMessagesByUser]. *)
Definition involves (phoneNumber : string) (r : WhatsAppMessage) : bool :=
  String.eqb (From r) phoneNumber || String.eqb (To r) phoneNumber.

(** [MessageService.GetMessagesByUser]; [rank] is the order of the plan
    PostgreSQL runs the query with. *)
Definition GetMessagesByUser (rank : WhatsAppMessage -> nat) (phoneNumber : string)
    (limit offset : Z) : M (result (list WhatsAppMessage)) :=
  (exec log InfoLevel "Retrieving messages by user";
   call res <~ db_select_page rank (involves phoneNumber) limit offset;
   match res with
   | QueryFailed e =>
       exec log ErrorLevel "Failed to query messages by user";
       ret (Err ("failed to query messages: " ++ e))
   | RowsFailed e =>
       exec log ErrorLevel "Error iterating over message rows";
       ret (Err ("error reading messages: " ++ e))
   | RowsRead messages =>
       exec log InfoLevel "Messages retrieved successfully";
       ret (Ok messages)
   end)%go.

(** [MessageService.GetRecentMessages] *)
Definition GetRecentMessages (rank : WhatsAppMessage -> nat) (limit : Z)
  : M (result (list WhatsAppMessage)) :=
  (exec log InfoLevel "Retrieving recent messages";
   call res <~ db_select_page rank (fun _ => true) limit 0;
   match res with
   | QueryFailed e =>
       exec log ErrorLevel "Failed to query recent messages";
       ret (Err ("failed to query recent messages: " ++ e))
   | RowsFailed e =>
       exec log ErrorLevel "Error iterating over recent message rows";
       ret (Err ("error reading recent messages: " ++ e))
   | RowsRead messages =>
       exec log InfoLevel "Recent messages retrieved successfully";
       ret (Ok messages)
   end)%go.

(** [b] is not newer than [a]; a list is newest first when every element
    is followed by elements that are not newer only. *)
Definition not_newer (a b : WhatsAppMessage) : Prop := Timestamp b <= Timestamp a.

Definition newest_first (l : list WhatsAppMessage) : Prop := StronglySorted not_newer l.

(** Rows for the examples of the list queries. *)
Definition sample_message (id sid from to : string) (ts : Time) : WhatsAppMessage :=
  {| ID := id; TwilioSID := sid; From := from; To := to;
     Direction := MessageDirectionInbound; Type_ := MessageTypeText;
     Status := MessageStatusDelivered; Content := "oi";
     MediaURL := None; MediaType := None;
     Timestamp := ts; CreatedAt := ts; UpdatedAt := ts;
     UserID := None; SessionID := None; ErrorCode := None; ErrorMsg := None |}.

Definition sample_table : list WhatsAppMessage :=
  [ sample_message "id-1" "SM1" "+5511" "+1415" 100000;
    sample_message "id-2" "SM2" "+5521" "+1415" 300000;
    sample_message "id-3" "SM3" "+1415" "+5511" 200000;
    sample_message "id-4" "SM4" "+5511" "+1415" 300000 ].

(** Two plans: one comes to the rows in the order of the table, the other
    in the order of their provider ids reversed. *)
Definition table_order (r : WhatsAppMessage) : nat := O.

Definition late_first (r : WhatsAppMessage) : nat :=
  if String.eqb (TwilioSID r) "SM4" then 0%nat
  else if String.eqb (TwilioSID r) "SM3" then 1%nat
  else if String.eqb (TwilioSID r) "SM2" then 2%nat
  else 3%nat.

(** The rows have pairwise distinct event times. *)
Definition distinct_instants (rows : list WhatsAppMessage) : Prop :=
  List.NoDup (map Timestamp rows).

(** ** Go standard library: strings.Split, strings.Join, filepath.Ext *)

(** [strings.Split(s, sep)] for a non-empty [sep]: [cur] is the piece being
    read, [skip] the bytes of a matched separator still to be dropped. *)
Fixpoint split_from (sep : string) (skip : nat) (cur : string) (s : string) : list string :=
  match s with
  | EmptyString => [cur]
  | String c s' =>
      match skip with
      | S k => split_from sep k cur s'
      | O =>
          if HasPrefix s sep
          then cur :: split_from sep (Nat.pred (String.length sep)) "" s'
          else split_from sep O (cur ++ String c "") s'
      end
  end.

Definition Split (s sep : string) : list string := split_from sep O "" s.

(** [strings.Join(elems, sep)] *)
Fixpoint Join (elems : list string) (sep : string) : string :=
  match elems with
  | [] => ""
  | [x] => x
  | x :: rest => x ++ sep ++ Join rest sep
  end.

Definition is_slash (c : ascii) : bool := Ascii.eqb c "/".

(** [filepath.Ext(path)] on Unix: the suffix that starts at the last dot of
    the last element of the path, empty when that element has no dot. *)
Fixpoint Ext (path : string) : string :=
  match path with
  | EmptyString => EmptyString
  | String c rest =>
      match Ext rest with
      | EmptyString =>
          if Ascii.eqb c "." && negb (some_byte is_slash rest) then path else EmptyString
      | e => e
      end
  end.

(** ** internal/services/media.go *)

(** How a call ends: it returns, or a nil pointer is dereferenced. *)
Inductive completion (A : Type) := Returns (a : A) | Panics.
Arguments Returns {A} a.
Arguments Panics {A}.

Definition process_stub (msg : string) : M (completion error) :=
  (exec log InfoLevel msg; ret (Returns None))%go.

(** [MediaService.ProcessMedia]; [processImage], [processVideo],
    [processAudio] and [processDocument] log one line and return nil. *)
Definition ProcessMedia (message : WhatsAppMessage) : M (completion error) :=
  match MediaURL message with
  | None => ret (Returns (Some "no media URL provided"))
  | Some _ =>
      match MediaType message with
      | None => ret Panics                 (* *message.MediaType *)
      | Some mediaType =>
          (exec log InfoLevel "Processing incoming media";
           if HasPrefix mediaType "image/" then process_stub "Processing image file"
           else if HasPrefix mediaType "video/" then process_stub "Processing video file"
           else if HasPrefix mediaType "audio/" then process_stub "Processing audio file"
           else if HasPrefix mediaType "application/pdf"
                then process_stub "Processing document file"
           else (exec log InfoLevel "Unknown media type, skipping processing";
                 ret (Returns None)))%go
      end
  end.

(** [WhatsAppHandler.processMediaAsync], the body of the media goroutine. *)
Definition run_processMediaAsync (message : WhatsAppMessage) : M (completion unit) :=
  match MediaURL message with
  | None => ret (Returns tt)
  | Some _ =>
      match MediaType message with
      | None => ret Panics                 (* *message.MediaType *)
      | Some _ =>
          (exec log InfoLevel "Processing media asynchronously";
           call res <~ ProcessMedia message;
           match res with
           | Panics => ret Panics
           | Returns (Some _) => exec log ErrorLevel "Failed to process media"; ret (Returns tt)
           | Returns None => ret (Returns tt)
           end)%go
      end
  end.

Section Media.
Local Open Scope cloud_scope.
Variable clock : nat -> Time.
Variable uuid_New : nat -> UUID.
(** [t.Format("2006/01/02")] *)
Variable format_date : Time -> string.
(** [cfg.S3BucketName] and [cfg.AWSRegion] *)
Variable bucket : string.
Variable region : string.

(** [s3Client.PutObject] *)
Definition PutObject (key : string) (obj : S3Object) : C error :=
  fun c =>
    if s3_up c then
      (None, {| world := world c; twilio_calls := twilio_calls c;
                s3 := <[key := obj]> (s3 c); s3_up := s3_up c |})
    else (Some "s3: request failed", c).

(** [s3Client.DeleteObject]; S3 answers success also for a key that holds no
    object. *)
Definition DeleteObject (key : string) : C error :=
  fun c =>
    if s3_up c then
      (None, {| world := world c; twilio_calls := twilio_calls c;
                s3 := delete key (s3 c); s3_up := s3_up c |})
    else (Some "s3: request failed", c).

Definition object_url (fileKey : string) : string :=
  "https://" ++ bucket ++ ".s3." ++ region ++ ".amazonaws.com/" ++ fileKey.

(** [MediaService.UploadMedia]; [file] is what reading the [io.Reader] to
    its end gives. *)
Definition UploadMedia (file : result string) (filename contentType : string)
  : C (result string) :=
  exec lift (log InfoLevel "Uploading media file to S3");
  let fileExt := Ext filename in
  call now <~ lift (time_Now clock);
  call id <~ lift (uuid_New_ uuid_New);
  let fileKey := "whatsapp-media/" ++ format_date now ++ "/" ++ id ++ fileExt in
  match file with
  | Err e => retC (Err ("failed to read file content: " ++ e))
  | Ok content =>
      call err <~ PutObject fileKey {| obj_body := content;
                                       obj_content_type := contentType;
                                       obj_acl := "public-read" |};
      match err with
      | Some e =>
          exec lift (log ErrorLevel "Failed to upload file to S3");
          retC (Err ("failed to upload to S3: " ++ e))
      | None =>
          exec lift (log InfoLevel "Media file uploaded successfully");
          retC (Ok (object_url fileKey))
      end
  end.

(** [MediaService.DeleteMedia] *)
Definition DeleteMedia (mediaURL : string) : C error :=
  exec lift (log InfoLevel "Deleting media file");
  let parts := Split mediaURL "/" in
  if (List.length parts <? 4)%nat then retC (Some "invalid media URL format")
  else
    let key := Join (skipn 3 parts) "/" in
    call err <~ DeleteObject key;
    match err with
    | Some e =>
        exec lift (log ErrorLevel "Failed to delete media file from S3");
        retC (Some ("failed to delete media: " ++ e))
    | None =>
        exec lift (log InfoLevel "Media file deleted successfully");
        retC None
    end.
End Media.

(** The number of occurrences of a byte. *)
Fixpoint count_byte (c : ascii) (s : string) : nat :=
  match s with
  | EmptyString => O
  | String b s' => (if Ascii.eqb b c then 1 else 0) + count_byte c s'
  end.

Definition no_slash (s : string) : Prop := some_byte is_slash s = false.

(** A concrete media service for the examples. *)
Module SampleMedia.
Definition format_date (t : Time) : string := "2023/11/14".
Definition bucket : string := "re9-media".
Definition region : string := "us-east-1".
Definition UploadMedia := UploadMedia Sample.clock Sample.uuid_New format_date bucket region.
End SampleMedia.

(** The line of the processor that [ProcessMedia] hands a content type to,
    read off the message type [determineMessageType] gives it. *)
Definition processor_line (type : MessageType) (contentType : string) : string :=
  match type with
  | MessageTypeImage => "Processing image file"
  | MessageTypeVideo => "Processing video file"
  | MessageTypeAudio => "Processing audio file"
  | MessageTypeDocument =>
      if HasPrefix contentType "application/pdf" then "Processing document file"
      else "Unknown media type, skipping processing"
  | _ => "Unknown media type, skipping processing"
  end.

(** An inbound webhook with one picture. *)
Definition picture_inbound : TwilioWebhookRequest :=
  {| wh_MessageSid := "SM7"; wh_From := "whatsapp:+551199990000";
     wh_To := "whatsapp:+14155238886"; wh_Body := ""; wh_NumMedia := "1";
     wh_MediaContentType0 := "image/jpeg";
     wh_MediaUrl0 := "https://api.twilio.com/2010-04-01/Accounts/AC1/Messages/SM7/Media/ME1";
     wh_Timestamp := ""; wh_SmsStatus := "received"; wh_ErrorCode := "";
     wh_ErrorMessage := "" |}.

(** ** internal/config *)

Module config.

Record Config := {
  Port : string;
  Environment : string;
  LogLevel : string;
  DatabaseURL : string;
  RedisURL : string;
  TwilioAccountSID : string;
  TwilioAuthToken : string;
  TwilioWhatsAppFrom : string;
  WhatsAppWebhookSecret : string;
  WhatsAppVerifyToken : string;
  AWSRegion : string;
  AWSAccessKeyID : string;
  AWSSecretAccessKey : string;
  S3BucketName : string;
  ChatOrchestratorURL : string;
  AIProcessingURL : string;
  RateLimitPerMinute : Z;
  RateLimitBurst : Z;
  JWTSecret : string
}.

(** The environment of the process: [os.LookupEnv] is the lookup. *)
Definition getEnv (env : gmap string string) (key fallback : string) : string :=
  match env !! key with
  | Some value => value
  | None => fallback
  end.

Definition getEnvAsInt (env : gmap string string) (key : string) (fallback : Z) : Z :=
  match env !! key with
  | Some value =>
      match Atoi value with
      | Some intVal => intVal
      | None => fallback
      end
  | None => fallback
  end.

(** [config.Load] *)
Definition Load (env : gmap string string) : Config :=
  {| Port := getEnv env "PORT" "8080";
     Environment := getEnv env "ENVIRONMENT" "development";
     LogLevel := getEnv env "LOG_LEVEL" "info";
     DatabaseURL := getEnv env "DATABASE_URL" "";
     RedisURL := getEnv env "REDIS_URL" "redis://localhost:6379";
     TwilioAccountSID := getEnv env "TWILIO_ACCOUNT_SID" "";
     TwilioAuthToken := getEnv env "TWILIO_AUTH_TOKEN" "";
     TwilioWhatsAppFrom := getEnv env "TWILIO_WHATSAPP_FROM" "whatsapp:+14155238886";
     WhatsAppWebhookSecret := getEnv env "WHATSAPP_WEBHOOK_SECRET" "";
     WhatsAppVerifyToken := getEnv env "WHATSAPP_VERIFY_TOKEN" "";
     AWSRegion := getEnv env "AWS_REGION" "us-east-1";
     AWSAccessKeyID := getEnv env "AWS_ACCESS_KEY_ID" "";
     AWSSecretAccessKey := getEnv env "AWS_SECRET_ACCESS_KEY" "";
     S3BucketName := getEnv env "S3_BUCKET_NAME" "";
     ChatOrchestratorURL := getEnv env "CHAT_ORCHESTRATOR_URL" "http://localhost:8081";
     AIProcessingURL := getEnv env "AI_PROCESSING_URL" "http://localhost:8082";
     RateLimitPerMinute := getEnvAsInt env "RATE_LIMIT_PER_MINUTE" 60;
     RateLimitBurst := getEnvAsInt env "RATE_LIMIT_BURST" 10;
     JWTSecret := getEnv env "JWT_SECRET" "" |}.

(** The map [required] of [Validate], as the pairs its literal lists. *)
Definition required (c : Config) : list (string * string) :=
  [ ("TWILIO_ACCOUNT_SID", TwilioAccountSID c);
    ("TWILIO_AUTH_TOKEN", TwilioAuthToken c);
    ("WHATSAPP_WEBHOOK_SECRET", WhatsAppWebhookSecret c);
    ("WHATSAPP_VERIFY_TOKEN", WhatsAppVerifyToken c);
    ("DATABASE_URL", DatabaseURL c);
    ("JWT_SECRET", JWTSecret c) ].

(** The loop of [Validate] over the pairs in the order in which [range]
    visits them. *)
Fixpoint first_unset (visit : list (string * string)) : error :=
  match visit with
  | [] => None
  | (key, value) :: rest =>
      if String.eqb value ""
      then Some ("required environment variable " ++ key ++ " is not set")
      else first_unset rest
  end.

(** [Config.Validate].  Go fixes no order for [range] over a map: [visit] is
    the order of this run, some permutation of [required c]. *)
Definition Validate (visit : list (string * string)) (c : Config) : error :=
  first_unset visit.

Definition required_variables : list string :=
  ["TWILIO_ACCOUNT_SID"; "TWILIO_AUTH_TOKEN"; "WHATSAPP_WEBHOOK_SECRET";
   "WHATSAPP_VERIFY_TOKEN"; "DATABASE_URL"; "JWT_SECRET"].

Definition sample_env : gmap string string :=
  list_to_map [ ("TWILIO_ACCOUNT_SID", "AC1"); ("TWILIO_AUTH_TOKEN", "tok");
                ("WHATSAPP_WEBHOOK_SECRET", "s3cret"); ("WHATSAPP_VERIFY_TOKEN", "v");
                ("DATABASE_URL", "postgres://db"); ("JWT_SECRET", "j");
                ("RATE_LIMIT_PER_MINUTE", "sixty"); ("PORT", "") ].

End config.

(** Unfolds the monad of the cloud and the effects of the runtime. *)
Ltac run_cloud :=
  unfold bindC, retC, lift, CreateMessage, sent_response;
  unfold bind, ret, log, time_Now, uuid_New_; simpl.

(** Goes through the cases of a statement sent to PostgreSQL and of a
    command sent to Redis. *)
Ltac case_store :=
  repeat match goal with
    | |- context [db_up ?w] => destruct (db_up w) eqn:?; simpl
    | |- context [pg_row ?m] => destruct (pg_row m) eqn:?; simpl
    | |- context [pg_update ?u] => destruct (pg_update u) eqn:?; simpl
    | |- context [List.existsb ?f ?l] => destruct (List.existsb f l) eqn:?; simpl
    | |- context [redis_up ?w] => destruct (redis_up w) eqn:?; simpl
    | |- context [Nat.eqb ?a 0] => destruct (Nat.eqb a 0) eqn:?; simpl
    end.

(** ** Package strings *)

Lemma HasPrefix_app (p s : string) : HasPrefix (p ++ s) p = true.
Proof.
  induction p as [|c p IH].
  - reflexivity.
  - change (String c p ++ s) with (String c (p ++ s)). simpl.
    now rewrite Ascii.eqb_refl, IH.
Qed.

Lemma HasPrefix_split (s p : string) :
  HasPrefix s p = true -> exists rest, s = p ++ rest.
Proof.
  revert s. induction p as [|c p IH]; intros s.
  - intros _. now exists s.
  - simpl. destruct s as [|d s']; [discriminate|].
    destruct (Ascii.eqb d c) eqn:E; [|discriminate].
    apply Ascii.eqb_eq in E. subst d. simpl. intros H.
    destruct (IH _ H) as [rest ->]. now exists rest.
Qed.

Lemma HasPrefix_shorter (s p q : string) :
  HasPrefix s (p ++ q) = true -> HasPrefix s p = true.
Proof.
  revert s. induction p as [|c p IH]; intros s; [reflexivity|].
  change (String c p ++ q) with (String c (p ++ q)). simpl.
  destruct s as [|d s']; [discriminate|].
  destruct (Ascii.eqb d c); simpl; [apply IH|discriminate].
Qed.

Lemma hex_EncodeToString_length (bytes : string) :
  String.length (hex_EncodeToString bytes) = (2 * String.length bytes)%nat.
Proof.
  induction bytes as [|c rest IH]; simpl; [reflexivity|].
  rewrite IH. lia.
Qed.

Example ReplaceAll_samples :
  ReplaceAll "+55 (11) 9-9" " " "" = "+55(11)9-9" /\
  ReplaceAll "aaa" "aa" "b" = "ba" /\
  ReplaceAll "a--b" "-" "" = "ab".
Proof. repeat split; reflexivity. Qed.

Example ToLower_samples :
  ToLower Sample.map_unicode_lower "DeLiVeReD" = "delivered" /\
  ToLower Sample.map_unicode_lower "sent" = "sent".
Proof. split; reflexivity. Qed.

Example formatWhatsAppNumber_plain :
  formatWhatsAppNumber "(11) 9999-0000" = "whatsapp:+1199990000".
Proof. reflexivity. Qed.

Example formatWhatsAppNumber_kept :
  formatWhatsAppNumber "whatsapp:+55 11" = "whatsapp:+55 11".
Proof. reflexivity. Qed.

Example determineMessageType_jpeg : determineMessageType "image/jpeg" = MessageTypeImage.
Proof. reflexivity. Qed.

Example mapTwilioStatus_mixed_case :
  mapTwilioStatus (fun s => s) "Delivered" = MessageStatusDelivered.
Proof. reflexivity. Qed.

Example Atoi_samples :
  Atoi "0" = Some 0 /\ Atoi "+12" = Some 12 /\ Atoi "-3" = Some (-3) /\
  Atoi "" = None /\ Atoi "1x" = None /\ Atoi "9223372036854775808" = None.
Proof. repeat split; reflexivity. Qed.

(** ** Destination addresses *)

Lemma formatWhatsAppNumber_prefix (x : string) :
  HasPrefix (formatWhatsAppNumber x) "whatsapp:" = true.
Proof.
  unfold formatWhatsAppNumber.
  destruct (HasPrefix x "whatsapp:") eqn:E; [exact E|].
  apply HasPrefix_app.
Qed.

(** C10: normalising a destination address twice gives what normalising it
    once gives, and every normalised address starts with "whatsapp:". *)
Theorem formatWhatsAppNumber_idempotent (x : string) :
  formatWhatsAppNumber (formatWhatsAppNumber x) = formatWhatsAppNumber x /\
  HasPrefix (formatWhatsAppNumber x) "whatsapp:" = true.
Proof.
  pose proof (formatWhatsAppNumber_prefix x) as P.
  split; [|exact P].
  unfold formatWhatsAppNumber at 1. now rewrite P.
Qed.

(** ** Message types *)

(** C8: the message type follows the prefix of the content type: "image/"
    gives image, "video/" video, "audio/" audio, "application/pdf" and any
    other "application/" document, and a string with none of these prefixes
    text. *)
Theorem determineMessageType_by_prefix (contentType : string) :
  (HasPrefix contentType "image/" = true ->
   determineMessageType contentType = MessageTypeImage) /\
  (HasPrefix contentType "video/" = true ->
   determineMessageType contentType = MessageTypeVideo) /\
  (HasPrefix contentType "audio/" = true ->
   determineMessageType contentType = MessageTypeAudio) /\
  (HasPrefix contentType "application/pdf" = true ->
   determineMessageType contentType = MessageTypeDocument) /\
  (HasPrefix contentType "application/" = true ->
   determineMessageType contentType = MessageTypeDocument) /\
  (HasPrefix contentType "image/" = false ->
   HasPrefix contentType "video/" = false ->
   HasPrefix contentType "audio/" = false ->
   HasPrefix contentType "application/" = false ->
   determineMessageType contentType = MessageTypeText).
Proof.
  unfold determineMessageType.
  repeat split.
  - intros H. now rewrite H.
  - intros H. destruct (HasPrefix_split _ _ H) as [rest ->]. reflexivity.
  - intros H. destruct (HasPrefix_split _ _ H) as [rest ->]. reflexivity.
  - intros H. destruct (HasPrefix_split _ _ H) as [rest ->]. reflexivity.
  - intros H. destruct (HasPrefix_split _ _ H) as [rest ->].
    change (HasPrefix ("application/" ++ rest) "image/") with false.
    change (HasPrefix ("application/" ++ rest) "video/") with false.
    change (HasPrefix ("application/" ++ rest) "audio/") with false.
    rewrite H.
    destruct (HasPrefix ("application/" ++ rest) "application/pdf"); reflexivity.
  - intros Hi Hv Ha Hp. rewrite Hi, Hv, Ha, Hp.
    destruct (HasPrefix contentType "application/pdf") eqn:E; [|reflexivity].
    apply (HasPrefix_shorter _ "application/" "pdf") in E. congruence.
Qed.

Example determineMessageType_samples :
  determineMessageType "image/jpeg" = MessageTypeImage /\
  determineMessageType "application/pdf" = MessageTypeDocument /\
  determineMessageType "application/zip" = MessageTypeDocument /\
  determineMessageType "text/plain" = MessageTypeText /\
  determineMessageType "IMAGE/png" = MessageTypeText /\
  determineMessageType "" = MessageTypeText.
Proof. repeat split; reflexivity. Qed.

Lemma by_prefix_witness :
  HasPrefix "image/jpeg" "image/" = true /\
  determineMessageType "image/jpeg" = MessageTypeImage /\
  determineMessageType "video/mp4" = MessageTypeVideo /\
  determineMessageType "audio/ogg" = MessageTypeAudio /\
  determineMessageType "application/pdf" = MessageTypeDocument /\
  determineMessageType "application/msword" = MessageTypeDocument /\
  determineMessageType "text/vcard" = MessageTypeText.
Proof.
  split; [reflexivity|].
  split; [apply (determineMessageType_by_prefix "image/jpeg"); reflexivity|].
  split; [apply (determineMessageType_by_prefix "video/mp4"); reflexivity|].
  split; [apply (determineMessageType_by_prefix "audio/ogg"); reflexivity|].
  split; [apply (determineMessageType_by_prefix "application/pdf"); reflexivity|].
  split; [apply (determineMessageType_by_prefix "application/msword"); reflexivity|].
  apply (determineMessageType_by_prefix "text/vcard"); reflexivity.
Defined.

(** ** Status callbacks: from the provider's vocabulary to a StatusUpdate *)

Lemma mapTwilioStatus_unmapped (lower : string -> string) (s : string) :
  ~ In (ToLower lower s) mapped_statuses ->
  mapTwilioStatus lower s = MessageStatusPending.
Proof.
  intros H. unfold mapTwilioStatus.
  repeat match goal with
    | |- context [String.eqb ?a ?b] =>
        let E := fresh "E" in
        destruct (String.eqb_spec a b) as [E|E];
        [exfalso; apply H; rewrite E; simpl; tauto|]
    end.
  reflexivity.
Qed.

Lemma ProcessStatusUpdate_returns (clock : nat -> Time) (lower : string -> string)
    (wh : TwilioWebhookRequest) (w : World) :
  exists u, fst (ProcessStatusUpdate clock lower wh w) = Ok u /\
    su_MessageSid u = wh_MessageSid wh /\
    su_Timestamp u = clock (ticks w) /\
    su_Status u = (if String.eqb (wh_ErrorCode wh) "" then mapTwilioStatus lower (wh_SmsStatus wh)
                   else MessageStatusFailed).
Proof.
  unfold ProcessStatusUpdate. run_monad.
  destruct (String.eqb (wh_ErrorCode wh) ""); simpl; eexists; repeat split.
Qed.

(** C7: a provider status that is none of the mapped ones becomes pending,
    and a status callback with a non-empty error code yields a StatusUpdate
    whose status is failed, whatever status the provider reported. *)
Theorem status_update_defaults (clock : nat -> Time) (lower : string -> string) :
  (forall s, ~ In (ToLower lower s) mapped_statuses ->
             mapTwilioStatus lower s = MessageStatusPending) /\
  (forall wh w, wh_ErrorCode wh <> "" ->
     exists u, fst (ProcessStatusUpdate clock lower wh w) = Ok u /\
               su_Status u = MessageStatusFailed /\
               su_ErrorCode u = Some (wh_ErrorCode wh)).
Proof.
  split.
  - apply mapTwilioStatus_unmapped.
  - intros wh w H. unfold ProcessStatusUpdate. run_monad.
    destruct (String.eqb_spec (wh_ErrorCode wh) "") as [E|E]; [contradiction|].
    simpl. eexists. repeat split.
Qed.

Lemma status_update_defaults_witness :
  mapTwilioStatus Sample.map_unicode_lower "partially_delivered" = MessageStatusPending /\
  exists u,
    fst (ProcessStatusUpdate Sample.clock Sample.map_unicode_lower
           (Sample.form "SM1" "" "" "" "" "delivered" "30008") Sample.empty_world) = Ok u /\
    su_Status u = MessageStatusFailed /\ su_ErrorCode u = Some "30008".
Proof.
  split.
  - apply (status_update_defaults Sample.clock Sample.map_unicode_lower).
    vm_compute. intuition discriminate.
  - apply (status_update_defaults Sample.clock Sample.map_unicode_lower).
    simpl. discriminate.
Defined.

Example mapTwilioStatus_samples :
  map (mapTwilioStatus Sample.map_unicode_lower)
      ["queued"; "accepted"; "sent"; "Delivered"; "READ"; "failed"; "undelivered";
       "sending"; ""] =
  [MessageStatusPending; MessageStatusPending; MessageStatusSent; MessageStatusDelivered;
   MessageStatusRead; MessageStatusFailed; MessageStatusFailed;
   MessageStatusPending; MessageStatusPending].
Proof. reflexivity. Qed.

(** ** Inbound messages: from the webhook form to a Message *)

(** C9: an inbound webhook without media (NumMedia "0") yields a Message with
    direction inbound, type text, status delivered and the webhook body as
    content; when the event timestamp is absent or malformed, the message
    timestamp is the clock reading taken at ingestion. *)
Theorem ProcessIncomingMessage_text (clock : nat -> Time) (uuid_New : nat -> UUID)
    (time_Parse : string -> option Time) (wh : TwilioWebhookRequest) (w : World) :
  (wh_NumMedia wh = "0" ->
   exists m, fst (ProcessIncomingMessage clock uuid_New time_Parse wh w) = Ok m /\
     Direction m = MessageDirectionInbound /\ Type_ m = MessageTypeText /\
     Status m = MessageStatusDelivered /\ Content m = wh_Body wh /\
     MediaURL m = None) /\
  (wh_Timestamp wh = "" \/ time_Parse (wh_Timestamp wh) = None ->
   exists m, fst (ProcessIncomingMessage clock uuid_New time_Parse wh w) = Ok m /\
     Timestamp m = clock (ticks w)).
Proof.
  split.
  - intros H. unfold ProcessIncomingMessage. rewrite H. run_monad.
    eexists. repeat split.
  - intros H. unfold ProcessIncomingMessage.
    destruct (Atoi (wh_NumMedia wh)) as [n|];
      [destruct ((0 <? n) && negb (String.eqb (wh_MediaUrl0 wh) ""))|];
      run_monad; (eexists; split; [reflexivity|]); simpl;
      (destruct (String.eqb (wh_Timestamp wh) "") eqn:E; [reflexivity|]);
      (destruct H as [H|H]; [rewrite H in E; discriminate|now rewrite H]).
Qed.

Lemma ProcessIncomingMessage_text_witness :
  (exists m,
     fst (ProcessIncomingMessage Sample.clock Sample.uuid_New Sample.time_Parse_RFC3339
            Sample.sm1_inbound Sample.empty_world) = Ok m /\
     Direction m = MessageDirectionInbound /\ Type_ m = MessageTypeText /\
     Status m = MessageStatusDelivered /\ Content m = "oi" /\ MediaURL m = None) /\
  (exists m,
     fst (ProcessIncomingMessage Sample.clock Sample.uuid_New Sample.time_Parse_RFC3339
            (Sample.form "SM2" "+551199990000" "oi" "0" "yesterday" "" "")
            Sample.empty_world) = Ok m /\
     Timestamp m = Sample.clock 0).
Proof.
  split.
  - apply (ProcessIncomingMessage_text Sample.clock Sample.uuid_New
             Sample.time_Parse_RFC3339 Sample.sm1_inbound Sample.empty_world).
    reflexivity.
  - apply (ProcessIncomingMessage_text Sample.clock Sample.uuid_New
             Sample.time_Parse_RFC3339
             (Sample.form "SM2" "+551199990000" "oi" "0" "yesterday" "" "")
             Sample.empty_world).
    right. reflexivity.
Defined.

Example ProcessIncomingMessage_parsed_timestamp :
  exists m,
    fst (ProcessIncomingMessage Sample.clock Sample.uuid_New Sample.time_Parse_RFC3339
           (Sample.form "SM3" "+551199990000" "oi" "0" "2023-11-14T22:13:20Z" "" "")
           (Sample.world_with [] true)) = Ok m /\
    Timestamp m = 1700000000000000000 /\ CreatedAt m = Sample.clock 6.
Proof. eexists. split; [reflexivity|]. split; reflexivity. Qed.

(** ** The UPDATE of a status callback *)

Lemma set_status_sid (u : MessageStatusUpdate) (r : WhatsAppMessage) :
  TwilioSID (set_status u r) = TwilioSID r.
Proof. reflexivity. Qed.

Lemma set_status_twice (u : MessageStatusUpdate) (r : WhatsAppMessage) :
  set_status u (set_status u r) = set_status u r.
Proof. reflexivity. Qed.

Lemma update_rows_twice (u : MessageStatusUpdate) (rows : list WhatsAppMessage) :
  update_rows u (update_rows u rows) = update_rows u rows.
Proof.
  unfold update_rows. rewrite map_map. apply map_ext. intros r.
  destruct (String.eqb (TwilioSID r) (su_MessageSid u)) eqn:E.
  - rewrite set_status_sid, E. apply set_status_twice.
  - now rewrite E.
Qed.

Lemma update_rows_unknown (u : MessageStatusUpdate) (rows : list WhatsAppMessage) :
  (forall r, In r rows -> TwilioSID r <> su_MessageSid u) ->
  update_rows u rows = rows /\ rows_matching (su_MessageSid u) rows = O.
Proof.
  unfold update_rows, rows_matching.
  induction rows as [|r rows IH]; intros H; simpl; [now split|].
  destruct (String.eqb_spec (TwilioSID r) (su_MessageSid u)) as [E|E].
  - exfalso. apply (H r); [now left|exact E].
  - destruct IH as [IH1 IH2]; [intros x Hx; apply H; now right|].
    simpl. now rewrite IH1, IH2.
Qed.

Lemma rows_matching_known (sid : string) (rows : list WhatsAppMessage) (m : WhatsAppMessage) :
  In m rows -> TwilioSID m = sid -> rows_matching sid rows <> O.
Proof.
  intros Hin Hsid. unfold rows_matching.
  assert (In m (List.filter (fun r => String.eqb (TwilioSID r) sid) rows)) as H.
  { apply filter_In. split; [exact Hin|]. now apply String.eqb_eq. }
  destruct (List.filter _ rows); [destruct H|discriminate].
Qed.

Lemma update_rows_nth (u : MessageStatusUpdate) (rows : list WhatsAppMessage) (i : nat) :
  nth_error (update_rows u rows) i =
  option_map (fun r => if String.eqb (TwilioSID r) (su_MessageSid u) then set_status u r else r)
             (nth_error rows i).
Proof. unfold update_rows. apply nth_error_map. Qed.

(** The columns of a status update take a value when the error code has
    room in [error_code]; the provider id and the status are taken as they
    are, the instant is cut to microseconds. *)
Lemma pg_update_some (u a : MessageStatusUpdate) :
  pg_update u = Some a ->
  su_MessageSid a = su_MessageSid u /\ su_Status a = su_Status u /\
  su_ErrorCode a = su_ErrorCode u /\ su_ErrorMessage a = su_ErrorMessage u /\
  su_Timestamp a = timestamptz (su_Timestamp u).
Proof.
  unfold pg_update, varchar_null, varchar.
  destruct (su_ErrorCode u) as [code|]; simpl.
  - destruct (char_length code <=? 50)%nat; simpl; [|discriminate].
    intros H. injection H as <-. now repeat split.
  - intros H. injection H as <-. now repeat split.
Qed.

Lemma pg_update_fits (u : MessageStatusUpdate) :
  (forall code, su_ErrorCode u = Some code -> (char_length code <= 50)%nat) ->
  exists a, pg_update u = Some a.
Proof.
  intros H. unfold pg_update, varchar_null, varchar.
  destruct (su_ErrorCode u) as [code|]; simpl; [|eexists; reflexivity].
  specialize (H code eq_refl). apply Nat.leb_le in H. rewrite H. simpl.
  eexists. reflexivity.
Qed.

(** What [UpdateMessageStatus] does to the table, to the cache and to the
    clock. *)
Lemma UpdateMessageStatus_db (u : MessageStatusUpdate) (w : World) :
  db (snd (UpdateMessageStatus u w)) =
  if db_up w then
    match pg_update u with
    | Some assigned => update_rows assigned (db w)
    | None => db w
    end
  else db w.
Proof.
  unfold UpdateMessageStatus, db_update_status. run_monad.
  destruct (db_up w); simpl; [|reflexivity].
  destruct (pg_update u) as [a|]; simpl;
    destruct (Nat.eqb (rows_matching (su_MessageSid u) (db w)) 0); reflexivity.
Qed.

Lemma UpdateMessageStatus_frame (u : MessageStatusUpdate) (w : World) :
  let w' := snd (UpdateMessageStatus u w) in
  cache w' = cache w /\ ticks w' = ticks w /\ db_up w' = db_up w /\
  redis_up w' = redis_up w /\ spawned w' = spawned w.
Proof.
  unfold UpdateMessageStatus, db_update_status. run_monad.
  destruct (db_up w) eqn:Hup; simpl; [|now repeat split].
  destruct (pg_update u) as [a|]; simpl;
    destruct (Nat.eqb (rows_matching (su_MessageSid u) (db w)) 0);
    repeat split; simpl; exact Hup.
Qed.

Lemma UpdateMessageStatus_error (u : MessageStatusUpdate) (w : World) :
  db_up w = true ->
  fst (UpdateMessageStatus u w) =
  if Nat.eqb (rows_matching (su_MessageSid u) (db w)) 0
  then Some "message not found for status update"
  else match pg_update u with
       | Some _ => None
       | None => Some "failed to update message status: value too long for type character varying(50)"
       end.
Proof.
  intros Hup. unfold UpdateMessageStatus, db_update_status. run_monad.
  rewrite Hup. simpl.
  destruct (pg_update u) as [a|]; simpl;
    destruct (Nat.eqb (rows_matching (su_MessageSid u) (db w)) 0); reflexivity.
Qed.

(** C1, as the code has it: a status update whose UPDATE reaches the
    database, with an error code, if it has one, of at most 50 characters
    (the width of the column [error_code]), overwrites the row of its
    provider message id whatever the current status is: the row takes the
    status, error code and error message of the StatusUpdate and its
    instant, cut to microseconds, as update time; it keeps the rest, and
    rows of other provider ids stay as they are.  No terminal or ordinal
    guard is applied. *)
Theorem UpdateMessageStatus_overwrites (u : MessageStatusUpdate) (w : World)
    (i : nat) (m : WhatsAppMessage) :
  db_up w = true ->
  (forall code, su_ErrorCode u = Some code -> (char_length code <= 50)%nat) ->
  nth_error (db w) i = Some m ->
  let w' := snd (UpdateMessageStatus u w) in
  (TwilioSID m = su_MessageSid u ->
   fst (UpdateMessageStatus u w) = None /\
   exists m', nth_error (db w') i = Some m' /\
     Status m' = su_Status u /\ ErrorCode m' = su_ErrorCode u /\
     ErrorMsg m' = su_ErrorMessage u /\ UpdatedAt m' = timestamptz (su_Timestamp u) /\
     ID m' = ID m /\ TwilioSID m' = TwilioSID m /\ Content m' = Content m /\
     Direction m' = Direction m /\ Type_ m' = Type_ m /\ Timestamp m' = Timestamp m) /\
  (TwilioSID m <> su_MessageSid u -> nth_error (db w') i = Some m) /\
  List.length (db w') = List.length (db w).
Proof.
  intros Hup Hcode Hm. cbv zeta.
  destruct (pg_update_fits u Hcode) as [a Ha].
  destruct (pg_update_some u a Ha) as [Hsid [Hst [Hec [Hem Hts]]]].
  rewrite UpdateMessageStatus_db, Hup, Ha, update_rows_nth, Hm. simpl.
  rewrite Hsid. repeat split.
  - rewrite (UpdateMessageStatus_error u w Hup), Ha.
    destruct (Nat.eqb_spec (rows_matching (su_MessageSid u) (db w)) 0) as [E|E];
      [|reflexivity].
    exfalso. apply (rows_matching_known _ _ m) in E; [exact E| |exact H].
    eapply nth_error_In. exact Hm.
  - apply String.eqb_eq in H. rewrite H. eexists. split; [reflexivity|].
    simpl. now repeat split.
  - intros H. apply String.eqb_neq in H. now rewrite H.
  - unfold update_rows. apply length_map.
Qed.

Lemma UpdateMessageStatus_overwrites_witness :
  let u := Sample.update "SM1" MessageStatusSent in
  let w := Sample.world_with [Sample.sm1_row MessageStatusRead] true in
  fst (UpdateMessageStatus u w) = None /\
  exists m', nth_error (db (snd (UpdateMessageStatus u w))) 0 = Some m' /\
             Status m' = MessageStatusSent.
Proof.
  cbv zeta.
  destruct (UpdateMessageStatus_overwrites
              (Sample.update "SM1" MessageStatusSent)
              (Sample.world_with [Sample.sm1_row MessageStatusRead] true)
              0 (Sample.sm1_row MessageStatusRead) eq_refl) as [H _].
  - intros code C. discriminate C.
  - reflexivity.
  - destruct (H eq_refl) as [H1 [m' [H2 [H3 _]]]].
    split; [exact H1|]. exists m'. split; [exact H2|exact H3].
Defined.

(** An error code of 51 characters is more than [error_code] takes: the
    UPDATE fails and the row keeps its status. *)
Example UpdateMessageStatus_long_error_code :
  let u := {| su_MessageSid := "SM1"; su_Status := MessageStatusFailed;
              su_ErrorCode := Some (repeat_byte "9" 51); su_ErrorMessage := Some "";
              su_Timestamp := Sample.clock 7 |} in
  let w := Sample.world_with [Sample.sm1_row MessageStatusSent] true in
  fst (UpdateMessageStatus u w)
    = Some "failed to update message status: value too long for type character varying(50)" /\
  db (snd (UpdateMessageStatus u w)) = db w.
Proof. cbv zeta. split; reflexivity. Qed.

(** C1, as the claim has it, fails: a late "sent" replaces a stored
    "delivered", and the terminal "read" is replaced by "sent". *)
Lemma late_sent_overwrites_delivered :
  let u := Sample.update "SM1" MessageStatusSent in
  let stored s := Sample.world_with [Sample.sm1_row s] true in
  (spec_behind (su_Status u) MessageStatusDelivered = true /\
   map Status (db (snd (UpdateMessageStatus u (stored MessageStatusDelivered))))
     = [MessageStatusSent] /\
   db (snd (UpdateMessageStatus u (stored MessageStatusDelivered)))
     <> db (stored MessageStatusDelivered)) /\
  (spec_terminal MessageStatusRead = true /\
   spec_terminal (su_Status u) = false /\
   map Status (db (snd (UpdateMessageStatus u (stored MessageStatusRead))))
     = [MessageStatusSent]).
Proof.
  cbv zeta. repeat split; try reflexivity.
  intros E. apply (f_equal (map Status)) in E. vm_compute in E. discriminate.
Qed.

(** C2: for a provider message id with a stored record, applying the same
    StatusUpdate a second time leaves the table and the cache as the first
    application left them. *)
Theorem UpdateMessageStatus_idempotent (u : MessageStatusUpdate) (w : World)
    (m : WhatsAppMessage) :
  In m (db w) -> TwilioSID m = su_MessageSid u ->
  let once := snd (UpdateMessageStatus u w) in
  let twice := snd (UpdateMessageStatus u once) in
  db twice = db once /\ cache twice = cache once.
Proof.
  intros _ _. cbv zeta.
  destruct (UpdateMessageStatus_frame u (snd (UpdateMessageStatus u w)))
    as [Hc _].
  destruct (UpdateMessageStatus_frame u w) as [_ [_ [Hup _]]].
  split; [|exact Hc].
  rewrite (UpdateMessageStatus_db u (snd (UpdateMessageStatus u w))).
  rewrite Hup, UpdateMessageStatus_db.
  destruct (db_up w); [|reflexivity].
  destruct (pg_update u) as [a|]; [apply update_rows_twice|reflexivity].
Qed.

Lemma UpdateMessageStatus_idempotent_witness :
  let u := Sample.update "SM1" MessageStatusDelivered in
  let w := Sample.world_with [Sample.sm1_row MessageStatusSent] true in
  db (snd (UpdateMessageStatus u (snd (UpdateMessageStatus u w))))
    = db (snd (UpdateMessageStatus u w)) /\
  cache (snd (UpdateMessageStatus u (snd (UpdateMessageStatus u w))))
    = cache (snd (UpdateMessageStatus u w)).
Proof.
  cbv zeta.
  apply (UpdateMessageStatus_idempotent
           (Sample.update "SM1" MessageStatusDelivered)
           (Sample.world_with [Sample.sm1_row MessageStatusSent] true)
           (Sample.sm1_row MessageStatusSent)).
  - left. reflexivity.
  - reflexivity.
Defined.

(** ** The status webhook *)

(** C4: a status webhook for a provider message id without a stored record
    is answered with 200 and no body; the table and the cache are left as
    they were; when the UPDATE reaches the database the condition is written
    to the log as a warning. *)
Theorem HandleStatus_unknown_message (clock : nat -> Time) (lower : string -> string)
    (req : Request) (wh : TwilioWebhookRequest) (w : World) :
  req_form req = Some wh ->
  (forall r, In r (db w) -> TwilioSID r <> wh_MessageSid wh) ->
  fst (HandleStatus clock lower req w) = ok_response /\
  db (snd (HandleStatus clock lower req w)) = db w /\
  cache (snd (HandleStatus clock lower req w)) = cache w /\
  (db_up w = true -> In unknown_message_log (logs (snd (HandleStatus clock lower req w)))).
Proof.
  intros Hform Hnone.
  unfold HandleStatus, ProcessStatusUpdate. rewrite Hform. run_monad.
  set (u := if negb (String.eqb (wh_ErrorCode wh) "") then _ else _).
  assert (su_MessageSid u = wh_MessageSid wh) as Hsid
    by (subst u; destruct (negb (String.eqb (wh_ErrorCode wh) "")); reflexivity).
  rewrite <- Hsid in Hnone.
  destruct (update_rows_unknown u (db w) Hnone) as [Hrows Hcount].
  unfold UpdateMessageStatus, db_update_status. run_monad.
  destruct (db_up w) eqn:Hup; simpl.
  - destruct (pg_update u) as [a|] eqn:Ha; simpl.
    + destruct (pg_update_some u a Ha) as [Ea _].
      rewrite <- Ea in Hnone.
      destruct (update_rows_unknown a (db w) Hnone) as [Hrows' _].
      rewrite Hcount, Hrows'. simpl. repeat split.
      intros _. rewrite !in_app_iff. simpl. unfold unknown_message_log. tauto.
    + rewrite Hcount. simpl. repeat split.
      intros _. rewrite !in_app_iff. simpl. unfold unknown_message_log. tauto.
  - repeat split. discriminate.
Qed.

Lemma HandleStatus_unknown_message_witness :
  let req := Sample.post "" (Sample.form "SM404" "" "" "" "" "delivered" "") in
  let w := Sample.world_with [Sample.sm1_row MessageStatusSent] true in
  fst (HandleStatus Sample.clock Sample.map_unicode_lower req w) = ok_response /\
  db (snd (HandleStatus Sample.clock Sample.map_unicode_lower req w)) = db w /\
  cache (snd (HandleStatus Sample.clock Sample.map_unicode_lower req w)) = cache w /\
  In unknown_message_log (logs (snd (HandleStatus Sample.clock Sample.map_unicode_lower req w))).
Proof.
  cbv zeta.
  pose proof (HandleStatus_unknown_message Sample.clock Sample.map_unicode_lower
                (Sample.post "" (Sample.form "SM404" "" "" "" "" "delivered" ""))
                (Sample.form "SM404" "" "" "" "" "delivered" "")
                (Sample.world_with [Sample.sm1_row MessageStatusSent] true)
                eq_refl) as H.
  assert (forall r, In r [Sample.sm1_row MessageStatusSent] -> TwilioSID r <> "SM404") as Hnone.
  { intros r [<-|[]]. simpl. discriminate. }
  destruct (H Hnone) as [H1 [H2 [H3 H4]]].
  split; [exact H1|]. split; [exact H2|]. split; [exact H3|]. exact (H4 eq_refl).
Defined.

(** ** Store failures on the webhook paths *)

(** C5, as the claim has it, fails: with PostgreSQL unreachable the INSERT of
    a well-formed inbound message fails and the provider is answered 200. *)
Lemma failed_store_write_answers_200 :
  let w := Sample.world_with [] false in
  let req := Sample.post "" Sample.sm1_inbound in
  let run := HandleMessage Sample.clock Sample.uuid_New Sample.time_Parse_RFC3339 req w in
  db_up w = false /\
  resp_status (fst run) = 200 /\
  db (snd run) = [] /\
  map log_msg (List.filter (fun e => match log_level e with ErrorLevel => true | _ => false end)
                      (logs (snd run)))
    = ["Failed to store message in database"; "Failed to store message in database"].
Proof. cbv zeta. repeat split. Qed.

(** C5, as the code has it: a webhook delivery that parses is answered with
    200 whatever the store does; when the store cannot be reached the write
    is dropped, the table is unchanged and the failure is written to the log
    at error level, on the message path and on the status path. *)
Theorem store_failure_is_logged_not_surfaced (clock : nat -> Time)
    (uuid_New : nat -> UUID) (time_Parse : string -> option Time)
    (lower : string -> string) (req : Request) (wh : TwilioWebhookRequest) (w : World) :
  req_form req = Some wh ->
  let msg := HandleMessage clock uuid_New time_Parse req w in
  let sts := HandleStatus clock lower req w in
  fst msg = ok_response /\ fst sts = ok_response /\
  (db_up w = false ->
   db (snd msg) = db w /\ In store_failed_log (logs (snd msg)) /\
   db (snd sts) = db w /\ In update_failed_log (logs (snd sts))).
Proof.
  intros Hform. cbv zeta.
  unfold HandleMessage, HandleStatus, ProcessIncomingMessage, ProcessStatusUpdate,
    StoreMessage, UpdateMessageStatus, db_insert, db_update_status, redis_Set.
  rewrite Hform.
  split; [|split].
  - destruct (Atoi (wh_NumMedia wh)) as [n|];
      [destruct ((0 <? n) && negb (String.eqb (wh_MediaUrl0 wh) ""))|];
      run_monad; case_store; reflexivity.
  - run_monad. case_store; reflexivity.
  - intros Hup.
    destruct (Atoi (wh_NumMedia wh)) as [n|];
      [destruct ((0 <? n) && negb (String.eqb (wh_MediaUrl0 wh) ""))|];
      run_monad; rewrite ?Hup; simpl;
      (repeat split; rewrite ?in_app_iff; simpl;
       unfold store_failed_log, update_failed_log; tauto).
Qed.

Lemma store_failure_is_logged_not_surfaced_witness :
  let req := Sample.post "" Sample.sm1_inbound in
  let w := Sample.world_with [Sample.sm1_row MessageStatusSent] false in
  let msg := HandleMessage Sample.clock Sample.uuid_New Sample.time_Parse_RFC3339 req w in
  let sts := HandleStatus Sample.clock Sample.map_unicode_lower req w in
  fst msg = ok_response /\ fst sts = ok_response /\
  db (snd msg) = db w /\ In store_failed_log (logs (snd msg)) /\
  db (snd sts) = db w /\ In update_failed_log (logs (snd sts)).
Proof.
  cbv zeta.
  pose proof (store_failure_is_logged_not_surfaced Sample.clock Sample.uuid_New
                Sample.time_Parse_RFC3339 Sample.map_unicode_lower
                (Sample.post "" Sample.sm1_inbound) Sample.sm1_inbound
                (Sample.world_with [Sample.sm1_row MessageStatusSent] false)
                eq_refl) as H.
  cbv zeta in H. destruct H as [H1 [H2 H3]].
  split; [exact H1|]. split; [exact H2|]. exact (H3 eq_refl).
Defined.

(** ** Lookups by internal id after a status update *)


(** The read of the cache by [GetMessage] never succeeds. *)
Lemma redis_Get_misses (clock : nat -> Time) (key : string) (w : World) :
  exists e, redis_Get clock key w = (Err e, w).
Proof.
  unfold redis_Get.
  destruct (redis_up w); [|eexists; reflexivity].
  destruct (cache w !! key) as [e|]; [|eexists; reflexivity].
  destruct (clock (ticks w) <? ce_expires e); eexists; reflexivity.
Qed.

(** [GetMessage] answers from the table, and writes nothing to Redis. *)
Lemma GetMessage_outcome (clock : nat -> Time) (uuid_Parse : string -> option UUID)
    (messageID : string) (w : World) :
  let run := GetMessage clock uuid_Parse messageID w in
  db (snd run) = db w /\ cache (snd run) = cache w /\ ticks (snd run) = ticks w /\
  uuids (snd run) = uuids w /\ db_up (snd run) = db_up w /\
  redis_up (snd run) = redis_up w /\ spawned (snd run) = spawned w /\
  fst run =
    match uuid_Parse messageID with
    | None => Err "invalid message ID format"
    | Some id =>
        if db_up w then
          match row_of id (db w) with
          | Some r => Ok r
          | None => Err "failed to retrieve message: no rows in result set"
          end
        else Err "failed to retrieve message: connection refused"
    end.
Proof.
  cbv zeta.
  destruct (GetMessage clock uuid_Parse messageID w) as [res w'] eqn:Hrun.
  simpl. revert Hrun. unfold GetMessage, row_of.
  destruct (uuid_Parse messageID) as [id|].
  2:{ run_monad. intros H. injection H as <- <-. now repeat split. }
  unfold bind, log.
  match goal with |- context [redis_Get clock ?k ?w0] =>
    destruct (redis_Get_misses clock k w0) as [e ->]
  end.
  unfold db_select_by_id, redis_Set, pgx_ErrNoRows, sql_ErrNoRows. run_monad.
  destruct (db_up w) eqn:Hup; simpl.
  2:{ intros H. injection H as <- <-. now repeat split. }
  destruct (List.find _ (db w)) as [r|]; simpl; rewrite ?Hup;
    destruct (redis_up w) eqn:Hr; simpl;
    intros H; injection H as <- <-; now repeat split.
Qed.




(** The scenario of the specification, through the routes: the inbound
    message SM1 is stored with status delivered, the status webhook "read"
    for SM1 is acknowledged with 200, and the lookup of the message by its
    internal id answers read.  Redis holds nothing before or after. *)
Example lookup_after_acknowledged_update :
  let w0 := Sample.empty_world in
  let stored := post_messages Sample.clock Sample.uuid_New Sample.time_Parse_RFC3339 ""
                  (Sample.post "" Sample.sm1_inbound) w0 in
  let updated := post_status Sample.clock Sample.map_unicode_lower ""
                   (Sample.post "" (Sample.sm1_status "read")) (snd stored) in
  let read := get_message Sample.clock Sample.uuid_Parse (Sample.uuid_New 0)
                (snd updated) in
  fst stored = ok_response /\
  fst updated = ok_response /\
  cache (snd read) = ∅ /\
  exists m, fst read = {| resp_status := StatusOK; resp_body := MessageJSON m |} /\
            ID m = Sample.uuid_New 0 /\ Status m = MessageStatusRead.
Proof.
  cbv zeta. split; [vm_compute; reflexivity|].
  split; [vm_compute; reflexivity|].
  split; [vm_compute; reflexivity|].
  eexists. split; [vm_compute; reflexivity|]. split; reflexivity.
Qed.

(** ** The signature gate *)

(** With a secret configured, the middleware looks at the presence of the
    signature header only. *)
Lemma signature_checked_for_presence (secret : string) (req : Request) :
  secret <> "" ->
  WhatsAppSignatureVerification secret req =
  if String.eqb (req_signature req) ""
  then Abort {| resp_status := StatusUnauthorized; resp_body := ErrorJSON "Missing signature" |}
  else Next.
Proof.
  intros H. unfold WhatsAppSignatureVerification.
  apply String.eqb_neq in H. now rewrite H.
Qed.

Lemma no_secret_skips_verification (req : Request) :
  WhatsAppSignatureVerification "" req = Next.
Proof. reflexivity. Qed.

(** A signature of odd length is the hex form of no digest. *)
Lemma verifySignature_odd (hmac_sha256 : string -> string -> string)
    (signature secret body url : string) :
  Nat.odd (String.length signature) = true ->
  verifySignature hmac_sha256 signature secret body url = false.
Proof.
  intros Hodd. unfold verifySignature. apply String.eqb_neq. intros E.
  rewrite E, hex_EncodeToString_length in Hodd.
  rewrite Nat.odd_mul in Hodd. discriminate.
Qed.

(** C6 at a concrete delivery: with the secret "s3cret" configured, a status
    webhook signed "bogus", which [verifySignature] refuses whatever the
    digest is, passes the middleware, reaches the handler, changes the stored
    status and is answered with 200. *)
Theorem invalid_signature_is_accepted (hmac_sha256 : string -> string -> string) :
  let secret := "s3cret" in
  let req := Sample.post "bogus" (Sample.sm1_status "read") in
  let w := Sample.world_with [Sample.sm1_row MessageStatusSent] true in
  let run := post_status Sample.clock Sample.map_unicode_lower secret req w in
  verifySignature hmac_sha256 (req_signature req) secret (req_body req) (req_url req) = false /\
  WhatsAppSignatureVerification secret req = Next /\
  fst run = ok_response /\
  map Status (db (snd run)) = [MessageStatusRead].
Proof.
  cbv zeta. split; [now apply verifySignature_odd|].
  repeat split.
Qed.

Example missing_signature_rejected :
  fst (post_status Sample.clock Sample.map_unicode_lower "s3cret"
         (Sample.post "" (Sample.sm1_status "read"))
         (Sample.world_with [Sample.sm1_row MessageStatusSent] true))
  = {| resp_status := 401; resp_body := ErrorJSON "Missing signature" |}.
Proof. reflexivity. Qed.

(** * Further properties of the code *)

(** ** StoreMessage and GetMessage *)

Lemma collides_false (message : WhatsAppMessage) (rows : list WhatsAppMessage) :
  collides message rows = false <->
  forall r, In r rows -> ID r <> ID message /\ TwilioSID r <> TwilioSID message.
Proof.
  unfold collides. split.
  - intros H r Hr.
    destruct (String.eqb_spec (ID r) (ID message)) as [E|E];
      destruct (String.eqb_spec (TwilioSID r) (TwilioSID message)) as [F|F];
      try (split; assumption);
      exfalso; apply (Bool.eq_true_false_abs (collides message rows));
        try exact H; unfold collides; apply existsb_exists; exists r;
        (split; [exact Hr|]);
        try (apply String.eqb_eq in E; rewrite E); try (apply String.eqb_eq in F; rewrite F);
        try reflexivity; apply orb_true_r.
  - intros H. apply Bool.not_true_is_false. intros C.
    apply existsb_exists in C. destruct C as [r [Hr C]].
    destruct (H r Hr) as [E F].
    apply String.eqb_neq in E. apply String.eqb_neq in F.
    rewrite E, F in C. discriminate.
Qed.

(** ** The columns of the table *)

Lemma varchar_fits (n : nat) (s : string) : fits n s -> varchar n s = Some s.
Proof.
  unfold fits, varchar. intros H. apply Nat.leb_le in H. now rewrite H.
Qed.

Lemma varchar_some (n : nat) (s t : string) : varchar n s = Some t -> t = s /\ fits n s.
Proof.
  unfold fits, varchar. destruct (Nat.leb_spec (char_length s) n) as [H|H]; [|discriminate].
  intros E. injection E as <-. now split.
Qed.

Lemma varchar_null_some (n : nat) (s t : option string) :
  varchar_null n s = Some t -> t = s /\ fits_null n s.
Proof.
  unfold varchar_null, fits_null. destruct s as [v|].
  - destruct (varchar n v) as [v'|] eqn:E; [|discriminate].
    apply varchar_some in E. destruct E as [-> Hf].
    simpl. intros H. injection H as <-. now split.
  - intros H. injection H as <-. now split.
Qed.

Lemma varchar_null_fits (n : nat) (s : option string) :
  fits_null n s -> varchar_null n s = Some s.
Proof.
  unfold varchar_null, fits_null. destruct s as [v|]; [|reflexivity].
  intros H. now rewrite (varchar_fits n v H).
Qed.

(** The columns take a message exactly when each VARCHAR column has room
    for its value; the row is then the message with its instants cut to
    microseconds. *)
Lemma pg_row_some (m r : WhatsAppMessage) :
  pg_row m = Some r <-> fits_columns m /\ r = stored m.
Proof.
  unfold pg_row, fits_columns, stored. split.
  - destruct (varchar 255 (TwilioSID m)) as [sid|] eqn:E1; [|discriminate].
    destruct (varchar 50 (From m)) as [from|] eqn:E2; [|discriminate].
    destruct (varchar 50 (To m)) as [to|] eqn:E3; [|discriminate].
    destruct (varchar_null 100 (MediaType m)) as [mt|] eqn:E4; [|discriminate].
    destruct (varchar_null 50 (ErrorCode m)) as [ec|] eqn:E5; [|discriminate].
    apply varchar_some in E1, E2, E3. apply varchar_null_some in E4, E5.
    destruct E1 as [-> F1], E2 as [-> F2], E3 as [-> F3], E4 as [-> F4], E5 as [-> F5].
    intros H. injection H as <-. now repeat split.
  - intros [[F1 [F2 [F3 [F4 F5]]]] ->].
    now rewrite !varchar_fits, !varchar_null_fits by assumption.
Qed.

Lemma collides_stored (m : WhatsAppMessage) (rows : list WhatsAppMessage) :
  collides (stored m) rows = collides m rows.
Proof. reflexivity. Qed.

(** The outcome of [StoreMessage] in full. *)
Lemma StoreMessage_outcome (message : WhatsAppMessage) (w : World) :
  let w' := snd (StoreMessage message w) in
  ticks w' = ticks w /\ uuids w' = uuids w /\ db_up w' = db_up w /\
  redis_up w' = redis_up w /\ spawned w' = spawned w /\ cache w' = cache w /\
  match (if db_up w then pg_row message else None) with
  | Some row =>
      if collides message (db w) then
        fst (StoreMessage message w)
          = Some "failed to store message: duplicate key value violates unique constraint" /\
        db w' = db w
      else
        fst (StoreMessage message w) = None /\ db w' = (db w ++ [row])%list
  | None =>
      (exists e, fst (StoreMessage message w) = Some e) /\ db w' = db w
  end.
Proof.
  unfold StoreMessage, db_insert, redis_Set, collides. run_monad.
  destruct (db_up w) eqn:Hdb; simpl.
  - destruct (pg_row message) as [row|] eqn:Hrow; simpl.
    + apply pg_row_some in Hrow. destruct Hrow as [_ ->]. simpl.
      destruct (List.existsb _ (db w)) eqn:Hex; simpl.
      * now repeat split.
      * destruct (redis_up w) eqn:Hr; simpl; now repeat split.
    + repeat split; try assumption. eexists. reflexivity.
  - repeat split; try assumption. eexists. reflexivity.
Qed.

Lemma row_of_app_fresh (id : UUID) (rows : list WhatsAppMessage) (m : WhatsAppMessage) :
  (forall r, In r rows -> ID r <> id) -> ID m = id ->
  row_of id (rows ++ [m]) = Some m.
Proof.
  unfold row_of. intros Hfresh Hid.
  induction rows as [|r rows IH]; simpl.
  - apply String.eqb_eq in Hid. now rewrite Hid.
  - destruct (String.eqb_spec (ID r) id) as [E|E].
    + exfalso. apply (Hfresh r); [now left|exact E].
    + apply IH. intros x Hx. apply Hfresh. now right.
Qed.

(** What [StoreMessage] does when it returns nil. *)
Lemma StoreMessage_nil (message : WhatsAppMessage) (w : World) :
  fst (StoreMessage message w) = None ->
  db_up w = true /\ fits_columns message /\ collides message (db w) = false /\
  db (snd (StoreMessage message w)) = (db w ++ [stored message])%list.
Proof.
  intros Hnil.
  destruct (StoreMessage_outcome message w) as [_ [_ [_ [_ [_ [_ H]]]]]].
  destruct (db_up w); [|destruct H as [[e He] _]; congruence].
  destruct (pg_row message) as [row|] eqn:Hrow; [|destruct H as [[e He] _]; congruence].
  apply pg_row_some in Hrow. destruct Hrow as [Hfits ->].
  destruct (collides message (db w)); [destruct H as [He _]; congruence|].
  destruct H as [_ Hdb].
  split; [reflexivity|]. split; [exact Hfits|]. split; [reflexivity|exact Hdb].
Qed.

(** X1: a message that [StoreMessage] has accepted is what [GetMessage]
    answers for its internal id right afterwards, read back from the table:
    every column as it was stored, the three instants cut to the
    microseconds the table keeps. *)
Theorem StoreMessage_GetMessage_roundtrip (clock : nat -> Time)
    (uuid_Parse : string -> option UUID) (message : WhatsAppMessage) (w : World) :
  uuid_Parse (ID message) = Some (ID message) ->
  fits_columns message ->
  fst (StoreMessage message w) = None ->
  fst (GetMessage clock uuid_Parse (ID message) (snd (StoreMessage message w)))
    = Ok (stored message).
Proof.
  intros Hparse _ Hstored.
  destruct (StoreMessage_nil message w Hstored) as [Hup [_ [Hfresh Hrows]]].
  destruct (StoreMessage_outcome message w) as [_ [_ [Hdb _]]].
  pose proof (GetMessage_outcome clock uuid_Parse (ID message)
                (snd (StoreMessage message w))) as G.
  cbv zeta in G. destruct G as [_ [_ [_ [_ [_ [_ [_ G]]]]]]].
  rewrite G, Hparse, Hdb, Hup, Hrows.
  rewrite (row_of_app_fresh (ID message) (db w) (stored message)); [reflexivity| |reflexivity].
  intros r Hin. apply (proj1 (collides_false message (db w)) Hfresh r Hin).
Qed.

Lemma StoreMessage_GetMessage_roundtrip_witness :
  let m := {| ID := Sample.uuid_New 0; TwilioSID := "SM1"; From := "whatsapp:+551199990000";
              To := "whatsapp:+14155238886"; Direction := MessageDirectionInbound;
              Type_ := MessageTypeText; Status := MessageStatusDelivered; Content := "oi";
              MediaURL := None; MediaType := None;
              Timestamp := 1700000000123456789; CreatedAt := 1700000000123456999;
              UpdatedAt := 1700000000123457001;
              UserID := None; SessionID := None; ErrorCode := None; ErrorMsg := None |} in
  exists m', fst (GetMessage Sample.clock Sample.uuid_Parse (ID m)
                    (snd (StoreMessage m Sample.empty_world))) = Ok m' /\
             Content m' = "oi" /\ Timestamp m' = 1700000000123456000 /\
             CreatedAt m' = 1700000000123456000 /\ UpdatedAt m' = 1700000000123457000.
Proof.
  cbv zeta. eexists. split.
  - apply (StoreMessage_GetMessage_roundtrip Sample.clock Sample.uuid_Parse).
    + reflexivity.
    + unfold fits_columns, fits, fits_null. simpl. lia.
    + vm_compute. reflexivity.
  - repeat split.
Defined.

(** ** The inbound message path *)

(** What [ProcessIncomingMessage] returns and what it consumes: one
    identifier and three readings of the clock; it touches neither the
    table nor the cache. *)
Lemma ProcessIncomingMessage_outcome (clock : nat -> Time) (uuid_New : nat -> UUID)
    (time_Parse : string -> option Time) (wh : TwilioWebhookRequest) (w : World) :
  exists m w1,
    ProcessIncomingMessage clock uuid_New time_Parse wh w = (Ok m, w1) /\
    (db w1 = db w /\ cache w1 = cache w /\ db_up w1 = db_up w /\ redis_up w1 = redis_up w /\
     spawned w1 = spawned w /\ ticks w1 = S (S (S (ticks w))) /\ uuids w1 = S (uuids w)) /\
    (ID m = uuid_New (uuids w) /\ TwilioSID m = wh_MessageSid wh /\
     From m = wh_From wh /\ To m = wh_To wh /\ Content m = wh_Body wh /\
     Direction m = MessageDirectionInbound /\ Status m = MessageStatusDelivered /\
     CreatedAt m = clock (S (ticks w)) /\ UpdatedAt m = clock (S (S (ticks w)))) /\
    (if match Atoi (wh_NumMedia wh) with
        | Some n => (0 <? n) && negb (String.eqb (wh_MediaUrl0 wh) "")
        | None => false
        end
     then MediaURL m = Some (wh_MediaUrl0 wh) /\
          MediaType m = Some (wh_MediaContentType0 wh) /\
          Type_ m = determineMessageType (wh_MediaContentType0 wh)
     else MediaURL m = None /\ MediaType m = None /\ Type_ m = MessageTypeText).
Proof.
  unfold ProcessIncomingMessage.
  destruct (Atoi (wh_NumMedia wh)) as [n|];
    [destruct ((0 <? n) && negb (String.eqb (wh_MediaUrl0 wh) ""))|];
    run_monad; eexists; eexists; (split; [reflexivity|]); simpl; now repeat split.
Qed.

(** [HandleMessage] on a form that binds: the answer, and the world in terms
    of the message built and of [StoreMessage]. *)
Lemma HandleMessage_outcome (clock : nat -> Time) (uuid_New : nat -> UUID)
    (time_Parse : string -> option Time) (req : Request) (wh : TwilioWebhookRequest)
    (w : World) :
  req_form req = Some wh ->
  exists m w1,
    fst (ProcessIncomingMessage clock uuid_New time_Parse wh w) = Ok m /\
    (db w1 = db w /\ cache w1 = cache w /\ db_up w1 = db_up w /\ redis_up w1 = redis_up w /\
     spawned w1 = spawned w /\ ticks w1 = S (S (S (ticks w))) /\ uuids w1 = S (uuids w)) /\
    let run := HandleMessage clock uuid_New time_Parse req w in
    let stored := StoreMessage m w1 in
    fst run = ok_response /\
    db (snd run) = db (snd stored) /\ cache (snd run) = cache (snd stored) /\
    spawned (snd run) =
      (spawned w ++ match MediaURL m with
                    | Some _ => [processMediaAsync m]
                    | None => []
                    end ++ [forwardToOrchestrator m])%list.
Proof.
  intros Hform.
  destruct (ProcessIncomingMessage_outcome clock uuid_New time_Parse wh
              (add_log {| log_level := InfoLevel;
                          log_msg := "Received WhatsApp message webhook" |} w))
    as [m [w1 [Hp [Hw1 _]]]].
  destruct (ProcessIncomingMessage_outcome clock uuid_New time_Parse wh w)
    as [m' [w1' [Hp' _]]].
  assert (m' = m) as ->.
  { revert Hp Hp'. unfold ProcessIncomingMessage.
    destruct (Atoi (wh_NumMedia wh)) as [n|];
      [destruct ((0 <? n) && negb (String.eqb (wh_MediaUrl0 wh) ""))|];
      run_monad; intros H1 H2; congruence. }
  exists m, w1. split; [now rewrite Hp'|]. split; [exact Hw1|].
  assert (HandleMessage clock uuid_New time_Parse req w =
          let '(err, w2) := StoreMessage m w1 in
          (ok_response,
           add_task (forwardToOrchestrator m)
             (match MediaURL m with
              | Some _ => add_task (processMediaAsync m)
              | None => fun x => x
              end (match err with
                   | Some _ => add_log store_failed_log w2
                   | None => w2
                   end)))) as Hrun.
  { unfold HandleMessage. rewrite Hform. unfold bind at 1, log at 1.
    unfold bind at 1. rewrite Hp. unfold bind.
    destruct (StoreMessage m w1) as [err w2].
    destruct err; destruct (MediaURL m); reflexivity. }
  cbv zeta. rewrite Hrun.
  destruct (StoreMessage_outcome m w1) as [_ [_ [_ [_ [Hsp _]]]]].
  destruct (StoreMessage m w1) as [err w2]. simpl in Hsp.
  destruct Hw1 as [_ [_ [_ [_ [Hs1 _]]]]]. simpl in Hs1.
  destruct err; destruct (MediaURL m); simpl;
    rewrite Hsp, Hs1; rewrite <- ?app_assoc; now repeat split.
Qed.

Lemma collides_true (message r : WhatsAppMessage) (rows : list WhatsAppMessage) :
  In r rows -> ID r = ID message \/ TwilioSID r = TwilioSID message ->
  collides message rows = true.
Proof.
  intros Hin H. unfold collides. apply existsb_exists. exists r. split; [exact Hin|].
  destruct H as [H|H]; apply String.eqb_eq in H; rewrite H;
    [reflexivity|apply orb_true_r].
Qed.



Example StoreMessage_redis :
  let down := {| db := []; db_up := true; cache := ∅; redis_up := false;
                 logs := []; ticks := O; uuids := O; spawned := [] |} in
  let m := Sample.sm1_row MessageStatusSent in
  fst (StoreMessage m down) = None /\ db (snd (StoreMessage m down)) = [m] /\
  cache (snd (StoreMessage m down)) = ∅ /\
  cache (snd (StoreMessage m Sample.empty_world)) = ∅ /\
  map log_msg (logs (snd (StoreMessage m Sample.empty_world)))
    = ["Storing WhatsApp message"; "Failed to cache message in Redis";
       "Message stored successfully"].
Proof. cbv zeta. repeat split. Qed.

(** A sender of 51 characters is more than [from_number] takes. *)
Example StoreMessage_long_sender :
  let m := {| ID := Sample.uuid_New 0; TwilioSID := "SM1"; From := repeat_byte "5" 51;
              To := "whatsapp:+14155238886"; Direction := MessageDirectionInbound;
              Type_ := MessageTypeText; Status := MessageStatusDelivered; Content := "oi";
              MediaURL := None; MediaType := None;
              Timestamp := 0; CreatedAt := 0; UpdatedAt := 0;
              UserID := None; SessionID := None; ErrorCode := None; ErrorMsg := None |} in
  fst (StoreMessage m Sample.empty_world)
    = Some "failed to store message: value too long for type character varying" /\
  db (snd (StoreMessage m Sample.empty_world)) = [].
Proof. cbv zeta. split; reflexivity. Qed.

(** X3: a provider that delivers an inbound message again, when a row with
    its MessageSid exists, is answered 200; the table and the cache stay as
    they are, yet the message is handed to the orchestrator once more, under
    the next internal id that [uuid.New()] gives out. *)
Theorem HandleMessage_redelivery (clock : nat -> Time) (uuid_New : nat -> UUID)
    (time_Parse : string -> option Time) (req : Request) (wh : TwilioWebhookRequest)
    (w : World) (r : WhatsAppMessage) :
  req_form req = Some wh ->
  In r (db w) -> TwilioSID r = wh_MessageSid wh ->
  let run := HandleMessage clock uuid_New time_Parse req w in
  fst run = ok_response /\ db (snd run) = db w /\ cache (snd run) = cache w /\
  exists m, ID m = uuid_New (uuids w) /\ TwilioSID m = wh_MessageSid wh /\
            In (forwardToOrchestrator m) (spawned (snd run)).
Proof.
  intros Hform Hin Hsid. cbv zeta.
  destruct (HandleMessage_outcome clock uuid_New time_Parse req wh w Hform)
    as [m [w1 [Hm [Hw1 Hrun]]]].
  cbv zeta in Hrun. destruct Hrun as [Hresp [Hdb [Hcache Hsp]]].
  destruct (ProcessIncomingMessage_outcome clock uuid_New time_Parse wh w)
    as [m' [w1' [Hp [_ [Hfields _]]]]].
  rewrite Hp in Hm. simpl in Hm. injection Hm as ->.
  destruct Hfields as [Hid [Hs _]].
  destruct Hw1 as [Hd1 [Hc1 _]].
  destruct (StoreMessage_outcome m w1) as [_ [_ [_ [_ [_ [Hc2 Hout]]]]]].
  rewrite Hd1 in Hout.
  rewrite (collides_true m r (db w) Hin) in Hout by (right; congruence).
  assert (db (snd (StoreMessage m w1)) = db w) as Hd2
    by (destruct (if db_up w1 then pg_row m else None); apply Hout).
  split; [exact Hresp|]. split; [congruence|]. split; [congruence|].
  exists m. split; [exact Hid|]. split; [exact Hs|].
  rewrite Hsp. rewrite !in_app_iff. right. right. now left.
Qed.

Lemma HandleMessage_redelivery_witness :
  let req := Sample.post "" Sample.sm1_inbound in
  let w := Sample.world_with [Sample.sm1_row MessageStatusDelivered] true in
  let run := HandleMessage Sample.clock Sample.uuid_New Sample.time_Parse_RFC3339 req w in
  fst run = ok_response /\ db (snd run) = db w /\ cache (snd run) = cache w /\
  exists m, ID m = Sample.uuid_New 1 /\ TwilioSID m = "SM1" /\
            In (forwardToOrchestrator m) (spawned (snd run)).
Proof.
  cbv zeta.
  apply (HandleMessage_redelivery Sample.clock Sample.uuid_New Sample.time_Parse_RFC3339
           (Sample.post "" Sample.sm1_inbound) Sample.sm1_inbound
           (Sample.world_with [Sample.sm1_row MessageStatusDelivered] true)
           (Sample.sm1_row MessageStatusDelivered)).
  - reflexivity.
  - left. reflexivity.
  - reflexivity.
Defined.

(** X4: every inbound delivery that binds starts the orchestrator task once,
    and the media task before it exactly when the webhook carries media,
    whatever becomes of the store write. *)
Theorem HandleMessage_fan_out (clock : nat -> Time) (uuid_New : nat -> UUID)
    (time_Parse : string -> option Time) (req : Request) (wh : TwilioWebhookRequest)
    (w : World) :
  req_form req = Some wh ->
  exists m,
    fst (ProcessIncomingMessage clock uuid_New time_Parse wh w) = Ok m /\
    spawned (snd (HandleMessage clock uuid_New time_Parse req w)) =
      (spawned w ++ (if carries_media wh then [processMediaAsync m] else [])
                 ++ [forwardToOrchestrator m])%list.
Proof.
  intros Hform.
  destruct (HandleMessage_outcome clock uuid_New time_Parse req wh w Hform)
    as [m [w1 [Hm [_ Hrun]]]].
  cbv zeta in Hrun. destruct Hrun as [_ [_ [_ Hsp]]].
  exists m. split; [exact Hm|]. rewrite Hsp.
  destruct (ProcessIncomingMessage_outcome clock uuid_New time_Parse wh w)
    as [m' [w1' [Hp [_ [_ Hmedia]]]]].
  rewrite Hp in Hm. simpl in Hm. injection Hm as ->.
  unfold carries_media.
  destruct (match Atoi (wh_NumMedia wh) with Some n => _ | None => false end);
    destruct Hmedia as [Hu _]; now rewrite Hu.
Qed.

Lemma HandleMessage_fan_out_witness :
  exists m,
    fst (ProcessIncomingMessage Sample.clock Sample.uuid_New Sample.time_Parse_RFC3339
           Sample.sm1_inbound (Sample.world_with [] false)) = Ok m /\
    spawned (snd (HandleMessage Sample.clock Sample.uuid_New Sample.time_Parse_RFC3339
                    (Sample.post "" Sample.sm1_inbound) (Sample.world_with [] false)))
      = [forwardToOrchestrator m].
Proof.
  apply (HandleMessage_fan_out Sample.clock Sample.uuid_New Sample.time_Parse_RFC3339
           (Sample.post "" Sample.sm1_inbound) Sample.sm1_inbound
           (Sample.world_with [] false)).
  reflexivity.
Defined.


(** ** Lookups and Redis *)

(** X5: [GetMessage] answers from the table and from nowhere else.  It
    returns a message exactly when the id parses, PostgreSQL is reachable
    and the table has a row of that id, and the message is that row; it
    leaves table and Redis as they are; and its answer is the same whatever
    Redis holds and whether or not Redis can be reached.  There is no
    read-through: an answer is never kept for a later lookup. *)
Theorem GetMessage_answers_from_table (clock : nat -> Time)
    (uuid_Parse : string -> option UUID) (messageID : string) (w : World) :
  let run := GetMessage clock uuid_Parse messageID w in
  db (snd run) = db w /\ cache (snd run) = cache w /\
  (forall r, fst run = Ok r <->
     exists id, uuid_Parse messageID = Some id /\ db_up w = true /\
                row_of id (db w) = Some r) /\
  (forall w2, same_table w w2 -> fst (GetMessage clock uuid_Parse messageID w2) = fst run).
Proof.
  cbv zeta.
  pose proof (GetMessage_outcome clock uuid_Parse messageID w) as G.
  cbv zeta in G. destruct G as [Hd [Hc [_ [_ [_ [_ [_ Hres]]]]]]].
  split; [exact Hd|]. split; [exact Hc|]. split.
  - intros r. rewrite Hres.
    destruct (uuid_Parse messageID) as [id|] eqn:Hid.
    + destruct (db_up w) eqn:Hup.
      * destruct (row_of id (db w)) as [r0|] eqn:Hrow.
        -- split; [intros H; injection H as <-; now exists id|].
           intros [id' [H1 [_ H2]]]. congruence.
        -- split; [discriminate|]. intros [id' [H1 [_ H2]]]. congruence.
      * split; [discriminate|]. intros [id' [_ [C _]]]. discriminate.
    + split; [discriminate|]. intros [id' [C _]]. discriminate.
  - intros w2 [Hd2 Hu2].
    pose proof (GetMessage_outcome clock uuid_Parse messageID w2) as G2.
    cbv zeta in G2. destruct G2 as [_ [_ [_ [_ [_ [_ [_ Hres2]]]]]]].
    now rewrite Hres2, Hres, Hd2, Hu2.
Qed.

(** A lookup that was answered is not answered again once PostgreSQL
    cannot be reached, though Redis can. *)
Example GetMessage_no_read_through :
  let r := Sample.sm1_row MessageStatusRead in
  let w := Sample.world_with [r] true in
  let first := GetMessage Sample.clock Sample.uuid_Parse (ID r) w in
  fst first = Ok r /\ cache (snd first) = ∅ /\
  map log_msg (logs (snd first))
    = ["Retrieving message"; "Failed to cache retrieved message";
       "Message retrieved successfully"] /\
  fst (GetMessage Sample.clock Sample.uuid_Parse (ID r) (with_db_up false (snd first)))
    = Err "failed to retrieve message: connection refused".
Proof. cbv zeta. repeat split. Qed.

(** X7: the lookup handler answers 404 "Message not found" not only for a
    missing row but for every failure of the lookup: an id that is no UUID,
    and an unreachable database. *)
Theorem HandleGetMessage_failures_are_404 (clock : nat -> Time)
    (uuid_Parse : string -> option UUID) (messageID : string) (w : World) :
  (uuid_Parse messageID = None \/ db_up w = false \/
   (exists id, uuid_Parse messageID = Some id /\ row_of id (db w) = None)) ->
  fst (HandleGetMessage clock uuid_Parse messageID w) = not_found_response /\
  db (snd (HandleGetMessage clock uuid_Parse messageID w)) = db w /\
  cache (snd (HandleGetMessage clock uuid_Parse messageID w)) = cache w.
Proof.
  intros H. unfold HandleGetMessage, bind, log.
  pose proof (GetMessage_outcome clock uuid_Parse messageID
                (add_log {| log_level := InfoLevel; log_msg := "Retrieving message" |} w))
    as G.
  cbv zeta in G. destruct G as [Hdb [Hc [_ [_ [_ [_ [_ G]]]]]]].
  simpl in G, Hdb, Hc.
  assert (exists e, fst (GetMessage clock uuid_Parse messageID
                           (add_log {| log_level := InfoLevel;
                                       log_msg := "Retrieving message" |} w)) = Err e)
    as [e He].
  { rewrite G. destruct (uuid_Parse messageID) as [id|]; [|eexists; reflexivity].
    destruct (db_up w); [|eexists; reflexivity].
    destruct H as [H|[H|[id' [H1 H2]]]]; try discriminate.
    injection H1 as <-. rewrite H2. eexists. reflexivity. }
  clear G.
  destruct (GetMessage clock uuid_Parse messageID (add_log _ w)) as [res w'].
  simpl in He, Hdb, Hc. subst res. simpl. now repeat split.
Qed.

Lemma HandleGetMessage_failures_are_404_witness :
  fst (HandleGetMessage Sample.clock Sample.uuid_Parse "not-a-uuid" Sample.empty_world)
    = not_found_response /\
  fst (HandleGetMessage Sample.clock Sample.uuid_Parse (Sample.uuid_New 0)
         (Sample.world_with [Sample.sm1_row MessageStatusSent] false))
    = not_found_response.
Proof.
  split.
  - apply (HandleGetMessage_failures_are_404 Sample.clock Sample.uuid_Parse "not-a-uuid"
             Sample.empty_world).
    left. reflexivity.
  - apply (HandleGetMessage_failures_are_404 Sample.clock Sample.uuid_Parse
             (Sample.uuid_New 0) (Sample.world_with [Sample.sm1_row MessageStatusSent] false)).
    right. left. reflexivity.
Defined.

(** ** The status path, end to end *)

Lemma HandleStatus_run (clock : nat -> Time) (lower : string -> string)
    (req : Request) (wh : TwilioWebhookRequest) (w : World) :
  req_form req = Some wh ->
  exists u w1,
    (su_MessageSid u = wh_MessageSid wh /\ su_Timestamp u = clock (ticks w) /\
     su_Status u = (if String.eqb (wh_ErrorCode wh) ""
                    then mapTwilioStatus lower (wh_SmsStatus wh) else MessageStatusFailed) /\
     su_ErrorCode u = (if String.eqb (wh_ErrorCode wh) "" then None
                       else Some (wh_ErrorCode wh))) /\
    (db w1 = db w /\ cache w1 = cache w /\ db_up w1 = db_up w) /\
    HandleStatus clock lower req w =
      let '(err, w2) := UpdateMessageStatus u w1 in
      (ok_response, match err with
                    | Some _ => add_log update_failed_log w2
                    | None => w2
                    end).
Proof.
  intros Hform.
  exists {| su_MessageSid := wh_MessageSid wh;
            su_Status := if String.eqb (wh_ErrorCode wh) ""
                         then mapTwilioStatus lower (wh_SmsStatus wh)
                         else MessageStatusFailed;
            su_ErrorCode := if String.eqb (wh_ErrorCode wh) "" then None
                            else Some (wh_ErrorCode wh);
            su_ErrorMessage := if String.eqb (wh_ErrorCode wh) "" then None
                               else Some (wh_ErrorMessage wh);
            su_Timestamp := clock (ticks w) |}.
  exists (add_log {| log_level := InfoLevel;
                     log_msg := "WhatsApp message status update processed" |}
            (add_tick
               (add_log {| log_level := InfoLevel;
                           log_msg := "Processing WhatsApp message status update" |}
                  (add_log {| log_level := InfoLevel;
                              log_msg := "Received WhatsApp status update webhook" |} w)))).
  split; [now repeat split|]. split; [now repeat split|].
  unfold HandleStatus, ProcessStatusUpdate. rewrite Hform.
  unfold bind, log, time_Now, ret.
  destruct (String.eqb (wh_ErrorCode wh) ""); simpl;
    destruct (UpdateMessageStatus _ _) as [[e|] w2]; reflexivity.
Qed.

(** X8: a status webhook for a stored message, with PostgreSQL reachable
    and an ErrorCode of at most 50 characters, is answered 200 and leaves in
    the row the status mapped from SmsStatus, or failed with the error code
    when ErrorCode is not empty, and the clock reading of the request, cut
    to microseconds, as update time; identity and content of the row and
    Redis are untouched. *)
Theorem HandleStatus_applies_update (clock : nat -> Time) (lower : string -> string)
    (req : Request) (wh : TwilioWebhookRequest) (w : World) (i : nat) (r : WhatsAppMessage) :
  req_form req = Some wh ->
  db_up w = true ->
  (char_length (wh_ErrorCode wh) <= 50)%nat ->
  nth_error (db w) i = Some r -> TwilioSID r = wh_MessageSid wh ->
  let run := HandleStatus clock lower req w in
  fst run = ok_response /\ cache (snd run) = cache w /\
  exists r', nth_error (db (snd run)) i = Some r' /\
    Status r' = (if String.eqb (wh_ErrorCode wh) ""
                 then mapTwilioStatus lower (wh_SmsStatus wh) else MessageStatusFailed) /\
    ErrorCode r' = (if String.eqb (wh_ErrorCode wh) "" then None
                    else Some (wh_ErrorCode wh)) /\
    UpdatedAt r' = timestamptz (clock (ticks w)) /\
    ID r' = ID r /\ TwilioSID r' = TwilioSID r /\ Content r' = Content r /\
    Timestamp r' = Timestamp r /\ CreatedAt r' = CreatedAt r.
Proof.
  intros Hform Hup Hcode Hr Hsid. cbv zeta.
  destruct (HandleStatus_run clock lower req wh w Hform)
    as [u [w1 [[Hu1 [Hu2 [Hu3 Hu4]]] [[Hd [Hc Hdu]] Hrun]]]].
  rewrite Hrun.
  destruct (pg_update_fits u) as [a Ha].
  { intros code E. rewrite Hu4 in E.
    destruct (String.eqb (wh_ErrorCode wh) ""); [discriminate|].
    injection E as <-. exact Hcode. }
  destruct (pg_update_some u a Ha) as [Ea [Est [Eec [_ Ets]]]].
  pose proof (UpdateMessageStatus_db u w1) as Hdb.
  destruct (UpdateMessageStatus_frame u w1) as [Hcache _].
  destruct (UpdateMessageStatus u w1) as [err w2]. simpl in Hdb, Hcache.
  rewrite Hdu, Hup, Ha, Hd in Hdb.
  assert (nth_error (db w2) i = Some (set_status a r)) as Hrow.
  { rewrite Hdb, update_rows_nth, Hr. simpl.
    rewrite Ea, <- Hu1 in *. apply String.eqb_eq in Hsid. now rewrite Hsid. }
  split; [reflexivity|].
  split; [destruct err; simpl; congruence|].
  exists (set_status a r).
  split; [destruct err; exact Hrow|].
  simpl. rewrite Est, Eec, Ets, Hu2, Hu3, Hu4. now repeat split.
Qed.

Lemma HandleStatus_applies_update_witness :
  let w := Sample.world_with [Sample.sm1_row MessageStatusSent] true in
  let run := HandleStatus Sample.clock Sample.map_unicode_lower
               (Sample.post "" (Sample.form "SM1" "" "" "" "" "delivered" "30008")) w in
  fst run = ok_response /\
  exists r', nth_error (db (snd run)) 0 = Some r' /\
             Status r' = MessageStatusFailed /\ ErrorCode r' = Some "30008" /\
             UpdatedAt r' = 1700000000000000000.
Proof.
  cbv zeta.
  destruct (HandleStatus_applies_update Sample.clock Sample.map_unicode_lower
              (Sample.post "" (Sample.form "SM1" "" "" "" "" "delivered" "30008"))
              (Sample.form "SM1" "" "" "" "" "delivered" "30008")
              (Sample.world_with [Sample.sm1_row MessageStatusSent] true)
              0 (Sample.sm1_row MessageStatusSent) eq_refl eq_refl)
    as [H1 [_ [r' [H2 [H3 [H4 [H5 _]]]]]]].
  - simpl. lia.
  - reflexivity.
  - reflexivity.
  - split; [exact H1|]. exists r'. split; [exact H2|]. split; [exact H3|].
    split; [exact H4|exact H5].
Defined.

(** With an ErrorCode of 51 characters the UPDATE is refused: the webhook is
    answered 200 all the same, the row keeps its status and the failure is
    written to the log. *)
Example HandleStatus_long_error_code :
  let w := Sample.world_with [Sample.sm1_row MessageStatusSent] true in
  let run := HandleStatus Sample.clock Sample.map_unicode_lower
               (Sample.post "" (Sample.form "SM1" "" "" "" "" "failed" (repeat_byte "9" 51)))
               w in
  fst run = ok_response /\ db (snd run) = db w /\ In update_failed_log (logs (snd run)).
Proof.
  cbv zeta. split; [reflexivity|]. split; [reflexivity|].
  vm_compute. tauto.
Qed.

(** ** The signature gate in front of the handlers *)

(** The global logger around a route: two readings of the clock and one
    line of the access log, whatever the route does. *)
Lemma Logger_run {A} (clock : nat -> Time) (next : M A) (w : World) :
  Logger clock next w =
  let '(r, w1) := next (add_tick w) in (r, add_log access_log (add_tick w1)).
Proof.
  unfold Logger, bind, time_Now, log, ret, access_log. simpl.
  destruct (next (add_tick w)) as [r w1]. reflexivity.
Qed.

(** X9: with a secret configured, a webhook without the signature header is
    answered 401 on both routes and the handler does not run: nothing is
    parsed, stored or started, and no identifier is drawn.  What the request
    leaves behind is the work of the global logger: two readings of the
    clock and the line "HTTP Request". *)
Theorem missing_signature_stops_request (clock : nat -> Time) (uuid_New : nat -> UUID)
    (time_Parse : string -> option Time) (lower : string -> string)
    (secret : string) (req : Request) (w : World) :
  secret <> "" -> req_signature req = "" ->
  let after := add_log access_log (add_tick (add_tick w)) in
  post_messages clock uuid_New time_Parse secret req w = (unauthorized_response, after) /\
  post_status clock lower secret req w = (unauthorized_response, after) /\
  db after = db w /\ cache after = cache w /\ spawned after = spawned w /\
  uuids after = uuids w /\ logs after = (logs w ++ [access_log])%list.
Proof.
  intros Hs Hsig. cbv zeta. unfold post_messages, post_status.
  rewrite !Logger_run. unfold guarded.
  rewrite (signature_checked_for_presence secret req Hs), Hsig. now repeat split.
Qed.

Lemma missing_signature_stops_request_witness :
  let w := Sample.world_with [Sample.sm1_row MessageStatusSent] true in
  fst (post_status Sample.clock Sample.map_unicode_lower "s3cret"
         (Sample.post "" (Sample.sm1_status "read")) w) = unauthorized_response /\
  map log_msg (logs (snd (post_status Sample.clock Sample.map_unicode_lower "s3cret"
                            (Sample.post "" (Sample.sm1_status "read")) w)))
    = ["HTTP Request"].
Proof.
  cbv zeta.
  destruct (missing_signature_stops_request Sample.clock Sample.uuid_New
              Sample.time_Parse_RFC3339 Sample.map_unicode_lower "s3cret"
              (Sample.post "" (Sample.sm1_status "read"))
              (Sample.world_with [Sample.sm1_row MessageStatusSent] true))
    as [_ [H _]].
  - discriminate.
  - reflexivity.
  - rewrite H. split; reflexivity.
Defined.

Lemma hex_digit_lower (n : nat) : (n < 16)%nat -> is_lower_hex (hex_digit n) = true.
Proof.
  intros H.
  do 16 (destruct n as [|n]; [reflexivity|]).
  lia.
Qed.

Lemma hex_EncodeToString_lower (bytes : string) :
  all_bytes is_lower_hex (hex_EncodeToString bytes) = true.
Proof.
  induction bytes as [|c rest IH]; [reflexivity|].
  cbn [hex_EncodeToString all_bytes].
  rewrite IH, !hex_digit_lower; [reflexivity| |].
  - apply Nat.mod_upper_bound. discriminate.
  - apply Nat.Div0.div_lt_upper_bound. pose proof (nat_ascii_bounded c). lia.
Qed.

(** X10: [verifySignature] accepts the lower-case hexadecimal form of the
    HMAC-SHA256 of URL followed by body, and whatever it accepts consists of
    lower-case hexadecimal digits, two for each byte of the digest: a
    signature with an upper-case digit or any other byte is refused. *)
Theorem verifySignature_lower_hex (hmac_sha256 : string -> string -> string)
    (secret body url : string) :
  verifySignature hmac_sha256 (hex_EncodeToString (hmac_sha256 secret (url ++ body)))
    secret body url = true /\
  forall signature,
    verifySignature hmac_sha256 signature secret body url = true ->
    all_bytes is_lower_hex signature = true /\
    String.length signature = (2 * String.length (hmac_sha256 secret (url ++ body)))%nat.
Proof.
  unfold verifySignature. split.
  - apply String.eqb_refl.
  - intros signature H. apply String.eqb_eq in H. subst signature.
    split; [apply hex_EncodeToString_lower|apply hex_EncodeToString_length].
Qed.

Lemma verifySignature_lower_hex_witness :
  let hmac := fun (_ _ : string) => "J" in
  verifySignature hmac "4a" "s3cret" "" "/" = true /\
  all_bytes is_lower_hex "4a" = true.
Proof.
  cbv zeta.
  destruct (verifySignature_lower_hex (fun _ _ => "J") "s3cret" "" "/") as [H1 H2].
  split; [exact H1|]. apply (H2 "4a"). reflexivity.
Defined.

Example verifySignature_upper_case_refused :
  verifySignature (fun _ _ => "J") "4A" "s3cret" "" "/" = false.
Proof. reflexivity. Qed.

(** ** Cleaning a destination address *)

Lemma ReplaceAll_byte (s : string) (c : ascii) :
  ReplaceAll s (String c EmptyString) "" = drop_byte c s.
Proof.
  unfold ReplaceAll. induction s as [|b s IH]; [reflexivity|].
  cbn [replace_from drop_byte HasPrefix String.length Nat.pred].
  rewrite andb_true_r. destruct (Ascii.eqb b c); [exact IH|now rewrite IH].
Qed.

Lemma drop_byte_gone (c : ascii) (s : string) :
  all_bytes (fun b => negb (Ascii.eqb b c)) (drop_byte c s) = true.
Proof.
  induction s as [|b s IH]; [reflexivity|]. simpl.
  destruct (Ascii.eqb b c) eqn:E; [exact IH|]. simpl. now rewrite E, IH.
Qed.

Lemma drop_byte_keeps (p : ascii -> bool) (c : ascii) (s : string) :
  all_bytes p s = true -> all_bytes p (drop_byte c s) = true.
Proof.
  induction s as [|b s IH]; [reflexivity|]. simpl. intros H.
  apply andb_true_iff in H. destruct H as [Hb Hs].
  destruct (Ascii.eqb b c); [now apply IH|]. simpl. now rewrite Hb, IH.
Qed.

Lemma all_bytes_and (p q : ascii -> bool) (s : string) :
  all_bytes p s = true -> all_bytes q s = true ->
  all_bytes (fun b => p b && q b) s = true.
Proof.
  induction s as [|b s IH]; [reflexivity|]. simpl. intros Hp Hq.
  apply andb_true_iff in Hp. apply andb_true_iff in Hq.
  destruct Hp as [-> Hp]. destruct Hq as [-> Hq]. now rewrite IH.
Qed.

Lemma all_bytes_ext (p q : ascii -> bool) (s : string) :
  (forall b, p b = q b) -> all_bytes p s = all_bytes q s.
Proof.
  intros H. induction s as [|b s IH]; [reflexivity|]. simpl. now rewrite H, IH.
Qed.

(** X11: for an address that does not start with "whatsapp:", the result of
    [formatWhatsAppNumber] is "whatsapp:" followed by a string that starts
    with "+" and has no space, hyphen or parenthesis left in it. *)
Theorem formatWhatsAppNumber_cleans (x : string) :
  HasPrefix x "whatsapp:" = false ->
  exists cleaned,
    formatWhatsAppNumber x = "whatsapp:" ++ cleaned /\
    HasPrefix cleaned "+" = true /\
    all_bytes (fun b => negb (is_separator b)) cleaned = true.
Proof.
  intros Hx. unfold formatWhatsAppNumber. rewrite Hx.
  rewrite !ReplaceAll_byte.
  set (c := drop_byte ")" (drop_byte "(" (drop_byte "-" (drop_byte " " x)))).
  assert (all_bytes (fun b => negb (is_separator b)) c = true) as Hclean.
  { rewrite (all_bytes_ext _ (fun b => (negb (Ascii.eqb b " ") && negb (Ascii.eqb b "-"))
                                       && (negb (Ascii.eqb b "(") && negb (Ascii.eqb b ")")))).
    - subst c. apply all_bytes_and; apply all_bytes_and.
      + do 3 apply drop_byte_keeps. apply drop_byte_gone.
      + do 2 apply drop_byte_keeps. apply drop_byte_gone.
      + apply drop_byte_keeps. apply drop_byte_gone.
      + apply drop_byte_gone.
    - intros b. unfold is_separator.
      destruct (Ascii.eqb b " "), (Ascii.eqb b "-"), (Ascii.eqb b "("), (Ascii.eqb b ")");
        reflexivity. }
  destruct (HasPrefix c "+") eqn:Hplus; simpl.
  - exists c. now repeat split.
  - exists ("+" ++ c). split; [reflexivity|]. split; [reflexivity|].
    change ("+" ++ c) with (String "+" c). simpl. exact Hclean.
Qed.

Lemma formatWhatsAppNumber_cleans_witness :
  exists cleaned,
    formatWhatsAppNumber "+55 (11) 9999-0000" = "whatsapp:" ++ cleaned /\
    HasPrefix cleaned "+" = true /\
    all_bytes (fun b => negb (is_separator b)) cleaned = true.
Proof.
  apply (formatWhatsAppNumber_cleans "+55 (11) 9999-0000"). reflexivity.
Defined.

Example formatWhatsAppNumber_samples :
  formatWhatsAppNumber "+55 (11) 9999-0000" = "whatsapp:+551199990000" /\
  formatWhatsAppNumber "11 9999" = "whatsapp:+119999" /\
  formatWhatsAppNumber "" = "whatsapp:+" /\
  formatWhatsAppNumber "call me" = "whatsapp:+callme" /\
  formatWhatsAppNumber "whatsapp:(11) 9999" = "whatsapp:(11) 9999".
Proof. repeat split; reflexivity. Qed.

(** ** The outbound send path *)

(** [SendMessage] on a body that binds: either the switch refuses the
    request, or one call goes to Twilio and the answer decides. *)
Lemma SendMessage_outcome (clock : nat -> Time) (uuid_New : nat -> UUID)
    (fromNumber : string) (twilio : CreateMessageParams -> result TwilioMessage)
    (request : SendMessageRequest) (c : Cloud) :
  let run := SendMessage clock uuid_New fromNumber twilio (Some request) c in
  if reaches_provider request then
    exists p,
      p_To p = formatWhatsAppNumber (sr_To request) /\ p_From p = fromNumber /\
      match twilio p with
      | Err _ =>
          exists w', run = ({| api_status := StatusInternalServerError;
                               api_body := ApiError "Failed to send message" |},
                            cloud_after c w' [p]) /\
                     same_store (world c) w' /\ uuids w' = uuids (world c)
      | Ok tm =>
          let response := {| rs_ID := uuid_New (uuids (world c));
                             rs_TwilioSID := tm_Sid tm;
                             rs_Status := MessageStatusSent;
                             rs_CreatedAt := clock (ticks (world c)) |} in
          exists w1 w',
            same_store (world c) w1 /\ ticks w1 = S (ticks (world c)) /\
            run = ({| api_status := StatusOK; api_body := ApiSent response |},
                   cloud_after c w' [p]) /\
            same_store (snd (store_outbound fromNumber request response w1)) w'
      end
  else
    exists msg w', run = (bad_request msg, cloud_after c w' []) /\ same_store (world c) w' /\
                   uuids w' = uuids (world c).
Proof.
  cbv zeta. unfold reaches_provider, SendMessage, finish_send,
    SendTextMessage, SendMediaMessage, SendTemplateMessage, cloud_after.
  destruct (String.eqb (sr_Type request) "text" || String.eqb (sr_Type request) "");
    [|destruct (is_media_type (sr_Type request));
      [destruct (sr_MediaURL request) as [url|]|destruct (sr_Template request) as [t|]]];
    run_cloud;
    try (eexists; eexists; rewrite app_nil_r; split; [reflexivity|now repeat split]);
    (match goal with |- context [twilio ?p] => exists p end);
    (split; [reflexivity|]); (split; [reflexivity|]); simpl;
    (match goal with |- context [twilio ?p] => destruct (twilio p) as [tm|e] end); simpl;
    try (eexists; split; [reflexivity|]; now repeat split);
    (match goal with
     | |- context [store_outbound ?a ?b ?c ?d] =>
         exists d; destruct (store_outbound a b c d) as [[err|] w2] eqn:Hs
     end); simpl;
    eexists; (split; [now repeat split|]); (split; [reflexivity|]);
    (split; [reflexivity|]); simpl; now repeat split.
Qed.

Lemma app_one_not_self {A} (l : list A) (x : A) : (l ++ [x])%list <> l.
Proof.
  intros E. apply (f_equal (@List.length A)) in E.
  rewrite length_app in E. simpl in E. lia.
Qed.

Lemma app_one_inj {A} (l : list A) (x y : A) : (l ++ [x])%list = (l ++ [y])%list -> x = y.
Proof.
  intros E. apply List.app_inv_head in E. now injection E.
Qed.

Lemma store_outbound_frame (fromNumber : string)
    (request : SendMessageRequest) (response : SendMessageResponse) (w : World) :
  let w' := snd (store_outbound fromNumber request response w) in
  db_up w' = db_up w /\ redis_up w' = redis_up w /\ spawned w' = spawned w /\
  uuids w' = uuids w /\ ticks w' = ticks w /\ cache w' = cache w.
Proof.
  cbv zeta. unfold store_outbound.
  destruct (MessageType_of_string (sr_Type request)) as [t|].
  - match goal with |- context [StoreMessage ?m w] =>
      destruct (StoreMessage_outcome m w) as [H1 [H2 [H3 [H4 [H5 [H6 _]]]]]]
    end.
    now repeat split.
  - run_monad. now repeat split.
Qed.

(** X12: [SendMessage] submits at most one call to Twilio, and a call it
    submits goes to the normalised destination, which starts with
    "whatsapp:", from the configured sender. *)
Theorem SendMessage_calls (clock : nat -> Time) (uuid_New : nat -> UUID)
    (fromNumber : string) (twilio : CreateMessageParams -> result TwilioMessage)
    (body : option SendMessageRequest) (c : Cloud) :
  let run := SendMessage clock uuid_New fromNumber twilio body c in
  exists calls,
    twilio_calls (snd run) = (twilio_calls c ++ calls)%list /\
    (List.length calls <= 1)%nat /\
    s3 (snd run) = s3 c /\
    forall p, In p calls ->
      exists request, body = Some request /\
        p_To p = formatWhatsAppNumber (sr_To request) /\
        HasPrefix (p_To p) "whatsapp:" = true /\ p_From p = fromNumber.
Proof.
  cbv zeta. destruct body as [request|].
  - pose proof (SendMessage_outcome clock uuid_New fromNumber twilio request c) as H.
    cbv zeta in H. destruct (reaches_provider request).
    + destruct H as [p [Hto [Hfrom H]]].
      assert (twilio_calls (snd (SendMessage clock uuid_New fromNumber twilio
                                   (Some request) c)) = (twilio_calls c ++ [p])%list /\
              s3 (snd (SendMessage clock uuid_New fromNumber twilio (Some request) c))
                = s3 c) as [Hc Hs].
      { destruct (twilio p) as [tm|e].
        - destruct H as [w1 [w' [_ [_ [-> _]]]]]. now split.
        - destruct H as [w' [-> _]]. now split. }
      exists [p]. split; [exact Hc|]. split; [simpl; lia|]. split; [exact Hs|].
      intros q [<-|[]]. exists request. split; [reflexivity|]. split; [exact Hto|].
      split; [|exact Hfrom]. rewrite Hto. apply formatWhatsAppNumber_prefix.
    + destruct H as [msg [w' [-> _]]]. exists []. simpl.
      split; [reflexivity|]. split; [lia|]. split; [reflexivity|]. intros p [].
  - exists []. unfold SendMessage. run_cloud. rewrite app_nil_r.
    split; [reflexivity|]. split; [lia|]. split; [reflexivity|]. intros p [].
Qed.

(** X13: [SendMessage] answers 200 exactly when it has submitted a call that
    Twilio accepted; the body then carries the provider id of Twilio's
    answer, a fresh internal id and the status sent, whatever status Twilio
    reported and whether or not the record could be stored. *)
Theorem SendMessage_ok_iff_accepted (clock : nat -> Time) (uuid_New : nat -> UUID)
    (fromNumber : string) (twilio : CreateMessageParams -> result TwilioMessage)
    (body : option SendMessageRequest) (c : Cloud) :
  let run := SendMessage clock uuid_New fromNumber twilio body c in
  (api_status (fst run) = StatusOK <->
   exists p tm, twilio_calls (snd run) = (twilio_calls c ++ [p])%list /\ twilio p = Ok tm) /\
  (forall p tm,
     twilio_calls (snd run) = (twilio_calls c ++ [p])%list -> twilio p = Ok tm ->
     api_body (fst run) = ApiSent (response_in clock uuid_New (world c) tm)).
Proof.
  cbv zeta. destruct body as [request|].
  - pose proof (SendMessage_outcome clock uuid_New fromNumber twilio request c) as H.
    cbv zeta in H. destruct (reaches_provider request).
    + destruct H as [p [_ [_ H]]]. destruct (twilio p) as [tm|e] eqn:Htw.
      * destruct H as [w1 [w' [_ [_ [-> _]]]]]. simpl. split.
        -- split; [intros _; now exists p, tm|reflexivity].
        -- intros q tm' Hq Htm. apply app_one_inj in Hq. subst q.
           rewrite Htw in Htm. injection Htm as <-. reflexivity.
      * destruct H as [w' [-> _]]. simpl. split.
        -- split; [discriminate|]. intros [q [tm [Hq Htm]]].
           apply app_one_inj in Hq. subst q. congruence.
        -- intros q tm Hq Htm. apply app_one_inj in Hq. subst q. congruence.
    + destruct H as [msg [w' [-> _]]]. simpl. rewrite app_nil_r. split.
      * split; [discriminate|]. intros [q [tm [Hq _]]].
        symmetry in Hq. now apply app_one_not_self in Hq.
      * intros q tm Hq. symmetry in Hq. now apply app_one_not_self in Hq.
  - unfold SendMessage. run_cloud. split.
    + split; [discriminate|]. intros [q [tm [Hq _]]].
      symmetry in Hq. now apply app_one_not_self in Hq.
    + intros q tm Hq. symmetry in Hq. now apply app_one_not_self in Hq.
Qed.

(** X14: a send that is not answered 200, refused by the handler or by
    Twilio, leaves no trace in the store: table and cache are as before and
    no internal id is consumed. *)
Theorem SendMessage_failure_leaves_no_record (clock : nat -> Time) (uuid_New : nat -> UUID)
    (fromNumber : string) (twilio : CreateMessageParams -> result TwilioMessage)
    (body : option SendMessageRequest) (c : Cloud) :
  let run := SendMessage clock uuid_New fromNumber twilio body c in
  api_status (fst run) <> StatusOK ->
  db (world (snd run)) = db (world c) /\ cache (world (snd run)) = cache (world c) /\
  uuids (world (snd run)) = uuids (world c) /\
  (api_status (fst run) = StatusBadRequest \/
   api_status (fst run) = StatusInternalServerError).
Proof.
  cbv zeta. destruct body as [request|].
  - pose proof (SendMessage_outcome clock uuid_New fromNumber twilio request c) as H.
    cbv zeta in H. destruct (reaches_provider request).
    + destruct H as [p [_ [_ H]]]. destruct (twilio p) as [tm|e].
      * destruct H as [w1 [w' [_ [_ [-> _]]]]]. simpl. intros C. now contradiction C.
      * destruct H as [w' [-> [[Hd [Hc _]] Hu]]]. simpl. intros _.
        split; [exact Hd|]. split; [exact Hc|]. split; [exact Hu|]. now right.
    + destruct H as [msg [w' [-> [[Hd [Hc _]] Hu]]]]. simpl. intros _.
      split; [exact Hd|]. split; [exact Hc|]. split; [exact Hu|]. now left.
  - unfold SendMessage. run_cloud. intros _. repeat split. now left.
Qed.

Lemma SendMessage_calls_witness :
  let run := SendMessage Sample.clock Sample.uuid_New SampleOut.fromNumber
               SampleOut.twilio_accepts (Some SampleOut.text_request)
               (SampleOut.cloud Sample.empty_world) in
  exists calls,
    twilio_calls (snd run) = calls /\ (List.length calls <= 1)%nat /\
    forall p, In p calls -> HasPrefix (p_To p) "whatsapp:" = true.
Proof.
  cbv zeta.
  destruct (SendMessage_calls Sample.clock Sample.uuid_New SampleOut.fromNumber
              SampleOut.twilio_accepts (Some SampleOut.text_request)
              (SampleOut.cloud Sample.empty_world)) as [calls [H1 [H2 [_ H3]]]].
  exists calls. split; [exact H1|]. split; [exact H2|].
  intros p Hp. destruct (H3 p Hp) as [r [_ [_ [H _]]]]. exact H.
Defined.

Lemma SendMessage_ok_iff_accepted_witness :
  let c := SampleOut.cloud (Sample.world_with [] false) in
  let run := SendMessage Sample.clock Sample.uuid_New SampleOut.fromNumber
               SampleOut.twilio_accepts (Some SampleOut.text_request) c in
  api_status (fst run) = StatusOK /\
  api_body (fst run) =
    ApiSent {| rs_ID := Sample.uuid_New 1; rs_TwilioSID := "SM900";
               rs_Status := MessageStatusSent; rs_CreatedAt := Sample.clock 5 |}.
Proof.
  cbv zeta.
  destruct (SendMessage_ok_iff_accepted Sample.clock Sample.uuid_New SampleOut.fromNumber
              SampleOut.twilio_accepts (Some SampleOut.text_request)
              (SampleOut.cloud (Sample.world_with [] false))) as [[_ H1] H2].
  split.
  - apply H1. eexists. eexists. split; reflexivity.
  - eapply (H2 _ {| tm_Sid := "SM900"; tm_Status := "queued" |}); reflexivity.
Defined.

Lemma SendMessage_failure_leaves_no_record_witness :
  let c := SampleOut.cloud (Sample.world_with [Sample.sm1_row MessageStatusSent] true) in
  let run := SendMessage Sample.clock Sample.uuid_New SampleOut.fromNumber
               SampleOut.twilio_refuses (Some SampleOut.text_request) c in
  db (world (snd run)) = db (world c) /\ cache (world (snd run)) = cache (world c) /\
  uuids (world (snd run)) = uuids (world c) /\
  (api_status (fst run) = StatusBadRequest \/
   api_status (fst run) = StatusInternalServerError).
Proof.
  cbv zeta.
  apply (SendMessage_failure_leaves_no_record Sample.clock Sample.uuid_New
           SampleOut.fromNumber SampleOut.twilio_refuses (Some SampleOut.text_request)
           (SampleOut.cloud (Sample.world_with [Sample.sm1_row MessageStatusSent] true))).
  vm_compute. discriminate.
Defined.

Lemma is_media_type_not_text (t : string) :
  is_media_type t = true -> String.eqb t "text" || String.eqb t "" = false.
Proof.
  unfold is_media_type. intros H.
  destruct (String.eqb_spec t "text") as [->|_]; [discriminate|].
  destruct (String.eqb_spec t "") as [->|_]; [discriminate|reflexivity].
Qed.

(** X15: a request of type image, video, audio or document without a media
    URL, and a request of a type outside text and those four without a
    template, are answered 400 without a call to Twilio and without a
    record. *)
Theorem SendMessage_refusals (clock : nat -> Time) (uuid_New : nat -> UUID)
    (fromNumber : string) (twilio : CreateMessageParams -> result TwilioMessage)
    (request : SendMessageRequest) (c : Cloud) :
  let run := SendMessage clock uuid_New fromNumber twilio (Some request) c in
  (is_media_type (sr_Type request) = true -> sr_MediaURL request = None ->
   fst run = bad_request "Media URL required for media messages" /\
   twilio_calls (snd run) = twilio_calls c /\ db (world (snd run)) = db (world c)) /\
  (String.eqb (sr_Type request) "text" || String.eqb (sr_Type request) "" = false ->
   is_media_type (sr_Type request) = false -> sr_Template request = None ->
   fst run = bad_request "Unsupported message type" /\
   twilio_calls (snd run) = twilio_calls c /\ db (world (snd run)) = db (world c)).
Proof.
  cbv zeta. split.
  - intros Hm Hu. unfold SendMessage.
    rewrite (is_media_type_not_text _ Hm), Hm, Hu. run_cloud. now repeat split.
  - intros Ht Hm Hu. unfold SendMessage. rewrite Ht, Hm, Hu. run_cloud. now repeat split.
Qed.

Lemma SendMessage_refusals_witness :
  let c := SampleOut.cloud Sample.empty_world in
  fst (SendMessage Sample.clock Sample.uuid_New SampleOut.fromNumber SampleOut.twilio_accepts
         (Some (SampleOut.request "+5511" "foto" "image" None None)) c)
    = bad_request "Media URL required for media messages" /\
  fst (SendMessage Sample.clock Sample.uuid_New SampleOut.fromNumber SampleOut.twilio_accepts
         (Some (SampleOut.request "+5511" "" "location" None None)) c)
    = bad_request "Unsupported message type".
Proof.
  cbv zeta.
  destruct (SendMessage_refusals Sample.clock Sample.uuid_New SampleOut.fromNumber
              SampleOut.twilio_accepts (SampleOut.request "+5511" "foto" "image" None None)
              (SampleOut.cloud Sample.empty_world)) as [H1 _].
  destruct (SendMessage_refusals Sample.clock Sample.uuid_New SampleOut.fromNumber
              SampleOut.twilio_accepts (SampleOut.request "+5511" "" "location" None None)
              (SampleOut.cloud Sample.empty_world)) as [_ H2].
  split.
  - apply H1; reflexivity.
  - apply H2; reflexivity.
Defined.

(** X16: when Twilio accepts the call and the record can be stored (a type
    of the column's CHECK list, PostgreSQL reachable, no row with the new id
    or the provider id, and room in the VARCHAR columns for the destination,
    the sender, the provider id and the media type), the table gains one
    row: outbound, status sent, the provider id of Twilio's answer, the
    sender of the configuration, the creation time of the response, cut to
    microseconds, as its three instants, and as recipient the destination
    as the request gave it, not the normalised address Twilio was called
    with. *)
Theorem SendMessage_records_outbound (clock : nat -> Time) (uuid_New : nat -> UUID)
    (fromNumber : string) (twilio : CreateMessageParams -> result TwilioMessage)
    (request : SendMessageRequest) (c : Cloud) (tm : TwilioMessage) (t : MessageType) :
  reaches_provider request = true ->
  (forall p, twilio p = Ok tm) ->
  MessageType_of_string (sr_Type request) = Some t ->
  db_up (world c) = true ->
  (forall r, In r (db (world c)) ->
     ID r <> uuid_New (uuids (world c)) /\ TwilioSID r <> tm_Sid tm) ->
  fits 255 (tm_Sid tm) -> fits 50 fromNumber -> fits 50 (sr_To request) ->
  fits_null 100 (sr_MediaType request) ->
  let run := SendMessage clock uuid_New fromNumber twilio (Some request) c in
  api_status (fst run) = StatusOK /\
  exists m,
    db (world (snd run)) = (db (world c) ++ [m])%list /\
    ID m = uuid_New (uuids (world c)) /\ TwilioSID m = tm_Sid tm /\
    Direction m = MessageDirectionOutbound /\ Status m = MessageStatusSent /\
    To m = sr_To request /\ From m = fromNumber /\ Type_ m = t /\
    Content m = sr_Content request /\ MediaURL m = sr_MediaURL request /\
    Timestamp m = timestamptz (clock (ticks (world c))) /\
    CreatedAt m = timestamptz (clock (ticks (world c))) /\
    UpdatedAt m = timestamptz (clock (ticks (world c))).
Proof.
  intros Hreach Htw Htype Hup Hfresh Fsid Ffrom Fto Fmt. cbv zeta.
  pose proof (SendMessage_outcome clock uuid_New fromNumber twilio request c) as H.
  cbv zeta in H. rewrite Hreach in H. destruct H as [p [_ [_ H]]].
  rewrite (Htw p) in H. destruct H as [w1 [w' [Hw1 [_ [-> Hw']]]]]. simpl.
  split; [reflexivity|].
  destruct Hw1 as [Hd1 [_ [Hu1 _]]]. destruct Hw' as [Hd' _].
  unfold store_outbound in Hd'. rewrite Htype in Hd'. simpl in Hd'.
  match type of Hd' with context [StoreMessage ?m w1] =>
    exists (stored m);
    destruct (StoreMessage_outcome m w1) as [_ [_ [_ [_ [_ [_ Hout]]]]]];
    assert (collides m (db w1) = false) as Hc;
    [|assert (pg_row m = Some (stored m)) as Hrow]
  end.
  { apply collides_false. rewrite Hd1. exact Hfresh. }
  { apply pg_row_some. split; [|reflexivity].
    unfold fits_columns. simpl. now repeat split. }
  rewrite Hu1, Hup, Hrow, Hc in Hout. destruct Hout as [_ Hrows].
  split; [unfold cloud_after; simpl; rewrite Hd', Hrows, Hd1; reflexivity|].
  now repeat split.
Qed.

Lemma SendMessage_records_outbound_witness :
  let c := SampleOut.cloud (Sample.world_with [Sample.sm1_row MessageStatusSent] true) in
  let run := SendMessage Sample.clock Sample.uuid_New SampleOut.fromNumber
               SampleOut.twilio_accepts (Some SampleOut.text_request) c in
  api_status (fst run) = StatusOK /\
  exists m, db (world (snd run)) = [Sample.sm1_row MessageStatusSent; m] /\
            To m = "+55 (11) 9999-0000" /\ Status m = MessageStatusSent /\
            CreatedAt m = 1700000000000000000.
Proof.
  cbv zeta.
  destruct (SendMessage_records_outbound Sample.clock Sample.uuid_New SampleOut.fromNumber
              SampleOut.twilio_accepts SampleOut.text_request
              (SampleOut.cloud (Sample.world_with [Sample.sm1_row MessageStatusSent] true))
              {| tm_Sid := "SM900"; tm_Status := "queued" |} MessageTypeText
              eq_refl (fun _ => eq_refl) eq_refl eq_refl) as [H1 [m H2]].
  - intros r [<-|[]]. split; vm_compute; discriminate.
  - unfold fits. simpl. lia.
  - unfold fits. simpl. lia.
  - unfold fits. simpl. lia.
  - exact I.
  - split; [exact H1|]. exists m.
    destruct H2 as [H2 [_ [_ [_ [H3 [H4 [_ [_ [_ [_ [_ [H5 _]]]]]]]]]]]].
    split; [exact H2|]. split; [exact H4|]. split; [exact H3|exact H5].
Defined.

(** A destination of 51 characters is sent to, and answered 200, but its
    record is more than [to_number] takes: no row is added. *)
Example SendMessage_long_destination :
  let c := SampleOut.cloud Sample.empty_world in
  let run := SendMessage Sample.clock Sample.uuid_New SampleOut.fromNumber
               SampleOut.twilio_accepts
               (Some (SampleOut.request (repeat_byte "5" 51) "oi" "text" None None)) c in
  api_status (fst run) = StatusOK /\ List.length (twilio_calls (snd run)) = 1%nat /\
  db (world (snd run)) = [].
Proof. cbv zeta. repeat split. Qed.

(** X17: a request without a type is sent as a text message and answered
    200, but its record, whose [message_type] would be the empty string, is
    refused by the CHECK constraint of the column: table and cache stay as
    they are. *)
Theorem SendMessage_untyped_not_recorded (clock : nat -> Time) (uuid_New : nat -> UUID)
    (fromNumber : string) (twilio : CreateMessageParams -> result TwilioMessage)
    (request : SendMessageRequest) (c : Cloud) (tm : TwilioMessage) :
  sr_Type request = "" ->
  (forall p, twilio p = Ok tm) ->
  let run := SendMessage clock uuid_New fromNumber twilio (Some request) c in
  api_status (fst run) = StatusOK /\
  (exists p, twilio_calls (snd run) = (twilio_calls c ++ [p])%list /\
             p_Body p = Some (sr_Content request) /\ p_MediaUrl p = None /\
             p_ContentSid p = None) /\
  db (world (snd run)) = db (world c) /\ cache (world (snd run)) = cache (world c).
Proof.
  intros Htype Htw. cbv zeta.
  unfold SendMessage, SendTextMessage, finish_send, store_outbound.
  rewrite Htype. run_cloud. rewrite Htw. simpl.
  split; [reflexivity|]. split; [|now split].
  eexists. split; [reflexivity|]. now repeat split.
Qed.

Lemma SendMessage_untyped_not_recorded_witness :
  let c := SampleOut.cloud Sample.empty_world in
  let run := SendMessage Sample.clock Sample.uuid_New SampleOut.fromNumber
               SampleOut.twilio_accepts
               (Some (SampleOut.request "+5511999" "oi" "" None None)) c in
  api_status (fst run) = StatusOK /\ db (world (snd run)) = [].
Proof.
  cbv zeta.
  destruct (SendMessage_untyped_not_recorded Sample.clock Sample.uuid_New
              SampleOut.fromNumber SampleOut.twilio_accepts
              (SampleOut.request "+5511999" "oi" "" None None)
              (SampleOut.cloud Sample.empty_world)
              {| tm_Sid := "SM900"; tm_Status := "queued" |}
              eq_refl (fun _ => eq_refl)) as [H1 [_ [H2 _]]].
  split; [exact H1|exact H2].
Defined.

Example SendMessage_text_stored :
  let run := SendMessage Sample.clock Sample.uuid_New SampleOut.fromNumber
               SampleOut.twilio_accepts (Some SampleOut.text_request)
               (SampleOut.cloud Sample.empty_world) in
  map p_To (twilio_calls (snd run)) = ["whatsapp:+551199990000"] /\
  map (fun r => (TwilioSID r, To r, Status r)) (db (world (snd run)))
    = [("SM900", "+55 (11) 9999-0000", MessageStatusSent)].
Proof. cbv zeta. split; reflexivity. Qed.

(** ** Invariants of the store over any sequence of requests *)

Lemma HandleGetMessage_frame (clock : nat -> Time) (uuid_Parse : string -> option UUID)
    (messageID : string) (w : World) :
  db (snd (HandleGetMessage clock uuid_Parse messageID w)) = db w /\
  cache (snd (HandleGetMessage clock uuid_Parse messageID w)) = cache w.
Proof.
  unfold HandleGetMessage, bind, log.
  pose proof (GetMessage_outcome clock uuid_Parse messageID
                (add_log {| log_level := InfoLevel; log_msg := "Retrieving message" |} w))
    as H.
  cbv zeta in H. destruct H as [Hd [Hc _]].
  destruct (GetMessage clock uuid_Parse messageID _) as [[m|e] w']; simpl in *; now split.
Qed.

Lemma StoreMessage_table_step (m : WhatsAppMessage) (w : World) :
  table_step (db w) (db (snd (StoreMessage m w))) /\
  cache (snd (StoreMessage m w)) = cache w.
Proof.
  destruct (StoreMessage_outcome m w) as [_ [_ [_ [_ [_ [Hc H]]]]]].
  split; [|exact Hc].
  destruct (db_up w); [|destruct H as [_ ->]; apply step_same].
  destruct (pg_row m) as [row|] eqn:Hrow; [|destruct H as [_ ->]; apply step_same].
  apply pg_row_some in Hrow. destruct Hrow as [_ ->].
  destruct (collides m (db w)) eqn:Hcol; destruct H as [_ ->]; [apply step_same|].
  apply step_insert. now rewrite collides_stored.
Qed.

Lemma HandleMessage_table_step (clock : nat -> Time) (uuid_New : nat -> UUID)
    (time_Parse : string -> option Time) (req : Request) (w : World) :
  table_step (db w) (db (snd (HandleMessage clock uuid_New time_Parse req w))) /\
  cache (snd (HandleMessage clock uuid_New time_Parse req w)) = cache w.
Proof.
  destruct (req_form req) as [wh|] eqn:Hform.
  - destruct (HandleMessage_outcome clock uuid_New time_Parse req wh w Hform)
      as [m [w1 [_ [[Hd [Hc _]] H]]]].
    cbv zeta in H. destruct H as [_ [-> [-> _]]]. rewrite <- Hd, <- Hc.
    apply StoreMessage_table_step.
  - unfold HandleMessage. rewrite Hform. split; [apply step_same|reflexivity].
Qed.

Lemma HandleStatus_table_step (clock : nat -> Time) (lower : string -> string)
    (req : Request) (w : World) :
  table_step (db w) (db (snd (HandleStatus clock lower req w))) /\
  cache (snd (HandleStatus clock lower req w)) = cache w.
Proof.
  destruct (req_form req) as [wh|] eqn:Hform.
  - destruct (HandleStatus_run clock lower req wh w Hform) as [u [w1 [_ [[Hd [Hc _]] ->]]]].
    pose proof (UpdateMessageStatus_db u w1) as H.
    destruct (UpdateMessageStatus_frame u w1) as [Hc1 _].
    destruct (UpdateMessageStatus u w1) as [[e|] w2]; simpl in *;
      (split; [|congruence]); rewrite H, Hd;
      destruct (db_up w1); try apply step_same;
      destruct (pg_update u); try apply step_same; apply step_update.
  - unfold HandleStatus. rewrite Hform. split; [apply step_same|reflexivity].
Qed.

Lemma store_outbound_table_step (fromNumber : string) (request : SendMessageRequest)
    (response : SendMessageResponse) (w : World) :
  table_step (db w) (db (snd (store_outbound fromNumber request response w))).
Proof.
  unfold store_outbound.
  destruct (MessageType_of_string (sr_Type request));
    [apply StoreMessage_table_step|apply step_same].
Qed.

Lemma SendMessage_table_step (clock : nat -> Time) (uuid_New : nat -> UUID)
    (fromNumber : string) (twilio : CreateMessageParams -> result TwilioMessage)
    (body : option SendMessageRequest) (c : Cloud) :
  table_step (db (world c))
    (db (world (snd (SendMessage clock uuid_New fromNumber twilio body c)))) /\
  cache (world (snd (SendMessage clock uuid_New fromNumber twilio body c)))
    = cache (world c).
Proof.
  destruct body as [request|]; [|split; [apply step_same|reflexivity]].
  pose proof (SendMessage_outcome clock uuid_New fromNumber twilio request c) as H.
  cbv zeta in H. destruct (reaches_provider request).
  - destruct H as [p [_ [_ H]]]. destruct (twilio p) as [tm|e].
    + destruct H as [w1 [w' [[Hd1 [Hc1 _]] [_ [-> [Hd' [Hc' _]]]]]]]. simpl.
      destruct (store_outbound_frame fromNumber request
                  {| rs_ID := uuid_New (uuids (world c)); rs_TwilioSID := tm_Sid tm;
                     rs_Status := MessageStatusSent;
                     rs_CreatedAt := clock (ticks (world c)) |} w1)
        as [_ [_ [_ [_ [_ Hcs]]]]].
      split; [|congruence].
      rewrite Hd', <- Hd1. apply store_outbound_table_step.
    + destruct H as [w' [-> [[Hd [Hc _]] _]]]. simpl. rewrite Hd.
      split; [apply step_same|exact Hc].
  - destruct H as [msg [w' [-> [[Hd [Hc _]] _]]]]. simpl. rewrite Hd.
    split; [apply step_same|exact Hc].
Qed.

(** The global logger around a handler that reaches beyond the world. *)
Lemma LoggerC_run {A} (clock : nat -> Time) (next : C A) (c : Cloud) :
  LoggerC clock next c =
  let '(r, c1) := next (with_world c (add_tick (world c))) in
  (r, with_world c1 (add_log access_log (add_tick (world c1)))).
Proof.
  unfold LoggerC, bindC, lift, retC, time_Now, log, with_world, access_log. simpl.
  destruct (next _) as [r c1]. reflexivity.
Qed.

Lemma serve_one_table_step (clock : nat -> Time) (uuid_New : nat -> UUID)
    (uuid_Parse : string -> option UUID) (time_Parse : string -> option Time)
    (lower : string -> string) (fromNumber : string)
    (twilio : CreateMessageParams -> result TwilioMessage) (secret : string)
    (c : Cloud) (e : Event) :
  let c' := serve_one clock uuid_New uuid_Parse time_Parse lower fromNumber twilio
              secret c e in
  table_step (db (world c)) (db (world c')) /\ cache (world c') = cache (world c).
Proof.
  cbv zeta. destruct e as [req|req|messageID|body|d r]; simpl.
  - unfold post_messages. rewrite Logger_run. unfold guarded.
    destruct (WhatsAppSignatureVerification secret req).
    + pose proof (HandleMessage_table_step clock uuid_New time_Parse req
                    (add_tick (world c))) as H.
      destruct (HandleMessage clock uuid_New time_Parse req (add_tick (world c))).
      exact H.
    + split; [apply step_same|reflexivity].
  - unfold post_status. rewrite Logger_run. unfold guarded.
    destruct (WhatsAppSignatureVerification secret req).
    + pose proof (HandleStatus_table_step clock lower req (add_tick (world c))) as H.
      destruct (HandleStatus clock lower req (add_tick (world c))).
      exact H.
    + split; [apply step_same|reflexivity].
  - unfold get_message. rewrite Logger_run.
    pose proof (HandleGetMessage_frame clock uuid_Parse messageID (add_tick (world c))) as H.
    destruct (HandleGetMessage clock uuid_Parse messageID (add_tick (world c))).
    simpl in *. destruct H as [-> ->]. split; [apply step_same|reflexivity].
  - unfold post_send. rewrite LoggerC_run.
    pose proof (SendMessage_table_step clock uuid_New fromNumber twilio body
                  (with_world c (add_tick (world c)))) as H.
    destruct (SendMessage clock uuid_New fromNumber twilio body _).
    exact H.
  - split; [apply step_same|reflexivity].
Qed.

Lemma NoDup_map_snoc {A} (f : A -> string) (l : list A) (x : A) :
  List.NoDup (map f l) -> (forall y, In y l -> f y <> f x) ->
  List.NoDup (map f (l ++ [x])).
Proof.
  induction l as [|a l IH]; intros Hnd Hfresh; simpl.
  - constructor; [intros []|constructor].
  - inversion Hnd as [|? ? Hnotin Hnd']; subst. constructor.
    + rewrite map_app, in_app_iff. intros [Hin|[Heq|[]]]; [now apply Hnotin|].
      apply (Hfresh a); [now left|now symmetry].
    + apply IH; [exact Hnd'|]. intros y Hy. apply Hfresh. now right.
Qed.

Lemma update_rows_keys (u : MessageStatusUpdate) (rows : list WhatsAppMessage) :
  map ID (update_rows u rows) = map ID rows /\
  map TwilioSID (update_rows u rows) = map TwilioSID rows.
Proof.
  unfold update_rows. rewrite !map_map.
  split; apply map_ext; intros r;
    destruct (String.eqb (TwilioSID r) (su_MessageSid u)); reflexivity.
Qed.

Lemma table_step_unique (rows rows' : list WhatsAppMessage) :
  table_step rows rows' -> table_unique rows -> table_unique rows'.
Proof.
  intros Hstep [Hid Hsid]. destruct Hstep as [|m Hc|u].
  - now split.
  - pose proof (proj1 (collides_false m rows) Hc) as Hfresh.
    split; apply NoDup_map_snoc; try assumption; intros y Hy; now apply Hfresh.
  - unfold table_unique. destruct (update_rows_keys u rows) as [-> ->]. now split.
Qed.

Lemma same_identity_refl (r : WhatsAppMessage) : same_identity r r.
Proof. now repeat split. Qed.

Lemma same_identity_trans (a b c : WhatsAppMessage) :
  same_identity a b -> same_identity b c -> same_identity a c.
Proof. unfold same_identity. intuition congruence. Qed.

Lemma table_step_keeps_rows (rows rows' : list WhatsAppMessage) (i : nat)
    (r : WhatsAppMessage) :
  table_step rows rows' -> nth_error rows i = Some r ->
  exists r', nth_error rows' i = Some r' /\ same_identity r r'.
Proof.
  intros Hstep Hr. destruct Hstep as [|m Hc|u].
  - exists r. split; [exact Hr|apply same_identity_refl].
  - exists r. split; [|apply same_identity_refl].
    rewrite nth_error_app1; [exact Hr|]. apply nth_error_Some. congruence.
  - rewrite update_rows_nth, Hr. simpl.
    destruct (String.eqb (TwilioSID r) (su_MessageSid u)); eexists; (split; [reflexivity|]);
      now repeat split.
Qed.

(** X18: whatever requests are served in whatever order, and whatever
    outages occur in between, a table whose internal ids and provider ids
    are unique keeps them unique. *)
Theorem serve_keeps_table_unique (clock : nat -> Time) (uuid_New : nat -> UUID)
    (uuid_Parse : string -> option UUID) (time_Parse : string -> option Time)
    (lower : string -> string) (fromNumber : string)
    (twilio : CreateMessageParams -> result TwilioMessage) (secret : string)
    (events : list Event) (c : Cloud) :
  table_unique (db (world c)) ->
  table_unique (db (world (serve clock uuid_New uuid_Parse time_Parse lower fromNumber
                             twilio secret events c))).
Proof.
  unfold serve. revert c. induction events as [|e events IH]; intros c H; [exact H|].
  simpl. apply IH.
  eapply table_step_unique; [apply serve_one_table_step|exact H].
Qed.

(** X6: over any sequence of requests and outages the adapter writes
    nothing to Redis: what Redis holds at the end is what it held at the
    start.  Each [redis.Set] of a message fails before it is sent, so that
    no lookup ever finds an entry of the adapter's own. *)
Theorem serve_never_writes_redis (clock : nat -> Time) (uuid_New : nat -> UUID)
    (uuid_Parse : string -> option UUID) (time_Parse : string -> option Time)
    (lower : string -> string) (fromNumber : string)
    (twilio : CreateMessageParams -> result TwilioMessage) (secret : string)
    (events : list Event) (c : Cloud) :
  cache (world (serve clock uuid_New uuid_Parse time_Parse lower fromNumber
                  twilio secret events c)) = cache (world c).
Proof.
  unfold serve. revert c. induction events as [|e events IH]; intros c; [reflexivity|].
  simpl. rewrite IH.
  apply (serve_one_table_step clock uuid_New uuid_Parse time_Parse lower fromNumber
           twilio secret c e).
Qed.

(** X19: no request deletes a row or moves it, and none rewrites its
    internal id, provider id, parties, direction, type, content, media
    reference, event time or creation time: across any sequence of requests
    only status, error code, error message and update time of a stored row
    can change. *)
Theorem serve_never_deletes (clock : nat -> Time) (uuid_New : nat -> UUID)
    (uuid_Parse : string -> option UUID) (time_Parse : string -> option Time)
    (lower : string -> string) (fromNumber : string)
    (twilio : CreateMessageParams -> result TwilioMessage) (secret : string)
    (events : list Event) (c : Cloud) (i : nat) (r : WhatsAppMessage) :
  nth_error (db (world c)) i = Some r ->
  exists r',
    nth_error (db (world (serve clock uuid_New uuid_Parse time_Parse lower fromNumber
                            twilio secret events c))) i = Some r' /\
    same_identity r r'.
Proof.
  unfold serve. revert c r. induction events as [|e events IH]; intros c r H.
  - exists r. split; [exact H|apply same_identity_refl].
  - simpl.
    destruct (table_step_keeps_rows _ _ i r
                (proj1 (serve_one_table_step clock uuid_New uuid_Parse time_Parse lower
                          fromNumber twilio secret c e)) H) as [r1 [H1 S1]].
    destruct (IH _ r1 H1) as [r' [H' S']].
    exists r'. split; [exact H'|]. eapply same_identity_trans; eassumption.
Qed.

Lemma rows_matching_unique (sid : string) (rows : list WhatsAppMessage) :
  List.NoDup (map TwilioSID rows) -> (rows_matching sid rows <= 1)%nat.
Proof.
  unfold rows_matching. induction rows as [|r rows IH]; intros H; simpl; [lia|].
  inversion H as [|? ? Hnotin Hnd]; subst.
  destruct (String.eqb_spec (TwilioSID r) sid) as [E|E]; [|now apply IH].
  simpl. assert (List.filter (fun r0 => String.eqb (TwilioSID r0) sid) rows = []) as ->.
  { destruct (List.filter _ rows) as [|x l] eqn:F; [reflexivity|exfalso].
    assert (In x (List.filter (fun r0 => String.eqb (TwilioSID r0) sid) rows)) as Hx
      by (rewrite F; now left).
    apply filter_In in Hx. destruct Hx as [Hin Hx]. apply String.eqb_eq in Hx.
    apply Hnotin. rewrite E, <- Hx. now apply in_map. }
  simpl. lia.
Qed.

Lemma serve_keeps_table_unique_witness :
  table_unique (db (world (sample_serve sample_events (SampleOut.cloud Sample.empty_world)))).
Proof.
  apply (serve_keeps_table_unique Sample.clock Sample.uuid_New Sample.uuid_Parse
           Sample.time_Parse_RFC3339 Sample.map_unicode_lower SampleOut.fromNumber
           SampleOut.twilio_accepts "" sample_events (SampleOut.cloud Sample.empty_world)).
  split; constructor.
Defined.

Lemma serve_never_deletes_witness :
  let c := SampleOut.cloud (Sample.world_with [Sample.sm1_row MessageStatusSent] true) in
  exists r', nth_error (db (world (sample_serve sample_events c))) 0 = Some r' /\
             same_identity (Sample.sm1_row MessageStatusSent) r'.
Proof.
  cbv zeta.
  apply (serve_never_deletes Sample.clock Sample.uuid_New Sample.uuid_Parse
           Sample.time_Parse_RFC3339 Sample.map_unicode_lower SampleOut.fromNumber
           SampleOut.twilio_accepts "" sample_events
           (SampleOut.cloud (Sample.world_with [Sample.sm1_row MessageStatusSent] true))
           0 (Sample.sm1_row MessageStatusSent)).
  reflexivity.
Defined.

Example sample_events_table :
  map (fun r => (TwilioSID r, Direction r, Status r))
      (db (world (sample_serve sample_events (SampleOut.cloud Sample.empty_world))))
  = [("SM1", MessageDirectionInbound, MessageStatusRead);
     ("SM900", MessageDirectionOutbound, MessageStatusSent)].
Proof. vm_compute. reflexivity. Qed.

(** X20: on a table with unique provider ids the UPDATE of a status callback
    matches at most one row, for every provider id, known or not; every row
    of another provider id is left as it is, and two rows of the provider id
    of the update are one and the same row. *)
Theorem UpdateMessageStatus_touches_one_row (u : MessageStatusUpdate) (w : World) :
  table_unique (db w) ->
  (rows_matching (su_MessageSid u) (db w) <= 1)%nat /\
  (forall i r, nth_error (db w) i = Some r -> TwilioSID r <> su_MessageSid u ->
     nth_error (db (snd (UpdateMessageStatus u w))) i = Some r) /\
  (forall i j ri rj,
     nth_error (db w) i = Some ri -> nth_error (db w) j = Some rj ->
     TwilioSID ri = su_MessageSid u -> TwilioSID rj = su_MessageSid u -> i = j).
Proof.
  intros [_ Hsid].
  split; [now apply rows_matching_unique|]. split.
  - intros i r Hr Hne. rewrite UpdateMessageStatus_db.
    destruct (db_up w); [|exact Hr].
    destruct (pg_update u) as [a|] eqn:Ha; [|exact Hr].
    destruct (pg_update_some u a Ha) as [Ea _].
    rewrite update_rows_nth, Hr. simpl. rewrite Ea.
    apply String.eqb_neq in Hne. now rewrite Hne.
  - intros i j ri rj Hi Hj Ei Ej.
    apply (proj1 (List.NoDup_nth_error (map TwilioSID (db w))) Hsid).
    + rewrite length_map. apply nth_error_Some. congruence.
    + rewrite !nth_error_map, Hi, Hj. simpl. congruence.
Qed.

Lemma UpdateMessageStatus_touches_one_row_witness :
  let row sid := sample_message sid sid "+5511" "+1415" 100000 in
  let w := Sample.world_with [row "SM1"; row "SM2"; row "SM3"] true in
  let u := Sample.update "SM2" MessageStatusRead in
  (rows_matching "SM2" (db w) <= 1)%nat /\
  nth_error (db (snd (UpdateMessageStatus u w))) 0 = Some (row "SM1") /\
  nth_error (db (snd (UpdateMessageStatus u w))) 2 = Some (row "SM3") /\
  map Status (db (snd (UpdateMessageStatus u w)))
    = [MessageStatusDelivered; MessageStatusRead; MessageStatusDelivered].
Proof.
  cbv zeta.
  destruct (UpdateMessageStatus_touches_one_row (Sample.update "SM2" MessageStatusRead)
              (Sample.world_with [sample_message "SM1" "SM1" "+5511" "+1415" 100000;
                                  sample_message "SM2" "SM2" "+5511" "+1415" 100000;
                                  sample_message "SM3" "SM3" "+5511" "+1415" 100000] true))
    as [H1 [H2 _]].
  - split; repeat constructor; simpl; intuition discriminate.
  - split; [exact H1|].
    split; [apply H2; [reflexivity|discriminate]|].
    split; [apply H2; [reflexivity|discriminate]|reflexivity].
Defined.

(** ** The list queries *)

Lemma insert_desc_perm (m : WhatsAppMessage) (l : list WhatsAppMessage) :
  Permutation (insert_desc m l) (m :: l).
Proof.
  induction l as [|x l IH]; simpl; [apply Permutation_refl|].
  destruct (Timestamp x <=? Timestamp m); [apply Permutation_refl|].
  eapply Permutation_trans; [apply perm_skip; exact IH|apply perm_swap].
Qed.

Lemma insert_rank_perm (rank : WhatsAppMessage -> nat) (m : WhatsAppMessage)
    (l : list WhatsAppMessage) :
  Permutation (insert_rank rank m l) (m :: l).
Proof.
  induction l as [|x l IH]; simpl; [apply Permutation_refl|].
  destruct (rank m <=? rank x)%nat; [apply Permutation_refl|].
  eapply Permutation_trans; [apply perm_skip; exact IH|apply perm_swap].
Qed.

Lemma scan_order_perm (rank : WhatsAppMessage -> nat) (rows : list WhatsAppMessage) :
  Permutation (scan_order rank rows) rows.
Proof.
  unfold scan_order. induction rows as [|r rows IH]; simpl.
  - apply Permutation_refl.
  - eapply Permutation_trans; [apply insert_rank_perm|now apply perm_skip].
Qed.

Lemma order_by_timestamp_desc_perm (rank : WhatsAppMessage -> nat)
    (rows : list WhatsAppMessage) :
  Permutation (order_by_timestamp_desc rank rows) rows.
Proof.
  unfold order_by_timestamp_desc.
  apply Permutation_trans with (scan_order rank rows); [|apply scan_order_perm].
  induction (scan_order rank rows) as [|r l IH]; simpl.
  - apply Permutation_refl.
  - eapply Permutation_trans; [apply insert_desc_perm|now apply perm_skip].
Qed.

Lemma insert_desc_sorted (m : WhatsAppMessage) (l : list WhatsAppMessage) :
  newest_first l -> newest_first (insert_desc m l).
Proof.
  unfold newest_first. induction l as [|x l IH]; intros H; simpl.
  - constructor; constructor.
  - inversion H as [|? ? Hl Hx]; subst.
    destruct (Timestamp x <=? Timestamp m) eqn:E.
    + apply Z.leb_le in E. constructor; [exact H|].
      constructor; [exact E|].
      apply List.Forall_forall. intros y Hy. unfold not_newer.
      pose proof (proj1 (List.Forall_forall _ _) Hx y Hy) as Hxy. unfold not_newer in Hxy. lia.
    + apply Z.leb_gt in E. constructor; [now apply IH|].
      apply List.Forall_forall. intros y Hy.
      apply (Permutation_in _ (insert_desc_perm m l)) in Hy. destruct Hy as [<-|Hy].
      * unfold not_newer. lia.
      * exact (proj1 (List.Forall_forall _ _) Hx y Hy).
Qed.

Lemma order_by_timestamp_desc_sorted (rank : WhatsAppMessage -> nat)
    (rows : list WhatsAppMessage) :
  newest_first (order_by_timestamp_desc rank rows).
Proof.
  unfold order_by_timestamp_desc. induction (scan_order rank rows) as [|r l IH]; simpl.
  - constructor.
  - now apply insert_desc_sorted.
Qed.

Lemma newest_first_app (l1 l2 : list WhatsAppMessage) :
  newest_first (l1 ++ l2) ->
  newest_first l1 /\ newest_first l2 /\
  forall a b, In a l1 -> In b l2 -> Timestamp b <= Timestamp a.
Proof.
  unfold newest_first. induction l1 as [|x l1 IH]; simpl; intros H.
  - split; [constructor|]. split; [exact H|]. intros a b [].
  - inversion H as [|? ? Hl Hx]; subst. destruct (IH Hl) as [H1 [H2 H3]].
    split; [|split; [exact H2|]].
    + constructor; [exact H1|]. apply List.Forall_forall. intros y Hy.
      apply (proj1 (List.Forall_forall _ _) Hx). apply in_app_iff. now left.
    + intros a b [<-|Ha] Hb; [|now apply H3].
      apply (proj1 (List.Forall_forall _ _) Hx b). apply in_app_iff. now right.
Qed.

Lemma newest_first_firstn (n : nat) (l : list WhatsAppMessage) :
  newest_first l -> newest_first (firstn n l).
Proof.
  intros H. rewrite <- (firstn_skipn n l) in H. now apply newest_first_app in H.
Qed.

Lemma newest_first_skipn (n : nat) (l : list WhatsAppMessage) :
  newest_first l -> newest_first (skipn n l).
Proof.
  intros H. rewrite <- (firstn_skipn n l) in H. now apply newest_first_app in H.
Qed.

Lemma In_firstn {A} (n : nat) (l : list A) (x : A) : In x (firstn n l) -> In x l.
Proof.
  intros H. rewrite <- (firstn_skipn n l). apply in_app_iff. now left.
Qed.

Lemma In_skipn {A} (n : nat) (l : list A) (x : A) : In x (skipn n l) -> In x l.
Proof.
  intros H. rewrite <- (firstn_skipn n l). apply in_app_iff. now right.
Qed.

(** The result of a page query depends on the table, on the reachability of
    PostgreSQL and on the order of the plan only. *)
Lemma GetMessagesByUser_outcome (rank : WhatsAppMessage -> nat) (phoneNumber : string)
    (limit offset : Z) (w : World) :
  db (snd (GetMessagesByUser rank phoneNumber limit offset w)) = db w /\
  cache (snd (GetMessagesByUser rank phoneNumber limit offset w)) = cache w /\
  db_up (snd (GetMessagesByUser rank phoneNumber limit offset w)) = db_up w /\
  if db_up w && (0 <=? limit) && (0 <=? offset) then
    fst (GetMessagesByUser rank phoneNumber limit offset w) =
    Ok (firstn (Z.to_nat limit)
          (skipn (Z.to_nat offset)
             (order_by_timestamp_desc rank (List.filter (involves phoneNumber) (db w)))))
  else exists e, fst (GetMessagesByUser rank phoneNumber limit offset w) = Err e.
Proof.
  unfold GetMessagesByUser, db_select_page. run_monad.
  destruct (db_up w) eqn:Hup; simpl.
  - destruct (Z.ltb_spec limit 0), (Z.ltb_spec offset 0); simpl;
      destruct (Z.leb_spec 0 limit), (Z.leb_spec 0 offset); simpl; try lia;
      repeat split; try assumption; eexists; reflexivity.
  - repeat split; try assumption. eexists. reflexivity.
Qed.

(** X21: a page that [GetMessagesByUser] returns holds at most [limit]
    messages, newest first, each a row of the table with the phone number as
    sender or recipient; the query changes neither table nor cache, and it
    fails exactly when PostgreSQL is unreachable or [limit] or [offset] is
    negative.  This holds for every order in which PostgreSQL may return
    rows of equal event time. *)
Theorem GetMessagesByUser_page (rank : WhatsAppMessage -> nat) (phoneNumber : string)
    (limit offset : Z) (w : World) :
  let run := GetMessagesByUser rank phoneNumber limit offset w in
  db (snd run) = db w /\ cache (snd run) = cache w /\
  ((exists l, fst run = Ok l) <-> db_up w = true /\ 0 <= limit /\ 0 <= offset) /\
  forall l, fst run = Ok l ->
    (List.length l <= Z.to_nat limit)%nat /\ newest_first l /\
    forall m, In m l -> In m (db w) /\ (From m = phoneNumber \/ To m = phoneNumber).
Proof.
  cbv zeta.
  destruct (GetMessagesByUser_outcome rank phoneNumber limit offset w) as [Hd [Hc [_ H]]].
  split; [exact Hd|]. split; [exact Hc|].
  destruct (db_up w); destruct (Z.leb_spec 0 limit); destruct (Z.leb_spec 0 offset);
    simpl in H.
  2-8: destruct H as [e He]; rewrite He;
       (split; [split; [intros [l C]; discriminate|intros [? [? ?]]; try discriminate; lia]
               |intros l C; discriminate]).
  rewrite H. split; [split; [now intros _|intros _; eexists; reflexivity]|].
  intros l Hl. injection Hl as <-.
  split; [apply firstn_le_length|].
  split; [apply newest_first_firstn, newest_first_skipn, order_by_timestamp_desc_sorted|].
  intros m Hm. apply In_firstn, In_skipn in Hm.
  apply (Permutation_in _ (order_by_timestamp_desc_perm _ _)) in Hm.
  apply filter_In in Hm. destruct Hm as [Hin Hinv]. split; [exact Hin|].
  unfold involves in Hinv. apply orb_true_iff in Hinv.
  destruct Hinv as [E|E]; apply String.eqb_eq in E; [now left|now right].
Qed.

Lemma GetMessagesByUser_page_witness :
  let run := GetMessagesByUser late_first "+5511" 2 0 (Sample.world_with sample_table true) in
  exists l, fst run = Ok l /\
    (List.length l <= 2)%nat /\ newest_first l /\
    forall m, In m l -> In m sample_table /\ (From m = "+5511" \/ To m = "+5511").
Proof.
  cbv zeta.
  destruct (GetMessagesByUser_page late_first "+5511" 2 0
              (Sample.world_with sample_table true))
    as [_ [_ [[_ H1] H2]]].
  destruct H1 as [l Hl]; [repeat split; lia|].
  exists l. split; [exact Hl|]. exact (H2 l Hl).
Defined.

Example GetMessagesByUser_sample :
  let page limit offset :=
    match fst (GetMessagesByUser table_order "+5511" limit offset
                 (Sample.world_with sample_table true)) with
    | Ok l => Some (map TwilioSID l)
    | Err _ => None
    end in
  page 10 0 = Some ["SM4"; "SM3"; "SM1"] /\ page 2 0 = Some ["SM4"; "SM3"] /\
  page 2 2 = Some ["SM1"] /\ page 0 0 = Some [] /\ page 2 5 = Some [] /\
  page (-1) 0 = None /\ page 1 (-1) = None.
Proof. cbv zeta. repeat split; reflexivity. Qed.

Lemma firstn_add {A} (a b : nat) (l : list A) :
  firstn (a + b) l = (firstn a l ++ firstn b (skipn a l))%list.
Proof.
  revert l. induction a as [|a IH]; intros l; simpl; [reflexivity|].
  destruct l as [|x l]; simpl.
  - now rewrite firstn_nil.
  - now rewrite IH.
Qed.

Lemma distinct_instants_inj (l : list WhatsAppMessage) (x y : WhatsAppMessage) :
  distinct_instants l -> In x l -> In y l -> Timestamp x = Timestamp y -> x = y.
Proof.
  unfold distinct_instants. induction l as [|a l IH]; intros Hnd Hx Hy E; [destruct Hx|].
  simpl in Hnd. inversion Hnd as [|? ? Hnotin Hnd']; subst.
  destruct Hx as [<-|Hx], Hy as [<-|Hy].
  - reflexivity.
  - exfalso. apply Hnotin. rewrite E. now apply in_map.
  - exfalso. apply Hnotin. rewrite <- E. now apply in_map.
  - now apply IH.
Qed.

(** Rows of pairwise distinct event times have one order newest first. *)
Lemma newest_first_unique (l1 l2 : list WhatsAppMessage) :
  newest_first l1 -> newest_first l2 -> Permutation l1 l2 -> distinct_instants l1 ->
  l1 = l2.
Proof.
  revert l2. induction l1 as [|x l1 IH]; intros l2 H1 H2 Hp Hd.
  - apply Permutation_nil in Hp. now subst.
  - destruct l2 as [|y l2]; [apply Permutation_sym, Permutation_nil in Hp; discriminate|].
    assert (x = y) as ->.
    { assert (In y (x :: l1)) as Hy
        by (apply (Permutation_in _ (Permutation_sym Hp)); now left).
      assert (In x (y :: l2)) as Hx by (apply (Permutation_in _ Hp); now left).
      destruct Hx as [->|Hx]; [reflexivity|].
      destruct Hy as [->|Hy]; [reflexivity|].
      apply (distinct_instants_inj (x :: l1)); [exact Hd|now left|now right|].
      unfold newest_first in H1, H2.
      inversion H1 as [|? ? _ F1]; subst. inversion H2 as [|? ? _ F2]; subst.
      pose proof (proj1 (List.Forall_forall _ _) F1 y Hy) as A.
      pose proof (proj1 (List.Forall_forall _ _) F2 x Hx) as B.
      unfold not_newer in A, B. lia. }
    f_equal. apply IH.
    + unfold newest_first in *. now inversion H1.
    + unfold newest_first in *. now inversion H2.
    + now apply Permutation_cons_inv in Hp.
    + unfold distinct_instants in *. simpl in Hd. now inversion Hd.
Qed.

(** With pairwise distinct event times the plan has no say in the order. *)
Lemma order_by_timestamp_desc_any_plan (rank rank' : WhatsAppMessage -> nat)
    (rows : list WhatsAppMessage) :
  distinct_instants rows ->
  order_by_timestamp_desc rank rows = order_by_timestamp_desc rank' rows.
Proof.
  intros Hd. apply newest_first_unique.
  - apply order_by_timestamp_desc_sorted.
  - apply order_by_timestamp_desc_sorted.
  - eapply Permutation_trans; [apply order_by_timestamp_desc_perm|].
    apply Permutation_sym, order_by_timestamp_desc_perm.
  - unfold distinct_instants in *.
    eapply Permutation_NoDup; [|exact Hd].
    apply Permutation_map, Permutation_sym, order_by_timestamp_desc_perm.
Qed.

(** X22: when the messages of a phone number have pairwise distinct event
    times, pages compose, whatever plan PostgreSQL runs each query with: the
    page of [a] messages at offset [o] followed by the page of [b] messages
    at offset [o + a] is the page of [a + b] messages at offset [o]; no
    message is skipped or repeated between consecutive pages of an unchanged
    table.  (With two messages of the same event time the statement, which
    orders by the event time alone, gives no such guarantee.) *)
Theorem GetMessagesByUser_pages_compose (rank1 rank2 rank3 : WhatsAppMessage -> nat)
    (phoneNumber : string) (a b o : Z) (w : World) :
  db_up w = true -> 0 <= a -> 0 <= b -> 0 <= o ->
  distinct_instants (List.filter (involves phoneNumber) (db w)) ->
  exists l1 l2,
    fst (GetMessagesByUser rank1 phoneNumber a o w) = Ok l1 /\
    fst (GetMessagesByUser rank2 phoneNumber b (o + a)
           (snd (GetMessagesByUser rank1 phoneNumber a o w))) = Ok l2 /\
    fst (GetMessagesByUser rank3 phoneNumber (a + b) o w) = Ok (l1 ++ l2)%list.
Proof.
  intros Hup Ha Hb Ho Hd.
  destruct (GetMessagesByUser_outcome rank1 phoneNumber a o w) as [Hdb [_ [Hu H1]]].
  destruct (GetMessagesByUser_outcome rank2 phoneNumber b (o + a)
              (snd (GetMessagesByUser rank1 phoneNumber a o w))) as [_ [_ [_ H2]]].
  destruct (GetMessagesByUser_outcome rank3 phoneNumber (a + b) o w) as [_ [_ [_ H3]]].
  rewrite Hu, Hdb in H2. rewrite Hup in H1, H2, H3.
  replace (0 <=? a) with true in H1 by (symmetry; now apply Z.leb_le).
  replace (0 <=? o) with true in H1, H3 by (symmetry; now apply Z.leb_le).
  replace (0 <=? b) with true in H2 by (symmetry; now apply Z.leb_le).
  replace (0 <=? o + a) with true in H2 by (symmetry; apply Z.leb_le; lia).
  replace (0 <=? a + b) with true in H3 by (symmetry; apply Z.leb_le; lia).
  simpl in H1, H2, H3.
  rewrite (order_by_timestamp_desc_any_plan rank2 rank1 _ Hd) in H2.
  rewrite (order_by_timestamp_desc_any_plan rank3 rank1 _ Hd) in H3.
  eexists. eexists. split; [exact H1|]. split; [exact H2|].
  rewrite H3. f_equal.
  rewrite !Z2Nat.inj_add by lia. rewrite firstn_add, skipn_skipn.
  now rewrite (Nat.add_comm (Z.to_nat a) (Z.to_nat o)).
Qed.

Lemma GetMessagesByUser_pages_compose_witness :
  let w := Sample.world_with sample_table true in
  exists l1 l2,
    fst (GetMessagesByUser table_order "+5511" 1 1 w) = Ok l1 /\
    fst (GetMessagesByUser late_first "+5511" 5 2
           (snd (GetMessagesByUser table_order "+5511" 1 1 w))) = Ok l2 /\
    fst (GetMessagesByUser table_order "+5511" 6 1 w) = Ok (l1 ++ l2)%list.
Proof.
  cbv zeta.
  apply (GetMessagesByUser_pages_compose table_order late_first table_order "+5511" 1 5 1
           (Sample.world_with sample_table true));
    [reflexivity|lia|lia|lia|].
  unfold distinct_instants. simpl.
  repeat constructor; simpl; intuition discriminate.
Defined.

(** Two messages of one event time: the first page under one plan and the
    second page under another show the same message, and the other message
    appears on neither. *)
Example pages_with_equal_instants_repeat :
  let page rank limit offset :=
    match fst (GetMessagesByUser rank "+1415" limit offset
                 (Sample.world_with sample_table true)) with
    | Ok l => map TwilioSID l
    | Err _ => []
    end in
  page table_order 4 0 = ["SM2"; "SM4"; "SM3"; "SM1"] /\
  page late_first 4 0 = ["SM4"; "SM2"; "SM3"; "SM1"] /\
  page table_order 1 0 = ["SM2"] /\ page late_first 1 1 = ["SM2"].
Proof. cbv zeta. repeat split; reflexivity. Qed.

Lemma filter_all {A} (l : list A) : List.filter (fun _ => true) l = l.
Proof. induction l as [|x l IH]; simpl; [reflexivity|now rewrite IH]. Qed.

Lemma GetRecentMessages_outcome (rank : WhatsAppMessage -> nat) (limit : Z) (w : World) :
  db (snd (GetRecentMessages rank limit w)) = db w /\
  cache (snd (GetRecentMessages rank limit w)) = cache w /\
  if db_up w && (0 <=? limit) then
    fst (GetRecentMessages rank limit w) =
    Ok (firstn (Z.to_nat limit) (order_by_timestamp_desc rank (db w)))
  else exists e, fst (GetRecentMessages rank limit w) = Err e.
Proof.
  unfold GetRecentMessages, db_select_page. run_monad.
  destruct (db_up w) eqn:Hup; simpl.
  - destruct (Z.ltb_spec limit 0); simpl; destruct (Z.leb_spec 0 limit); simpl; try lia.
    + repeat split. eexists. reflexivity.
    + rewrite filter_all. now repeat split.
  - repeat split. eexists. reflexivity.
Qed.

(** X23: what [GetRecentMessages] returns are the most recent rows of the
    table, newest first: together with the rows left out they make up the
    table, no row left out is newer than a returned one, and their number is
    [limit] or that of the table if smaller.  This holds for every order in
    which PostgreSQL may return rows of equal event time. *)
Theorem GetRecentMessages_most_recent (rank : WhatsAppMessage -> nat) (limit : Z)
    (w : World) (l : list WhatsAppMessage) :
  fst (GetRecentMessages rank limit w) = Ok l ->
  newest_first l /\
  List.length l = Nat.min (Z.to_nat limit) (List.length (db w)) /\
  exists rest,
    Permutation (l ++ rest) (db w) /\
    forall a b, In a l -> In b rest -> Timestamp b <= Timestamp a.
Proof.
  intros Hl.
  destruct (GetRecentMessages_outcome rank limit w) as [_ [_ H]].
  destruct (db_up w && (0 <=? limit)).
  - rewrite H in Hl. injection Hl as <-.
    pose proof (order_by_timestamp_desc_sorted rank (db w)) as Hs.
    pose proof (order_by_timestamp_desc_perm rank (db w)) as Hp.
    split; [now apply newest_first_firstn|].
    split; [rewrite length_firstn; now rewrite (Permutation_length Hp)|].
    exists (skipn (Z.to_nat limit) (order_by_timestamp_desc rank (db w))).
    rewrite <- (firstn_skipn (Z.to_nat limit) (order_by_timestamp_desc rank (db w))) in Hs.
    split; [now rewrite firstn_skipn|]. now apply newest_first_app in Hs.
  - destruct H as [e He]. rewrite He in Hl. discriminate.
Qed.

Lemma GetRecentMessages_most_recent_witness :
  exists l, fst (GetRecentMessages late_first 2 (Sample.world_with sample_table true)) = Ok l /\
            newest_first l /\ List.length l = 2%nat.
Proof.
  eexists. split; [reflexivity|].
  destruct (GetRecentMessages_most_recent late_first 2
              (Sample.world_with sample_table true) _ eq_refl)
    as [H1 [H2 _]].
  split; [exact H1|exact H2].
Defined.

Example GetRecentMessages_sample :
  match fst (GetRecentMessages table_order 3 (Sample.world_with sample_table true)),
        fst (GetRecentMessages late_first 3 (Sample.world_with sample_table true)) with
  | Ok l, Ok l' => map TwilioSID l = ["SM2"; "SM4"; "SM3"] /\
                   map TwilioSID l' = ["SM4"; "SM2"; "SM3"]
  | _, _ => False
  end.
Proof. split; reflexivity. Qed.

(** ** Package strings and filepath, continued *)

Lemma append_assoc (a b c : string) : ((a ++ b) ++ c = a ++ (b ++ c))%string.
Proof.
  induction a as [|x a IH]; [reflexivity|].
  change (String x a ++ b)%string with (String x (a ++ b)).
  change (String x (a ++ b) ++ c)%string with (String x ((a ++ b) ++ c)).
  change (String x a ++ (b ++ c))%string with (String x (a ++ (b ++ c))).
  now rewrite IH.
Qed.

Lemma append_nil_r (a : string) : (a ++ "")%string = a.
Proof.
  induction a as [|x a IH]; [reflexivity|].
  change (String x a ++ "")%string with (String x (a ++ "")). now rewrite IH.
Qed.

Lemma split_from_step (c : ascii) (cur : string) (b : ascii) (s : string) :
  split_from (String c "") O cur (String b s) =
  if Ascii.eqb b c then cur :: split_from (String c "") O "" s
  else split_from (String c "") O (cur ++ String b "") s.
Proof.
  cbn [split_from HasPrefix String.length Nat.pred]. now rewrite andb_true_r.
Qed.

Lemma split_from_nonempty (sep : string) (skip : nat) (cur s : string) :
  split_from sep skip cur s <> [].
Proof.
  revert skip cur. induction s as [|b s IH]; intros skip cur; simpl; [discriminate|].
  destruct skip; [|apply IH]. destruct (HasPrefix (String b s) sep); [discriminate|apply IH].
Qed.

Lemma Join_cons (x : string) (l : list string) (sep : string) :
  l <> [] -> Join (x :: l) sep = (x ++ sep ++ Join l sep)%string.
Proof. destruct l; [contradiction|reflexivity]. Qed.

(** Joining what was split on a byte gives the string back. *)
Lemma Join_split_from (c : ascii) (cur s : string) :
  Join (split_from (String c "") O cur s) (String c "") = (cur ++ s)%string.
Proof.
  revert cur. induction s as [|b s IH]; intros cur.
  - simpl. now rewrite append_nil_r.
  - rewrite split_from_step. destruct (Ascii.eqb b c) eqn:E.
    + apply Ascii.eqb_eq in E. subst b.
      rewrite Join_cons by apply split_from_nonempty. rewrite IH. reflexivity.
    + rewrite IH, append_assoc. reflexivity.
Qed.

Lemma split_from_piece (c : ascii) (cur a rest : string) :
  some_byte (fun b => Ascii.eqb b c) a = false ->
  split_from (String c "") O cur (a ++ String c rest) =
  (cur ++ a)%string :: split_from (String c "") O "" rest.
Proof.
  revert cur. induction a as [|b a IH]; intros cur Ha.
  - change ("" ++ String c rest)%string with (String c rest).
    rewrite split_from_step, Ascii.eqb_refl, append_nil_r. reflexivity.
  - simpl in Ha. apply orb_false_iff in Ha. destruct Ha as [Hb Ha].
    change (String b a ++ String c rest)%string with (String b (a ++ String c rest)).
    rewrite split_from_step, Hb, IH by exact Ha.
    now rewrite append_assoc.
Qed.

Lemma split_from_length (c : ascii) (cur s : string) :
  List.length (split_from (String c "") O cur s) = S (count_byte c s).
Proof.
  revert cur. induction s as [|b s IH]; intros cur; [reflexivity|].
  rewrite split_from_step. cbn [count_byte].
  destruct (Ascii.eqb b c); simpl; now rewrite IH.
Qed.

Lemma Ext_no_slash (path : string) : no_slash (Ext path).
Proof.
  unfold no_slash. induction path as [|c rest IH]; [reflexivity|].
  cbn [Ext]. destruct (Ext rest) as [|e0 e] eqn:E; [|exact IH].
  destruct (Ascii.eqb c ".") eqn:Hc; simpl; [|reflexivity].
  destruct (some_byte is_slash rest) eqn:Hs; simpl; [reflexivity|].
  apply Ascii.eqb_eq in Hc. subst c. simpl. exact Hs.
Qed.

(** The extension is the end of the path, and it is empty or starts with
    a dot. *)
Lemma Ext_suffix (path : string) : exists stem, path = (stem ++ Ext path)%string.
Proof.
  induction path as [|c rest IH]; [now exists ""|].
  cbn [Ext]. destruct (Ext rest) as [|e0 e] eqn:E.
  - destruct (Ascii.eqb c "." && negb (some_byte is_slash rest)).
    + now exists "".
    + exists (String c rest). now rewrite append_nil_r.
  - destruct IH as [stem Hstem]. exists (String c stem).
    change (String c stem ++ String e0 e)%string with (String c (stem ++ String e0 e)).
    now rewrite <- Hstem.
Qed.

Lemma Ext_dot (path : string) : Ext path = "" \/ HasPrefix (Ext path) "." = true.
Proof.
  induction path as [|c rest IH]; [now left|].
  cbn [Ext]. destruct (Ext rest) as [|e0 e] eqn:E.
  - destruct (Ascii.eqb c ".") eqn:Hc; simpl; [|now left].
    destruct (some_byte is_slash rest); simpl; [now left|].
    right. now rewrite Hc.
  - destruct IH as [C|IH]; [discriminate|now right].
Qed.

Example Ext_samples :
  map Ext ["photo.jpg"; "a/b.tar.gz"; "a.b/c"; "noext"; ".bashrc"; "a."; "";
           "../../etc/passwd"; "x.d/"]
  = [".jpg"; ".gz"; ""; ""; ".bashrc"; "."; ""; ""; ""].
Proof. reflexivity. Qed.

Example Split_samples :
  Split "https://b.s3.r.amazonaws.com/k/x.jpg" "/"
    = ["https:"; ""; "b.s3.r.amazonaws.com"; "k"; "x.jpg"] /\
  Split "" "/" = [""] /\ Split "a/" "/" = ["a"; ""] /\ Split "abcab" "ab" = [""; "c"; ""] /\
  Join ["a"; "b"; "c"] "/" = "a/b/c" /\ Join [] "/" = "".
Proof. repeat split; reflexivity. Qed.

(** ** The media service *)

Lemma some_byte_app (p : ascii -> bool) (a b : string) :
  some_byte p (a ++ b) = some_byte p a || some_byte p b.
Proof.
  induction a as [|x a IH]; [reflexivity|].
  change (String x a ++ b)%string with (String x (a ++ b)). simpl.
  now rewrite IH, orb_assoc.
Qed.

(** The key [DeleteMedia] takes from a URL and what becomes of the bucket. *)
Lemma DeleteMedia_bucket (url : string) (c : Cloud) :
  twilio_calls (snd (DeleteMedia url c)) = twilio_calls c /\
  db (world (snd (DeleteMedia url c))) = db (world c) /\
  if (count_byte "/" url <? 3)%nat then
    fst (DeleteMedia url c) = Some "invalid media URL format" /\
    s3 (snd (DeleteMedia url c)) = s3 c
  else if s3_up c then
    fst (DeleteMedia url c) = None /\
    s3 (snd (DeleteMedia url c)) = delete (Join (skipn 3 (Split url "/")) "/") (s3 c)
  else
    (exists e, fst (DeleteMedia url c) = Some e) /\ s3 (snd (DeleteMedia url c)) = s3 c.
Proof.
  unfold DeleteMedia, Split. rewrite split_from_length.
  change (S (count_byte "/" url) <? 4)%nat with (count_byte "/" url <? 3)%nat.
  destruct (count_byte "/" url <? 3)%nat; unfold DeleteObject; run_cloud.
  - now repeat split.
  - destruct (s3_up c); simpl; repeat split. eexists. reflexivity.
Qed.

Lemma Split_three_pieces (a b c key : string) :
  no_slash a -> no_slash b -> no_slash c ->
  Split (a ++ "/" ++ b ++ "/" ++ c ++ "/" ++ key) "/" =
  a :: b :: c :: split_from "/" O "" key.
Proof.
  intros Ha Hb Hc. unfold Split.
  change ("/" ++ b ++ "/" ++ c ++ "/" ++ key)%string
    with (String "/" (b ++ "/" ++ c ++ "/" ++ key)).
  rewrite split_from_piece by exact Ha.
  change ("/" ++ c ++ "/" ++ key)%string with (String "/" (c ++ "/" ++ key)).
  rewrite split_from_piece by exact Hb.
  change ("/" ++ key)%string with (String "/" key).
  rewrite split_from_piece by exact Hc.
  reflexivity.
Qed.

Lemma count_three_pieces (a b c key : string) :
  (count_byte "/" (a ++ "/" ++ b ++ "/" ++ c ++ "/" ++ key) <? 3)%nat = false.
Proof.
  assert (forall x y, count_byte "/" (x ++ y) = count_byte "/" x + count_byte "/" y)%nat as Happ.
  { intros x y. induction x as [|h x IH]; [reflexivity|].
    change (String h x ++ y)%string with (String h (x ++ y)). simpl. rewrite IH. lia. }
  apply Nat.ltb_ge. rewrite !Happ. simpl. lia.
Qed.

Lemma DeleteMedia_pieces (a b c key : string) (cl : Cloud) :
  no_slash a -> no_slash b -> no_slash c ->
  s3_up cl = true ->
  fst (DeleteMedia (a ++ "/" ++ b ++ "/" ++ c ++ "/" ++ key) cl) = None /\
  s3 (snd (DeleteMedia (a ++ "/" ++ b ++ "/" ++ c ++ "/" ++ key) cl)) = delete key (s3 cl).
Proof.
  intros Ha Hb Hc Hup.
  destruct (DeleteMedia_bucket (a ++ "/" ++ b ++ "/" ++ c ++ "/" ++ key) cl) as [_ [_ H]].
  rewrite count_three_pieces, Hup in H. destruct H as [H1 H2].
  rewrite Split_three_pieces in H2 by assumption.
  change (skipn 3 (a :: b :: c :: split_from "/" O "" key)) with (split_from "/" O "" key) in H2.
  rewrite Join_split_from in H2. change ("" ++ key)%string with key in H2.
  now split.
Qed.

(** X24: [DeleteMedia] deletes the object whose key is everything after the
    third slash of the URL, from the configured bucket, whatever scheme and
    host the URL names; the URL of an object in another bucket removes the
    object of the same key in this one. *)
Theorem DeleteMedia_key_after_third_slash (a b c key : string) (cl : Cloud) :
  no_slash a -> no_slash b -> no_slash c -> key <> "" ->
  s3_up cl = true ->
  let run := DeleteMedia (a ++ "/" ++ b ++ "/" ++ c ++ "/" ++ key) cl in
  fst run = None /\ s3 (snd run) = delete key (s3 cl) /\
  forall k, k <> key -> s3 (snd run) !! k = s3 cl !! k.
Proof.
  intros Ha Hb Hc _ Hup. cbv zeta.
  destruct (DeleteMedia_pieces a b c key cl Ha Hb Hc Hup) as [H1 H2].
  split; [exact H1|]. split; [exact H2|].
  intros k Hk. rewrite H2. now apply lookup_delete_ne.
Qed.

Lemma DeleteMedia_key_after_third_slash_witness :
  let cl := {| world := Sample.empty_world; twilio_calls := [];
               s3 := {[ "k/x.jpg" := {| obj_body := "bytes"; obj_content_type := "image/jpeg";
                                         obj_acl := "public-read" |} ]};
               s3_up := true |} in
  let run := DeleteMedia "http://elsewhere.example/k/x.jpg" cl in
  fst run = None /\ s3 (snd run) = delete "k/x.jpg" (s3 cl).
Proof.
  cbv zeta.
  destruct (DeleteMedia_key_after_third_slash "http:" "" "elsewhere.example" "k/x.jpg"
              {| world := Sample.empty_world; twilio_calls := [];
                 s3 := {[ "k/x.jpg" := {| obj_body := "bytes";
                                           obj_content_type := "image/jpeg";
                                           obj_acl := "public-read" |} ]};
                 s3_up := true |} eq_refl eq_refl eq_refl) as [H1 [H2 _]];
    [discriminate|reflexivity|].
  split; [exact H1|exact H2].
Defined.

(** X25: a URL with fewer than three slashes is refused as "invalid media
    URL format" before any request to S3: the bucket stays as it is, also
    when S3 is reachable. *)
Theorem DeleteMedia_short_url (url : string) (cl : Cloud) :
  (count_byte "/" url < 3)%nat ->
  fst (DeleteMedia url cl) = Some "invalid media URL format" /\
  s3 (snd (DeleteMedia url cl)) = s3 cl.
Proof.
  intros H. destruct (DeleteMedia_bucket url cl) as [_ [_ Hb]].
  apply Nat.ltb_lt in H. rewrite H in Hb. exact Hb.
Qed.

Lemma DeleteMedia_short_url_witness :
  fst (DeleteMedia "https://re9-media.s3.us-east-1.amazonaws.com"
         (SampleOut.cloud Sample.empty_world)) = Some "invalid media URL format".
Proof.
  apply (DeleteMedia_short_url "https://re9-media.s3.us-east-1.amazonaws.com"
           (SampleOut.cloud Sample.empty_world)).
  vm_compute. lia.
Defined.

(** What [UploadMedia] does, by the outcome of the read and of S3. *)
Lemma UploadMedia_outcome (clock : nat -> Time) (uuid_New : nat -> UUID)
    (format_date : Time -> string) (bucket region : string)
    (file : result string) (filename contentType : string) (cl : Cloud) :
  let run := UploadMedia clock uuid_New format_date bucket region file filename contentType cl in
  let key := ("whatsapp-media/" ++ format_date (clock (ticks (world cl))) ++ "/"
              ++ uuid_New (uuids (world cl)) ++ Ext filename)%string in
  s3_up (snd run) = s3_up cl /\ db (world (snd run)) = db (world cl) /\
  match file with
  | Ok content =>
      if s3_up cl then
        fst run = Ok (object_url bucket region key) /\
        s3 (snd run) = <[key := {| obj_body := content; obj_content_type := contentType;
                                   obj_acl := "public-read" |}]> (s3 cl)
      else (exists e, fst run = Err e) /\ s3 (snd run) = s3 cl
  | Err _ => (exists e, fst run = Err e) /\ s3 (snd run) = s3 cl
  end.
Proof.
  cbv zeta. unfold UploadMedia, PutObject. run_cloud.
  destruct file as [content|e]; simpl.
  - destruct (s3_up cl) eqn:Hup; simpl; repeat split; try assumption.
    eexists. reflexivity.
  - repeat split. eexists. reflexivity.
Qed.

(** X26: [UploadMedia] succeeds exactly when the file could be read and S3
    took the object; the object then sits, publicly readable, under the key
    made of the folder "whatsapp-media", the date, a fresh UUID and
    [filepath.Ext] of the file name.  That extension is the end of the file
    name, is empty or starts with a dot, and holds no slash: the file name
    cannot steer the object into another folder.  A failed upload leaves
    the bucket as it was. *)
Theorem UploadMedia_key (clock : nat -> Time) (uuid_New : nat -> UUID)
    (format_date : Time -> string) (bucket region : string)
    (file : result string) (filename contentType : string) (cl : Cloud) :
  let run := UploadMedia clock uuid_New format_date bucket region file filename contentType cl in
  let key := ("whatsapp-media/" ++ format_date (clock (ticks (world cl))) ++ "/"
              ++ uuid_New (uuids (world cl)) ++ Ext filename)%string in
  ((exists url, fst run = Ok url) <-> (exists content, file = Ok content) /\ s3_up cl = true) /\
  (forall url, fst run = Ok url ->
     url = object_url bucket region key /\
     exists content,
       file = Ok content /\
       s3 (snd run) !! key = Some {| obj_body := content; obj_content_type := contentType;
                                     obj_acl := "public-read" |}) /\
  ((forall url, fst run <> Ok url) -> s3 (snd run) = s3 cl) /\
  (exists stem, filename = (stem ++ Ext filename)%string) /\
  (Ext filename = "" \/ HasPrefix (Ext filename) "." = true) /\
  no_slash (Ext filename).
Proof.
  cbv zeta.
  pose proof (UploadMedia_outcome clock uuid_New format_date bucket region file filename
                contentType cl) as H.
  cbv zeta in H. destruct H as [_ [_ H]].
  split; [|split; [|split; [|split; [apply Ext_suffix|split;
    [apply Ext_dot|apply Ext_no_slash]]]]].
  - destruct file as [content|e]; [destruct (s3_up cl)|].
    + destruct H as [-> _].
      split; [intros _; split; [now exists content|reflexivity]|intros _; eexists; reflexivity].
    + destruct H as [[e ->] _].
      split; [intros [url C]; discriminate|intros [_ C]; discriminate].
    + destruct H as [[e' ->] _].
      split; [intros [url C]; discriminate|intros [[content C] _]; discriminate].
  - intros url Hurl. destruct file as [content|e]; [destruct (s3_up cl)|].
    + destruct H as [Hres Hs3]. rewrite Hres in Hurl. injection Hurl as <-.
      split; [reflexivity|]. exists content. split; [reflexivity|].
      rewrite Hs3. apply lookup_insert_eq.
    + destruct H as [[e He] _]. rewrite He in Hurl. discriminate.
    + destruct H as [[e' He] _]. rewrite He in Hurl. discriminate.
  - intros Hno. destruct file as [content|e]; [destruct (s3_up cl)|]; try apply H.
    destruct H as [Hres _]. exfalso. eapply Hno. exact Hres.
Qed.

Lemma UploadMedia_key_witness :
  let run := SampleMedia.UploadMedia (Ok "bytes") "../../etc/cron.d/x.sh" "text/x-sh"
               (SampleOut.cloud Sample.empty_world) in
  fst run = Ok (object_url SampleMedia.bucket SampleMedia.region
                  ("whatsapp-media/2023/11/14/" ++ Sample.uuid_New 0 ++ ".sh")) /\
  exists content,
    s3 (snd run) !! ("whatsapp-media/2023/11/14/" ++ Sample.uuid_New 0 ++ ".sh")%string
      = Some {| obj_body := content; obj_content_type := "text/x-sh";
                obj_acl := "public-read" |}.
Proof.
  cbv zeta. unfold SampleMedia.UploadMedia.
  destruct (UploadMedia_key Sample.clock Sample.uuid_New SampleMedia.format_date
              SampleMedia.bucket SampleMedia.region (Ok "bytes") "../../etc/cron.d/x.sh"
              "text/x-sh" (SampleOut.cloud Sample.empty_world)) as [[_ H1] [H2 _]].
  destruct H1 as [url Hurl]; [split; [now exists "bytes"|reflexivity]|].
  destruct (H2 url Hurl) as [Hkey [content [_ Hobj]]].
  split; [rewrite Hurl, Hkey; reflexivity|].
  exists content. exact Hobj.
Defined.

(** X27: the URL that [UploadMedia] returns leads [DeleteMedia] back to the
    object it stored, provided bucket name and region hold no slash: the
    upload followed by the deletion of the returned URL leaves a bucket that
    had no object under the new key as it was before. *)
Theorem UploadMedia_DeleteMedia_roundtrip (clock : nat -> Time) (uuid_New : nat -> UUID)
    (format_date : Time -> string) (bucket region : string)
    (content filename contentType url : string) (cl : Cloud) :
  no_slash bucket -> no_slash region ->
  let up := UploadMedia clock uuid_New format_date bucket region (Ok content) filename
              contentType cl in
  fst up = Ok url ->
  (forall key, url = object_url bucket region key -> s3 cl !! key = None) ->
  fst (DeleteMedia url (snd up)) = None /\ s3 (snd (DeleteMedia url (snd up))) = s3 cl.
Proof.
  intros Hb Hr. cbv zeta. intros Hup Hfresh.
  pose proof (UploadMedia_outcome clock uuid_New format_date bucket region (Ok content)
                filename contentType cl) as H.
  cbv zeta in H. destruct H as [Hs3up [_ H]].
  destruct (s3_up cl) eqn:Hcl; [|destruct H as [[e He] _]; rewrite He in Hup; discriminate].
  destruct H as [Hres Hs3]. rewrite Hres in Hup. injection Hup as <-.
  match type of Hs3 with _ = <[?k := _]> _ => set (key := k) in * end.
  assert (object_url bucket region key =
          ("https:" ++ "/" ++ "" ++ "/" ++ (bucket ++ ".s3." ++ region ++ ".amazonaws.com")
           ++ "/" ++ key)%string) as Hurl.
  { unfold object_url. rewrite !append_assoc. reflexivity. }
  rewrite Hurl.
  destruct (DeleteMedia_pieces "https:" ""
              (bucket ++ ".s3." ++ region ++ ".amazonaws.com") key
              (snd (UploadMedia clock uuid_New format_date bucket region (Ok content)
                      filename contentType cl))) as [H1 H2];
    try reflexivity.
  - unfold no_slash in *. rewrite !some_byte_app, Hb, Hr. reflexivity.
  - congruence.
  - split; [exact H1|]. rewrite H2, Hs3, delete_insert_eq.
    apply delete_id. now apply Hfresh.
Qed.

Lemma UploadMedia_DeleteMedia_roundtrip_witness :
  let cl := SampleOut.cloud Sample.empty_world in
  let up := SampleMedia.UploadMedia (Ok "bytes") "photo.jpg" "image/jpeg" cl in
  exists url, fst up = Ok url /\
    fst (DeleteMedia url (snd up)) = None /\ s3 (snd (DeleteMedia url (snd up))) = s3 cl.
Proof.
  cbv zeta. eexists. split; [reflexivity|].
  apply (UploadMedia_DeleteMedia_roundtrip Sample.clock Sample.uuid_New
           SampleMedia.format_date SampleMedia.bucket SampleMedia.region
           "bytes" "photo.jpg" "image/jpeg" _ (SampleOut.cloud Sample.empty_world)).
  - reflexivity.
  - reflexivity.
  - reflexivity.
  - intros key _. apply lookup_empty.
Defined.

Example UploadMedia_sample :
  fst (SampleMedia.UploadMedia (Ok "bytes") "photo.jpg" "image/jpeg"
         (SampleOut.cloud Sample.empty_world))
  = Ok "https://re9-media.s3.us-east-1.amazonaws.com/whatsapp-media/2023/11/14/0b0e7a52-8f0c-4c1e-9d3a-5a1f0c2e4b10.jpg".
Proof. reflexivity. Qed.

(** X28: for a message whose type was derived from its media content type,
    as [ProcessIncomingMessage] does, [ProcessMedia] returns nil and hands
    the message to the processor of its type, with one exception: a
    document whose content type is not "application/pdf" is skipped as an
    unknown media type, like a message that stayed text. *)
Theorem ProcessMedia_follows_type (message : WhatsAppMessage) (url contentType : string)
    (w : World) :
  MediaURL message = Some url -> MediaType message = Some contentType ->
  Type_ message = determineMessageType contentType ->
  fst (ProcessMedia message w) = Returns None /\
  logs (snd (ProcessMedia message w)) =
    (logs w ++ [ {| log_level := InfoLevel; log_msg := "Processing incoming media" |};
                 {| log_level := InfoLevel;
                    log_msg := processor_line (Type_ message) contentType |} ])%list /\
  db (snd (ProcessMedia message w)) = db w /\ cache (snd (ProcessMedia message w)) = cache w.
Proof.
  intros Hu Ht Htype. unfold ProcessMedia, process_stub. rewrite Hu, Ht, Htype.
  unfold determineMessageType, processor_line.
  destruct (HasPrefix contentType "image/");
    [|destruct (HasPrefix contentType "video/");
      [|destruct (HasPrefix contentType "audio/");
        [|destruct (HasPrefix contentType "application/pdf") eqn:Hpdf;
          [|destruct (HasPrefix contentType "application/")]]]];
    unfold bind, ret, log; cbn [fst snd add_log logs db cache];
    rewrite ?Hpdf; rewrite <- ?app_assoc; now repeat split.
Qed.

Lemma ProcessMedia_follows_type_witness :
  let m := {| ID := "id-9"; TwilioSID := "SM9"; From := "+5511"; To := "+1415";
              Direction := MessageDirectionInbound; Type_ := MessageTypeDocument;
              Status := MessageStatusDelivered; Content := "";
              MediaURL := Some "https://api.twilio.com/m/1";
              MediaType := Some "application/zip";
              Timestamp := 0; CreatedAt := 0; UpdatedAt := 0;
              UserID := None; SessionID := None; ErrorCode := None; ErrorMsg := None |} in
  fst (ProcessMedia m Sample.empty_world) = Returns None /\
  map log_msg (logs (snd (ProcessMedia m Sample.empty_world)))
    = ["Processing incoming media"; "Unknown media type, skipping processing"].
Proof.
  cbv zeta.
  match goal with |- fst (ProcessMedia ?m ?w) = _ /\ _ =>
    destruct (ProcessMedia_follows_type m "https://api.twilio.com/m/1" "application/zip" w
                eq_refl eq_refl eq_refl) as [H1 [H2 _]]
  end.
  split; [exact H1|]. rewrite H2. reflexivity.
Defined.

(** X29: the media goroutine that [HandleMessage] starts never dereferences
    a nil pointer: its message has media URL and media type both set, so
    [processMediaAsync] runs to its end, in whatever state of the world, and
    leaves table and cache alone.  (A message with a media URL and no media
    type would make it panic.) *)
Theorem spawned_media_task_completes (clock : nat -> Time) (uuid_New : nat -> UUID)
    (time_Parse : string -> option Time) (req : Request) (w : World) (m : WhatsAppMessage) :
  In (processMediaAsync m) (spawned (snd (HandleMessage clock uuid_New time_Parse req w))) ->
  ~ In (processMediaAsync m) (spawned w) ->
  forall w', fst (run_processMediaAsync m w') = Returns tt /\
             db (snd (run_processMediaAsync m w')) = db w' /\
             cache (snd (run_processMediaAsync m w')) = cache w'.
Proof.
  intros Hin Hnew w'.
  destruct (req_form req) as [wh|] eqn:Hform.
  - destruct (HandleMessage_outcome clock uuid_New time_Parse req wh w Hform)
      as [m0 [w1 [Hm [_ Hrun]]]].
    cbv zeta in Hrun. destruct Hrun as [_ [_ [_ Hsp]]].
    rewrite Hsp in Hin. rewrite !in_app_iff in Hin.
    destruct Hin as [Hin|[Hin|[Hin|[]]]]; [contradiction| |discriminate].
    destruct (ProcessIncomingMessage_outcome clock uuid_New time_Parse wh w)
      as [m' [w1' [Hp [_ [_ Hmedia]]]]].
    rewrite Hp in Hm. simpl in Hm. injection Hm as ->.
    destruct (MediaURL m0) as [url|] eqn:Hurl; [|destruct Hin].
    destruct Hin as [Hin|[]]. injection Hin as ->.
    destruct (match Atoi (wh_NumMedia wh) with Some n => _ | None => false end);
      destruct Hmedia as [Hu [Ht Hty]]; [|congruence].
    unfold run_processMediaAsync, ProcessMedia, process_stub. rewrite Hurl, Ht.
    destruct (HasPrefix (wh_MediaContentType0 wh) "image/");
      [|destruct (HasPrefix (wh_MediaContentType0 wh) "video/");
        [|destruct (HasPrefix (wh_MediaContentType0 wh) "audio/");
          [|destruct (HasPrefix (wh_MediaContentType0 wh) "application/pdf")]]];
      unfold bind, ret, log; cbn [fst snd add_log logs db cache]; now repeat split.
  - unfold HandleMessage in Hin. rewrite Hform in Hin. simpl in Hin. contradiction.
Qed.

Example media_task_without_type_panics :
  let m := {| ID := "id-9"; TwilioSID := "SM9"; From := "+5511"; To := "+1415";
              Direction := MessageDirectionOutbound; Type_ := MessageTypeImage;
              Status := MessageStatusSent; Content := "";
              MediaURL := Some "https://cdn.example/p.jpg"; MediaType := None;
              Timestamp := 0; CreatedAt := 0; UpdatedAt := 0;
              UserID := None; SessionID := None; ErrorCode := None; ErrorMsg := None |} in
  fst (run_processMediaAsync m Sample.empty_world) = Panics /\
  fst (ProcessMedia m Sample.empty_world) = Panics.
Proof. cbv zeta. split; reflexivity. Qed.

Lemma spawned_media_task_completes_witness :
  exists m,
    In (processMediaAsync m)
       (spawned (snd (HandleMessage Sample.clock Sample.uuid_New Sample.time_Parse_RFC3339
                        (Sample.post "" picture_inbound) Sample.empty_world))) /\
    Type_ m = MessageTypeImage /\
    fst (run_processMediaAsync m Sample.empty_world) = Returns tt.
Proof.
  eexists. split; [left; reflexivity|]. split; [reflexivity|].
  eapply (spawned_media_task_completes Sample.clock Sample.uuid_New
            Sample.time_Parse_RFC3339 (Sample.post "" picture_inbound) Sample.empty_world).
  - left. reflexivity.
  - intros [].
Defined.

(** ** Configuration *)

Lemma first_unset_none (visit : list (string * string)) :
  config.first_unset visit = None <-> forall k v, In (k, v) visit -> v <> "".
Proof.
  induction visit as [|[key value] rest IH]; simpl.
  - split; [intros _ k v []|reflexivity].
  - destruct (String.eqb_spec value "") as [E|E].
    + split; [discriminate|]. intros H. exfalso. apply (H key value); [now left|exact E].
    + rewrite IH. split.
      * intros H k v [Hkv|Hin]; [injection Hkv as <- <-; exact E|now apply (H k)].
      * intros H k v Hin. apply (H k). now right.
Qed.

Lemma first_unset_some (visit : list (string * string)) (e : string) :
  config.first_unset visit = Some e ->
  exists k, In (k, "") visit /\ e = ("required environment variable " ++ k ++ " is not set")%string.
Proof.
  induction visit as [|[key value] rest IH]; simpl; [discriminate|].
  destruct (String.eqb_spec value "") as [E|E].
  - intros H. injection H as <-. exists key. subst value. split; [now left|reflexivity].
  - intros H. destruct (IH H) as [k [Hin He]]. exists k. split; [now right|exact He].
Qed.

Lemma required_of_Load (env : gmap string string) (k v : string) :
  In (k, v) (config.required (config.Load env)) <->
  In k config.required_variables /\ v = config.getEnv env k "".
Proof.
  unfold config.required, config.required_variables, config.Load. simpl. split.
  - intros H. repeat (destruct H as [H|H]; [injection H as <- <-; split; [tauto|reflexivity]|]).
    destruct H.
  - intros [H ->]. repeat (destruct H as [<-|H]; [tauto|]). destruct H.
Qed.

(** X30: [Validate] accepts the configuration that [Load] reads from an
    environment exactly when each of the six required variables is set to a
    non-empty value, in whatever order Go ranges over the map; when it
    refuses, the error names a required variable that is unset or empty,
    which of several being left to that order. *)
Theorem Validate_Load (env : gmap string string) (visit : list (string * string)) :
  Permutation visit (config.required (config.Load env)) ->
  (config.Validate visit (config.Load env) = None <->
   forall k, In k config.required_variables -> exists v, env !! k = Some v /\ v <> "") /\
  (forall e, config.Validate visit (config.Load env) = Some e ->
     exists k, In k config.required_variables /\
       e = ("required environment variable " ++ k ++ " is not set")%string /\
       (env !! k = None \/ env !! k = Some "")).
Proof.
  intros Hperm. unfold config.Validate. split.
  - rewrite first_unset_none. split.
    + intros H k Hk.
      assert (In (k, config.getEnv env k "") visit) as Hin.
      { apply (Permutation_in _ (Permutation_sym Hperm)). apply required_of_Load. now split. }
      apply H in Hin. unfold config.getEnv in Hin.
      destruct (env !! k) as [v|]; [now exists v|contradiction].
    + intros H k v Hin. apply (Permutation_in _ Hperm) in Hin.
      apply required_of_Load in Hin. destruct Hin as [Hk ->].
      destruct (H k Hk) as [v [Hv Hne]]. unfold config.getEnv. now rewrite Hv.
  - intros e He. destruct (first_unset_some visit e He) as [k [Hin Hmsg]].
    apply (Permutation_in _ Hperm) in Hin. apply required_of_Load in Hin.
    destruct Hin as [Hk Hv]. exists k. split; [exact Hk|]. split; [exact Hmsg|].
    unfold config.getEnv in Hv. destruct (env !! k) as [v|]; [right; congruence|now left].
Qed.

Lemma Validate_Load_witness :
  config.Validate (rev (config.required (config.Load config.sample_env)))
    (config.Load config.sample_env) = None /\
  exists k, config.Validate (rev (config.required (config.Load ∅))) (config.Load ∅)
            = Some ("required environment variable " ++ k ++ " is not set")%string /\
            In k config.required_variables.
Proof.
  split.
  - apply (Validate_Load config.sample_env
             (rev (config.required (config.Load config.sample_env)))).
    + apply Permutation_sym, Permutation_rev.
    + intros k Hk. simpl in Hk.
      repeat (destruct Hk as [<-|Hk]; [eexists; split; [reflexivity|discriminate]|]).
      destruct Hk.
  - destruct (Validate_Load ∅ (rev (config.required (config.Load ∅))))
      as [_ H]; [apply Permutation_sym, Permutation_rev|].
    destruct (H _ eq_refl) as [k [Hk [He _]]].
    exists k. split; [|exact Hk]. rewrite <- He. reflexivity.
Defined.

Example Load_sample :
  config.Port (config.Load config.sample_env) = "" /\
  config.RateLimitPerMinute (config.Load config.sample_env) = 60 /\
  config.RedisURL (config.Load config.sample_env) = "redis://localhost:6379" /\
  config.Validate (config.required (config.Load ∅)) (config.Load ∅)
    = Some "required environment variable TWILIO_ACCOUNT_SID is not set" /\
  config.Validate (rev (config.required (config.Load ∅))) (config.Load ∅)
    = Some "required environment variable JWT_SECRET is not set".
Proof. repeat split; reflexivity. Qed.
